(** * Covenantrix desktop shell: the service-lifecycle orchestrator

    A shallow embedding of the Electron main process ([main.js], class
    [CovenantrixApp], the revision that auto-starts the backend) and of the
    properties its design document states about it.

    The JavaScript object [covenantrixApp] becomes the record [App]; every
    method becomes a computation in a small state-and-exception monad [M]
    whose state is the pair of the object's fields and the list of events
    the method has caused so far.  Everything the code asks of its host
    (the platform name, the filesystem, the HTTP server behind the fixed
    endpoint, the dialog the user answers, [child_process.spawn]) is a field
    of the record [World].

    An [async] method runs to its end as one step of the event loop
    ([Action]); a listener that fires while the method is suspended in an
    [await] is taken to fire before or after it. *)

From Stdlib Require Import List String Ascii ZArith NArith Lia Bool Arith.
Import ListNotations.
Open Scope string_scope.

Set Implicit Arguments.

(* ===================================================================== *)
(** ** JavaScript values that cross the IPC bridge *)
(* ===================================================================== *)

Module Js.

(** The [data] argument of ['api-call'] is whatever the renderer passed to
    [apiCall(method, endpoint, data)]. *)
#[warnings="-register-all"]
Inductive Value :=
| Undefined
| Null
| Bool (b : bool)
| Num (z : Z)
| NaN
| Str (s : string)
| Obj (fields : list (string * Value)).

(** ToBoolean, the test behind [if (data)]. *)
Definition truthy (v : Value) : bool :=
  match v with
  | Undefined | Null | NaN => false
  | Bool b => b
  | Num z => negb (z =? 0)%Z
  | Str s => negb (s =? "")
  | Obj _ => true
  end.

(** [data] is "non-null" when it is neither [null] nor [undefined]. *)
Definition non_null (v : Value) : bool :=
  match v with
  | Undefined | Null => false
  | _ => true
  end.

End Js.

(* ===================================================================== *)
(** ** The host: platform, filesystem, network, user *)
(* ===================================================================== *)

(** What one call of axios ends with, as its Node adapter sees it: the
    response it is left with once it has followed the redirects it follows
    (a 3xx status here is one axios did not follow), or no response at all:
    the connection was refused or reset, or the body stream failed while it
    was read.  In both cases after [ans_latency] milliseconds. *)
Record ServerAnswer := {
  ans_status  : option Z;     (* None: no response *)
  ans_body    : Js.Value;
  ans_latency : N
}.

Record World := {
  w_platform      : string;              (* process.platform *)
  w_isPackaged    : bool;                (* app.isPackaged *)
  w_resourcesPath : string;              (* process.resourcesPath *)
  w_dirname       : string;              (* __dirname of main.js *)
  w_join          : list string -> string;  (* path.join *)
  w_pathDirname   : string -> string;    (* path.dirname *)
  w_existsSync    : string -> bool;      (* fs.existsSync *)
  w_server        : nat -> ServerAnswer; (* answer to the n-th call of axios *)
  w_spawnThrows   : nat -> bool;         (* does the n-th spawn throw? *)
  w_choice        : nat -> nat           (* button of the n-th message box *)
}.

(* ===================================================================== *)
(** ** axios *)
(* ===================================================================== *)

Inductive Payload :=
| PJson (v : Js.Value)
| PForm (file : string) (folder_id : string).

Record AxiosConfig := {
  cfg_method  : string;
  cfg_url     : string;
  cfg_timeout : N;
  cfg_params  : option Js.Value;
  cfg_data    : option Payload
}.

Inductive AxiosError :=
| TimeoutExceeded (ms : N)        (* "timeout of <ms>ms exceeded" *)
| BadStatus (code : Z)            (* "Request failed with status code <code>" *)
| NetworkError                    (* no response: "connect ECONNREFUSED ..." *)
| UnsendableData.                 (* "Data after transformation must be a
                                     string, an ArrayBuffer, a Buffer, or a
                                     Stream" *)

Inductive AxiosResult :=
| Resolved (status : Z) (body : Js.Value)
| Rejected (e : AxiosError).

(** axios with its default [validateStatus], for a call it has sent: the
    promise resolves exactly for the statuses 200..299 that arrive before
    the timeout, and rejects for every other status, for a failed
    connection and for a timeout. *)
Definition axios_result (timeout : N) (a : ServerAnswer) : AxiosResult :=
  if (timeout <=? ans_latency a)%N then Rejected (TimeoutExceeded timeout)
  else match ans_status a with
       | None => Rejected NetworkError
       | Some c =>
           if ((200 <=? c) && (c <? 300))%Z then Resolved c (ans_body a)
           else Rejected (BadStatus c)
       end.

(** Milliseconds the caller stays suspended on the request. *)
Definition axios_elapsed (timeout : N) (a : ServerAnswer) : N :=
  N.min timeout (ans_latency a).

(** What the Node adapter checks before it opens a connection.  After
    [transformRequest] an object has become its JSON text and a string has
    stayed a string; a falsy value means no body; any other value, that is
    a non-zero number or [true], is refused and nothing is sent. *)
Definition unsendable (cfg : AxiosConfig) : bool :=
  match cfg_data cfg with
  | Some (PJson (Js.Num z)) => negb (z =? 0)%Z
  | Some (PJson (Js.Bool b)) => b
  | _ => false
  end.

(** [error.response?.status] *)
Definition error_status (e : AxiosError) : option Z :=
  match e with
  | BadStatus c => Some c
  | _ => None
  end.

(* ===================================================================== *)
(** ** Events *)
(* ===================================================================== *)

Definition Handle := nat.   (* identity of a ChildProcess object *)

Inductive SpawnMode := Bundled | Venv.

Inductive JsError :=
| ErrExecutableNotFound (p : string)     (* "Python executable not found at: p" *)
| ErrVenvPythonNotFound (p : string)     (* "Venv Python executable not found at: p" *)
| ErrServiceScriptNotFound (p : string)  (* "Service script not found at: p" *)
| ErrSpawn                               (* spawn() itself threw *)
| ErrNullWindow                          (* TypeError: this.mainWindow is null *)
| ErrInvalidPath                         (* fs.createReadStream(null) *)
| ErrAxios (e : AxiosError).

(** One constructor per [console.log] / [console.error] call of the
    modelled methods. *)
Inductive LogMsg :=
| LogConnecting                          (* connectToExistingService, entry *)
| LogConnected
| LogCouldNotConnect
| LogAutoStarting                        (* autoStartAndConnect, entry *)
| LogAlreadyRunning
| LogNotRunningStarting
| LogFailedToStart
| LogFailedToConnectAfterStart
| LogStartingBundled                     (* startPythonService, entry *)
| LogUsingVenvFallback
| LogUsingBundled (p : string)
| LogBundledStarted
| LogFailedBundled (e : JsError)
| LogFallingBack                         (* startPythonServiceVenvFallback, entry *)
| LogDevFallbackUsing (p : string)
| LogServiceScript (p : string)
| LogVenvStarted
| LogFailedVenv (e : JsError)
| LogAppPackaged (b : bool)              (* getPythonExecutablePath *)
| LogDevLookingIn (p : string)
| LogBundledNotFoundInDev
| LogTargetPath (p : string)
| LogStopping                            (* disconnectFromService *)
| LogLeavingRunning
| LogExited (m : SpawnMode) (code : option Z) (signal : option string)
| LogApiCallFailed (e : JsError)
| LogUploadFailed (e : JsError).

Inductive Event :=
| EvLog (m : LogMsg)
| EvAxios (cfg : AxiosConfig) (r : AxiosResult) (elapsed : N)
| EvSleep (ms : N)                                   (* setTimeout *)
| EvSend (channel : string) (arg : string)           (* webContents.send *)
| EvSpawn (h : Handle) (m : SpawnMode)
          (cmd : string) (args : list string) (cwd : string)
| EvSpawnThrew (cmd : string)
| EvKill (h : Handle)                                (* pythonProcess.kill() *)
| EvMessageBox (response : nat)                      (* the recovery prompt *)
| EvErrorBox (title : string)                        (* dialog.showErrorBox *)
| EvExited (h : Handle).                             (* the child has exited *)

(* ===================================================================== *)
(** ** The application object and the monad of its methods *)
(* ===================================================================== *)

Record App := {
  mainWindow    : option unit;      (* null, or the BrowserWindow *)
  pythonProcess : option Handle     (* null, or the ChildProcess we spawned *)
}.

Record Sim := {
  app   : App;
  trace : list Event                (* oldest event first *)
}.

(** [constructor()] *)
Definition new_app : App := {| mainWindow := None; pythonProcess := None |}.
Definition init : Sim := {| app := new_app; trace := [] |}.

Definition servicePort : Z := 8080.
Definition serviceUrl : string := "http://127.0.0.1:8080".

Inductive Outcome (A : Type) :=
| Ret (a : A)
| Throw (e : JsError).
Arguments Throw {A} e.

Definition M (A : Type) : Type := Sim -> Outcome A * Sim.

Definition ret {A} (a : A) : M A := fun s => (Ret a, s).
Definition throw {A} (e : JsError) : M A := fun s => (Throw e, s).
Definition bind {A B} (m : M A) (k : A -> M B) : M B :=
  fun s => match m s with
           | (Ret a, s') => k a s'
           | (Throw e, s') => (Throw e, s')
           end.
(** [try { body } catch (error) { handler }]: what the body did before it
    threw stays done. *)
Definition try_catch {A} (body : M A) (handler : JsError -> M A) : M A :=
  fun s => match body s with
           | (Ret a, s') => (Ret a, s')
           | (Throw e, s') => handler e s'
           end.

Declare Scope js_scope.
Delimit Scope js_scope with js.
Notation "x <- m ;; k" := (bind m (fun x => k))
  (at level 61, m at next level, right associativity) : js_scope.
Notation "m ;; k" := (bind m (fun _ => k))
  (at level 61, right associativity) : js_scope.
Open Scope js_scope.

Definition emit (e : Event) : M unit :=
  fun s => (Ret tt, {| app := app s; trace := trace s ++ [e] |}).
Definition log (m : LogMsg) : M unit := emit (EvLog m).
Definition get_app : M App := fun s => (Ret (app s), s).
Definition set_pythonProcess (p : option Handle) : M unit :=
  fun s => (Ret tt, {| app := {| mainWindow := mainWindow (app s);
                                 pythonProcess := p |};
                       trace := trace s |}).
Definition set_mainWindow (x : option unit) : M unit :=
  fun s => (Ret tt, {| app := {| mainWindow := x;
                                 pythonProcess := pythonProcess (app s) |};
                       trace := trace s |}).

(** Counters read off the trace: they index the answers of the host. *)
Definition is_request (e : Event) : bool :=
  match e with EvAxios _ _ _ => true | _ => false end.
Definition is_spawn_attempt (e : Event) : bool :=
  match e with EvSpawn _ _ _ _ _ | EvSpawnThrew _ => true | _ => false end.
Definition is_message_box (e : Event) : bool :=
  match e with EvMessageBox _ => true | _ => false end.
Definition count (p : Event -> bool) (tr : list Event) : nat :=
  List.length (filter p tr).

(** [await axios(config)].  A call whose data the adapter refuses rejects at
    once and reaches no server; the trace records it all the same, as a
    call of axios. *)
Definition axios (w : World) (cfg : AxiosConfig) : M (Z * Js.Value) :=
  fun s =>
    let a := w_server w (count is_request (trace s)) in
    let r := if unsendable cfg then Rejected UnsendableData
             else axios_result (cfg_timeout cfg) a in
    let elapsed := if unsendable cfg then 0%N
                   else axios_elapsed (cfg_timeout cfg) a in
    let s' := {| app := app s;
                 trace := trace s ++ [EvAxios cfg r elapsed] |} in
    match r with
    | Resolved c b => (Ret (c, b), s')
    | Rejected e => (Throw (ErrAxios e), s')
    end.

(** [axios.get(url, { timeout })] *)
Definition axios_get (w : World) (url : string) (timeout : N) : M (Z * Js.Value) :=
  axios w {| cfg_method := "get"; cfg_url := url; cfg_timeout := timeout;
             cfg_params := None; cfg_data := None |}.

(** [await new Promise(resolve => setTimeout(resolve, ms))] *)
Definition sleep (ms : N) : M unit := emit (EvSleep ms).

(** [this.mainWindow.webContents.send(channel, arg)]: a TypeError when the
    window has been closed (the ['closed'] handler nulls the field). *)
Definition send (channel arg : string) : M unit :=
  a <- get_app ;;
  match mainWindow a with
  | None => throw ErrNullWindow
  | Some _ => emit (EvSend channel arg)
  end.

(** [spawn(cmd, args, { cwd, stdio })]: a fresh ChildProcess, or an
    exception. *)
Definition spawn (w : World) (m : SpawnMode)
           (cmd : string) (args : list string) (cwd : string) : M Handle :=
  fun s =>
    let n := count is_spawn_attempt (trace s) in
    if w_spawnThrows w n
    then (Throw ErrSpawn,
          {| app := app s; trace := trace s ++ [EvSpawnThrew cmd] |})
    else (Ret n,
          {| app := app s; trace := trace s ++ [EvSpawn n m cmd args cwd] |}).

(* ===================================================================== *)
(** ** ArtifactLocator: [getPythonExecutablePath] *)
(* ===================================================================== *)

Definition executableName (w : World) : string :=
  if w_platform w =? "win32" then "covenantrix-service.exe"
  else "covenantrix-service".

(** [path.join(__dirname, '../../')] *)
Definition projectRoot (w : World) : string :=
  w_join w [w_dirname w; "../../"].

Definition packagedExecutable (w : World) : string :=
  if w_platform w =? "darwin"
  then w_join w [w_resourcesPath w; "python-service"; executableName w]
  else w_join w [w_resourcesPath w; "python-service"; executableName w].

Definition devExecutable (w : World) : string :=
  w_join w [projectRoot w; "python-dist"; executableName w].

(** Returns the path ([Some]) or [null] ([None], "use the venv fallback"). *)
Definition getPythonExecutablePath (w : World) : M (option string) :=
  log (LogAppPackaged (w_isPackaged w)) ;;
  if w_isPackaged w then
    let executablePath := packagedExecutable w in
    log (LogTargetPath executablePath) ;;
    ret (Some executablePath)
  else
    let executablePath := devExecutable w in
    log (LogDevLookingIn executablePath) ;;
    if negb (w_existsSync w executablePath) then
      log LogBundledNotFoundInDev ;;
      ret None
    else
      log (LogTargetPath executablePath) ;;
      ret (Some executablePath).

(* ===================================================================== *)
(** ** ProcessSupervisor: the two launchers and [disconnectFromService] *)
(* ===================================================================== *)

Definition venvBinDir (w : World) : string :=
  if w_platform w =? "win32" then "Scripts" else "bin".
Definition venvPythonExe (w : World) : string :=
  if w_platform w =? "win32" then "python.exe" else "python".
Definition venvPython (w : World) : string :=
  w_join w [projectRoot w; "venv"; venvBinDir w; venvPythonExe w].
Definition serviceScript (w : World) : string :=
  w_join w [projectRoot w; "core-rag-service"; "service_main.py"].

Definition startPythonServiceVenvFallback (w : World) : M bool :=
  log LogFallingBack ;;
  try_catch
    (log (LogDevFallbackUsing (venvPython w)) ;;
     log (LogServiceScript (serviceScript w)) ;;
     if negb (w_existsSync w (venvPython w)) then
       throw (ErrVenvPythonNotFound (venvPython w))
     else if negb (w_existsSync w (serviceScript w)) then
       throw (ErrServiceScriptNotFound (serviceScript w))
     else
       h <- spawn w Venv (venvPython w) [serviceScript w]
                  (w_join w [projectRoot w; "core-rag-service"]) ;;
       set_pythonProcess (Some h) ;;
       log LogVenvStarted ;;
       ret true)
    (fun error =>
       log (LogFailedVenv error) ;;
       ret false).

(** [!executablePath]: [null] and the empty string are both falsy. *)
Definition no_path (p : option string) : bool :=
  match p with
  | None => true
  | Some s => s =? ""
  end.

Definition startPythonService (w : World) : M bool :=
  log LogStartingBundled ;;
  try_catch
    (p <- getPythonExecutablePath w ;;
     if no_path p then
       log LogUsingVenvFallback ;;
       startPythonServiceVenvFallback w
     else
       let executablePath := match p with Some s => s | None => "" end in
       log (LogUsingBundled executablePath) ;;
       if negb (w_existsSync w executablePath) then
         throw (ErrExecutableNotFound executablePath)
       else
         let workingDir := w_pathDirname w executablePath in
         h <- spawn w Bundled executablePath [] workingDir ;;
         set_pythonProcess (Some h) ;;
         log LogBundledStarted ;;
         ret true)
    (fun error =>
       log (LogFailedBundled error) ;;
       ret false).

(** The ['exit'] listener both launchers register on the child: one
    [console.log], nothing else.  (The ['error'] listener and the two
    ['data'] listeners on stdout and stderr also just log; they are left
    out.) *)
Definition on_exit (m : SpawnMode) (code : option Z) (signal : option string)
  : M unit :=
  log (LogExited m code signal).

Definition kill (h : Handle) : M unit := emit (EvKill h).

Definition disconnectFromService : M unit :=
  a <- get_app ;;
  match pythonProcess a with
  | Some h =>
      log LogStopping ;;
      kill h ;;
      set_pythonProcess None
  | None =>
      log LogLeavingRunning
  end.

(* ===================================================================== *)
(** ** HealthProbe: [connectToExistingService] *)
(* ===================================================================== *)

Definition health_url : string := serviceUrl ++ "/health".

(** The literals of [connectToExistingService] and of the pre-check. *)
Definition probe_timeout_ms : N := 1000.     (* { timeout: 1000 } *)
Definition probe_interval_ms : N := 1000.    (* setTimeout(resolve, 1000) *)
Definition precheck_timeout_ms : N := 2000.  (* { timeout: 2000 } *)

(** One turn of the [for] loop; [true] means the method returned [true]
    from inside the loop, [false] that the loop goes on. *)
Definition connect_attempt (w : World) : M bool :=
  try_catch
    (response <- axios_get w health_url probe_timeout_ms ;;
     if (fst response =? 200)%Z then
       log LogConnected ;;
       send "service-ready" serviceUrl ;;
       ret true
     else
       ret false)
    (fun _ =>
       sleep probe_interval_ms ;;
       ret false).

Fixpoint connect_loop (w : World) (remaining : nat) : M bool :=
  match remaining with
  | O => ret false
  | S remaining' =>
      done <- connect_attempt w ;;
      if done then ret true else connect_loop w remaining'
  end.

Definition connectToExistingService (w : World) (maxAttempts : nat) : M bool :=
  log LogConnecting ;;
  connected <- connect_loop w maxAttempts ;;
  if connected then ret true
  else
    log LogCouldNotConnect ;;
    ret false.

(* ===================================================================== *)
(** ** ConnectionOrchestrator *)
(* ===================================================================== *)

Definition showServiceError (w : World) : M unit :=
  if w_isPackaged w then emit (EvErrorBox "Service Startup Failed")
  else emit (EvErrorBox "Development Service Error").

(** [dialog.showMessageBox] with the three buttons 'Start Service
    Automatically', 'Manual Instructions', 'Retry Connection'. *)
Definition showMessageBox (w : World) : M nat :=
  fun s =>
    let r := w_choice w (count is_message_box (trace s)) in
    (Ret r, {| app := app s; trace := trace s ++ [EvMessageBox r] |}).

Definition showServiceConnectionOptions (w : World) : M unit :=
  response <- showMessageBox w ;;
  match response with
  | 0 => _ <- startPythonService w ;; ret tt
  | 1 => showServiceError w
  | 2 => _ <- connectToExistingService w 10 ;; ret tt
  | _ => ret tt
  end.

(** The pre-check of [autoStartAndConnect]; [true] means the method
    returned from inside the [try]. *)
Definition precheck (w : World) : M bool :=
  try_catch
    (response <- axios_get w health_url precheck_timeout_ms ;;
     if (fst response =? 200)%Z then
       log LogAlreadyRunning ;;
       send "service-ready" serviceUrl ;;
       ret true
     else
       ret false)
    (fun _ =>
       log LogNotRunningStarting ;;
       ret false).

Definition autoStartAndConnect (w : World) : M unit :=
  log LogAutoStarting ;;
  returned <- precheck w ;;
  if returned then ret tt
  else
    started <- startPythonService w ;;
    if negb started then
      log LogFailedToStart ;;
      showServiceConnectionOptions w
    else
      connected <- connectToExistingService w 20 ;;
      if negb connected then
        log LogFailedToConnectAfterStart ;;
        showServiceConnectionOptions w
      else
        ret tt.

(* ===================================================================== *)
(** ** RequestBridge: the two IPC handlers *)
(* ===================================================================== *)

Record Envelope := {
  env_success : bool;
  env_data    : option Js.Value;
  env_error   : option JsError;     (* error.message *)
  env_status  : option Z
}.

Definition js_error_status (e : JsError) : option Z :=
  match e with
  | ErrAxios a => error_status a
  | _ => None
  end.

(** The [config] object after the [if (data)] block. *)
Definition api_config (method endpoint : string) (data : Js.Value) : AxiosConfig :=
  let url := serviceUrl ++ endpoint in
  if Js.truthy data then
    if method =? "GET" then
      {| cfg_method := method; cfg_url := url; cfg_timeout := 30000;
         cfg_params := Some data; cfg_data := None |}
    else
      {| cfg_method := method; cfg_url := url; cfg_timeout := 30000;
         cfg_params := None; cfg_data := Some (PJson data) |}
  else
    {| cfg_method := method; cfg_url := url; cfg_timeout := 30000;
       cfg_params := None; cfg_data := None |}.

(** [ipcMain.handle('api-call', ...)] *)
Definition api_call (w : World) (method endpoint : string) (data : Js.Value)
  : M Envelope :=
  try_catch
    (response <- axios w (api_config method endpoint data) ;;
     ret {| env_success := true; env_data := Some (snd response);
            env_error := None; env_status := None |})
    (fun error =>
       log (LogApiCallFailed error) ;;
       ret {| env_success := false; env_data := None;
              env_error := Some error;
              env_status := js_error_status error |}).

(** [fs.createReadStream(filePath)] throws on [null]; a path that does not
    exist only fails later, on the stream. *)
Definition createReadStream (filePath : option string) : M string :=
  match filePath with
  | None => throw ErrInvalidPath
  | Some p => ret p
  end.

Definition upload_url : string := serviceUrl ++ "/api/documents/upload".

(** [ipcMain.handle('upload-file', ...)], [folderId = 'default'] when the
    caller passes none. *)
Definition upload_file (w : World) (filePath : option string)
           (folderId : option string) : M Envelope :=
  let folderId := match folderId with Some f => f | None => "default" end in
  try_catch
    (file <- createReadStream filePath ;;
     response <- axios w {| cfg_method := "post"; cfg_url := upload_url;
                            cfg_timeout := 60000; cfg_params := None;
                            cfg_data := Some (PForm file folderId) |} ;;
     ret {| env_success := true; env_data := Some (snd response);
            env_error := None; env_status := None |})
    (fun error =>
       log (LogUploadFailed error) ;;
       ret {| env_success := false; env_data := None;
              env_error := Some error; env_status := None |}).

(* ===================================================================== *)
(** ** The event loop: what the host can make the application do *)
(* ===================================================================== *)

(** [this.mainWindow = new BrowserWindow(...)] *)
Definition createWindow : M unit := set_mainWindow (Some tt).

(** The ['ready-to-show'] listener: [this.mainWindow.show()], then
    [this.autoStartAndConnect()]. *)
Definition on_ready_to_show (w : World) : M unit :=
  a <- get_app ;;
  match mainWindow a with
  | None => throw ErrNullWindow
  | Some _ => autoStartAndConnect w
  end.

(** The ['closed'] listener. *)
Definition on_closed : M unit := set_mainWindow None.

(** Which launcher spawned [h], if any. *)
Fixpoint spawn_mode_of (h : Handle) (tr : list Event) : option SpawnMode :=
  match tr with
  | [] => None
  | EvSpawn h' m _ _ _ :: tr' =>
      if Nat.eqb h h' then Some m else spawn_mode_of h tr'
  | _ :: tr' => spawn_mode_of h tr'
  end.

Definition is_exit_of (h : Handle) (e : Event) : bool :=
  match e with EvExited h' => Nat.eqb h h' | _ => false end.

(** The child [h] exits: the listener registered by its launcher runs. *)
Definition child_exit (h : Handle) (code : option Z) (signal : option string)
  : M unit :=
  fun s =>
    match spawn_mode_of h (trace s) with
    | Some m =>
        if existsb (is_exit_of h) (trace s) then (Ret tt, s)
        else (emit (EvExited h) ;; on_exit m code signal) s
    | None => (Ret tt, s)
    end.

Inductive Action :=
| ACreateWindow                 (* app ready, or 'activate' with no window *)
| AReadyToShow
| AClosed
| AWindowAllClosed              (* disconnectFromService(), maybe app.quit() *)
| ABeforeQuit                   (* disconnectFromService() *)
| AChildExit (h : Handle) (code : option Z) (signal : option string)
| AApiCall (method endpoint : string) (data : Js.Value)
| AUploadFile (filePath folderId : option string).

Definition handler (w : World) (a : Action) : M unit :=
  match a with
  | ACreateWindow => createWindow
  | AReadyToShow => on_ready_to_show w
  | AClosed => on_closed
  | AWindowAllClosed => disconnectFromService
  | ABeforeQuit => disconnectFromService
  | AChildExit h code signal => child_exit h code signal
  | AApiCall method endpoint data => _ <- api_call w method endpoint data ;; ret tt
  | AUploadFile filePath folderId => _ <- upload_file w filePath folderId ;; ret tt
  end.

(** State after running a computation, and after a list of actions. *)
Definition exec {A} (m : M A) (s : Sim) : Sim := snd (m s).
Definition result {A} (m : M A) (s : Sim) : Outcome A := fst (m s).

Definition fire (w : World) (s : Sim) (a : Action) : Sim := exec (handler w a) s.
Definition run (w : World) (acts : list Action) (s : Sim) : Sim :=
  fold_left (fire w) acts s.

Inductive reachable (w : World) : Sim -> Prop :=
| reach_init : reachable w init
| reach_step s a : reachable w s -> reachable w (fire w s a).

(* ===================================================================== *)
(** ** What the trace shows *)
(* ===================================================================== *)

Definition is_spawn (e : Event) : bool :=
  match e with EvSpawn _ _ _ _ _ => true | _ => false end.
Definition is_kill (e : Event) : bool :=
  match e with EvKill _ => true | _ => false end.
Definition is_log (e : Event) : bool :=
  match e with EvLog _ => true | _ => false end.
Definition is_ready_send (e : Event) : bool :=
  match e with
  | EvSend channel _ => channel =? "service-ready"
  | _ => false
  end.

(** Everything but console output. *)
Definition observable (tr : list Event) : list Event :=
  filter (fun e => negb (is_log e)) tr.

(** Handles of the children that were spawned and have neither been killed
    nor exited, oldest first. *)
Fixpoint live (tr : list Event) (acc : list Handle) : list Handle :=
  match tr with
  | [] => acc
  | EvSpawn h _ _ _ _ :: tr' => live tr' (acc ++ [h])
  | EvKill h :: tr' => live tr' (filter (fun h' => negb (Nat.eqb h h')) acc)
  | EvExited h :: tr' => live tr' (filter (fun h' => negb (Nat.eqb h h')) acc)
  | _ :: tr' => live tr' acc
  end.
Definition live_handles (tr : list Event) : list Handle := live tr [].

Definition spawned (tr : list Event) : list Handle :=
  flat_map (fun e => match e with EvSpawn h _ _ _ _ => [h] | _ => [] end) tr.
Definition killed (tr : list Event) : list Handle :=
  flat_map (fun e => match e with EvKill h => [h] | _ => [] end) tr.

(** Milliseconds of suspension a trace accounts for. *)
Definition event_ms (e : Event) : N :=
  match e with
  | EvAxios _ _ elapsed => elapsed
  | EvSleep ms => ms
  | _ => 0%N
  end.
Definition duration (tr : list Event) : N :=
  fold_right (fun e acc => (event_ms e + acc)%N) 0%N tr.

(** The design document's connection states.  The class keeps no such
    field; the state is read off the events, following the document's
    transition algorithm: the orchestrator is [Probing] once
    [autoStartAndConnect] has begun, [Launching] once [startPythonService]
    has begun, [WaitingForReady] once [connectToExistingService] has begun,
    [Ready] once ['service-ready'] has been sent to the window and [Failed]
    once the recovery prompt is on screen. *)
Inductive ConnectionState :=
| Idle | Probing | Launching | WaitingForReady | Ready | Failed.

Definition spec_step (st : ConnectionState) (e : Event) : ConnectionState :=
  match e with
  | EvLog LogAutoStarting => Probing
  | EvLog LogStartingBundled => Launching
  | EvLog LogConnecting => WaitingForReady
  | EvSend channel _ => if channel =? "service-ready" then Ready else st
  | EvMessageBox _ => Failed
  | _ => st
  end.

Definition spec_state (tr : list Event) : ConnectionState :=
  fold_left spec_step tr Idle.

Definition state_eqb (a b : ConnectionState) : bool :=
  match a, b with
  | Idle, Idle | Probing, Probing | Launching, Launching
  | WaitingForReady, WaitingForReady | Ready, Ready | Failed, Failed => true
  | _, _ => false
  end.

(** The successive states a trace goes through, [Idle] first, repeats
    dropped. *)
Fixpoint visit (st : ConnectionState) (tr : list Event) : list ConnectionState :=
  match tr with
  | [] => []
  | e :: tr' =>
      let st' := spec_step st e in
      if state_eqb st st' then visit st' tr' else st' :: visit st' tr'
  end.
Definition states_visited (tr : list Event) : list ConnectionState :=
  Idle :: visit Idle tr.

(* ===================================================================== *)
(** ** A concrete host for examples: POSIX paths *)
(* ===================================================================== *)

Module Posix.

Definition snoc (s : string) (c : ascii) : string := s ++ String c "".

(** Split at every '/'. *)
Fixpoint split (s cur : string) : list string :=
  match s with
  | EmptyString => [cur]
  | String c s' =>
      if Ascii.eqb c "/"%char then cur :: split s' ""
      else split s' (snoc cur c)
  end.

(** Resolve "." and ".." segments; [stack] holds the kept segments,
    innermost first. *)
Fixpoint resolve (segs stack : list string) (absolute : bool) : list string :=
  match segs with
  | [] => rev stack
  | seg :: rest =>
      if (seg =? "") || (seg =? ".") then resolve rest stack absolute
      else if seg =? ".." then
        match stack with
        | top :: stack' =>
            if top =? ".." then resolve rest (".." :: stack) absolute
            else resolve rest stack' absolute
        | [] =>
            if absolute then resolve rest [] absolute
            else resolve rest [".."] absolute
        end
      else resolve rest (seg :: stack) absolute
  end.

Definition starts_with_slash (s : string) : bool :=
  match s with String c _ => Ascii.eqb c "/"%char | EmptyString => false end.
Fixpoint ends_with_slash (s : string) : bool :=
  match s with
  | EmptyString => false
  | String c EmptyString => Ascii.eqb c "/"%char
  | String _ s' => ends_with_slash s'
  end.

Definition normalize (p : string) : string :=
  let absolute := starts_with_slash p in
  let body := String.concat "/" (resolve (split p "") [] absolute) in
  let trailing := ends_with_slash p in
  if body =? "" then (if absolute then "/" else if trailing then "./" else ".")
  else (if absolute then "/" else "") ++ body ++ (if trailing then "/" else "").

(** [path.posix.join] *)
Definition join (parts : list string) : string :=
  let parts := filter (fun p => negb (p =? "")) parts in
  match parts with
  | [] => "."
  | _ => normalize (String.concat "/" parts)
  end.

(** [path.posix.dirname], for normalized paths. *)
Definition dirname (p : string) : string :=
  let absolute := starts_with_slash p in
  let segs := filter (fun x => negb (x =? "")) (split p "") in
  let body := String.concat "/" (removelast segs) in
  if body =? "" then (if absolute then "/" else ".")
  else (if absolute then "/" else "") ++ body.

End Posix.

Definition refused : ServerAnswer :=
  {| ans_status := None; ans_body := Js.Undefined; ans_latency := 1 |}.
Definition answers (status : Z) (latency : N) : ServerAnswer :=
  {| ans_status := Some status; ans_body := Js.Str "ok"; ans_latency := latency |}.

Definition mem (p : string) (ps : list string) : bool :=
  existsb (String.eqb p) ps.

(** A Linux checkout in [/app] (so [__dirname = /app/electron-app/src]), or
    an installation whose resources are in [/opt/covenantrix/resources]. *)
Definition linux (packaged : bool) (files : list string)
           (server : nat -> ServerAnswer) (choice : nat) : World :=
  {| w_platform := "linux";
     w_isPackaged := packaged;
     w_resourcesPath := "/opt/covenantrix/resources";
     w_dirname := "/app/electron-app/src";
     w_join := Posix.join;
     w_pathDirname := Posix.dirname;
     w_existsSync := fun p => mem p files;
     w_server := server;
     w_spawnThrows := fun _ => false;
     w_choice := fun _ => choice |}.

(** The state in which ['ready-to-show'] fires for the first time. *)
Definition window_shown : Sim := exec createWindow init.

(* ===================================================================== *)
(** ** Vocabulary of the statements *)
(* ===================================================================== *)

Open Scope list_scope.

(** The events a computation adds when started in [s]. *)
Definition events_of {A} (m : M A) (s : Sim) : list Event :=
  skipn (List.length (trace s)) (trace (exec m s)).

(** [m] keeps the invariant [I], however it ends. *)
Definition preserves {A} (I : Sim -> Prop) (m : M A) : Prop :=
  forall s, I s -> I (exec m s).

(** ['service-ready'] is only ever sent right after a [/health] request
    that resolved with status 200 (console lines in between do not count).
    [fresh] tells whether such a response is the last thing that happened. *)
Definition is_health_200 (cfg : AxiosConfig) (r : AxiosResult) : bool :=
  match r with
  | Resolved c _ => (cfg_url cfg =? health_url) && (c =? 200)%Z
  | Rejected _ => false
  end.

Fixpoint ready_justified (fresh : bool) (tr : list Event) : bool :=
  match tr with
  | [] => true
  | EvLog _ :: tr' => ready_justified fresh tr'
  | EvAxios cfg r _ :: tr' => ready_justified (is_health_200 cfg r) tr'
  | EvSend channel _ :: tr' =>
      (if channel =? "service-ready" then fresh else true)
      && ready_justified false tr'
  | _ :: tr' => ready_justified false tr'
  end.

Fixpoint fresh_after (fresh : bool) (tr : list Event) : bool :=
  match tr with
  | [] => fresh
  | EvLog _ :: tr' => fresh_after fresh tr'
  | EvAxios cfg r _ :: tr' => fresh_after (is_health_200 cfg r) tr'
  | _ :: tr' => fresh_after false tr'
  end.

(** The child processes this application may ever signal are its own:
    every handle in the field and every handle that was killed comes from
    an earlier [spawn] of this application. *)
Definition owns_what_it_spawned (s : Sim) : Prop :=
  (forall h, pythonProcess (app s) = Some h -> In h (spawned (trace s))) /\
  (forall pre h post, trace s = pre ++ EvKill h :: post -> In h (spawned pre)).

(** The bundled artifact [startPythonService] looks for. *)
Definition bundled_path (w : World) : string :=
  if w_isPackaged w then packagedExecutable w else devExecutable w.

(** What [getPythonExecutablePath] returns. *)
Definition locate (w : World) : option string :=
  if w_isPackaged w then Some (packagedExecutable w)
  else if w_existsSync w (devExecutable w) then Some (devExecutable w)
  else None.

(** An error that names the artifact that could not be found. *)
Definition artifact_not_found (e : JsError) : bool :=
  match e with
  | ErrExecutableNotFound _ | ErrVenvPythonNotFound _
  | ErrServiceScriptNotFound _ => true
  | _ => false
  end.
Definition logs_artifact_not_found (e : Event) : bool :=
  match e with
  | EvLog (LogFailedBundled err) | EvLog (LogFailedVenv err) =>
      artifact_not_found err
  | _ => false
  end.

Definition resolved (r : AxiosResult) : bool :=
  match r with Resolved _ _ => true | Rejected _ => false end.

(** [n] calls of [disconnectFromService] in a row. *)
Definition disconnect_times (n : nat) (s : Sim) : Sim :=
  Nat.iter n (exec disconnectFromService) s.

(** Hosts of the examples. *)
Definition bundled_file : string := "/app/python-dist/covenantrix-service".

(** Nothing listens at first; the launched service answers the first
    patient probe. *)
Definition cold_start : World :=
  linux false [bundled_file]
        (fun n => match n with 1 => answers 200 10 | _ => refused end) 2.

(** [/health] answers 204 No Content. *)
Definition no_content : World :=
  linux false [bundled_file] (fun _ => answers 204 10) 2.

(** The launched service never answers, then the user asks for another
    automatic start. *)
Definition never_ready : World :=
  linux false [bundled_file] (fun _ => refused) 0.


(** An installation whose bundled executable has been removed. *)
Definition broken_install : World :=
  linux true [] (fun _ => refused) 1.

(** A bare checkout: no build output, no virtual environment. *)
Definition bare_checkout : World :=
  linux false [] (fun _ => refused) 1.

(** The service is already up. *)
Definition already_up : World :=
  linux false [] (fun _ => answers 200 10) 1.

(** The state a cold start ends in: the window is up, the bundled service
    was spawned and answered its first patient probe. *)
Definition ready_owned : Sim :=
  run cold_start [ACreateWindow; AReadyToShow] init.

(** The request [upload-file] issues. *)
Definition upload_config (file folderId : string) : AxiosConfig :=
  {| cfg_method := "post"; cfg_url := upload_url; cfg_timeout := 60000;
     cfg_params := None; cfg_data := Some (PForm file folderId) |}.

Definition folder_or_default (folderId : option string) : string :=
  match folderId with Some f => f | None => "default" end.

(** [s] with the events [d] added. *)
Definition push (s : Sim) (d : list Event) : Sim :=
  {| app := app s; trace := trace s ++ d |}.

(** Events that move neither the connection state nor any process:
    console lines other than the three entry lines, requests, timers. *)
Definition inert (e : Event) : bool :=
  match e with
  | EvLog LogAutoStarting | EvLog LogStartingBundled | EvLog LogConnecting => false
  | EvLog _ | EvAxios _ _ _ | EvSleep _ => true
  | _ => false
  end.

(** What [connectToExistingService] may add to the trace: [/health]
    requests with the 1000 ms timeout, 1000 ms pauses, its console lines
    and the ['service-ready'] message. *)
Definition probe_event (e : Event) : bool :=
  match e with
  | EvAxios cfg _ elapsed =>
      (cfg_url cfg =? health_url)
      && (cfg_timeout cfg =? probe_timeout_ms)%N
      && (elapsed <=? probe_timeout_ms)%N
  | EvSleep ms => (ms =? probe_interval_ms)%N
  | EvLog LogConnecting | EvLog LogConnected | EvLog LogCouldNotConnect => true
  | EvSend channel _ => channel =? "service-ready"
  | _ => false
  end.

(** Every ['service-ready'] in the trace of [s] is justified by a probe. *)
Definition justified (s : Sim) : Prop := ready_justified false (trace s) = true.

(** [s] with the fields [a] and the events [d] added. *)
Definition ext (s : Sim) (a : App) (d : list Event) : Sim :=
  {| app := a; trace := trace s ++ d |}.

(** The recovery prompt answered with 'Start Service Automatically'. *)
Definition is_restart_choice (e : Event) : bool :=
  match e with EvMessageBox 0 => true | _ => false end.

(* ===================================================================== *)
(** ** Further vocabulary *)
(* ===================================================================== *)

Definition is_sleep (e : Event) : bool :=
  match e with EvSleep _ => true | _ => false end.

Definition is_rejected_request (e : Event) : bool :=
  match e with EvAxios _ (Rejected _) _ => true | _ => false end.

(** The request of one readiness attempt. *)
Definition probe_request (w : World) (s : Sim) : Event :=
  let a := w_server w (count is_request (trace s)) in
  EvAxios {| cfg_method := "get"; cfg_url := health_url;
             cfg_timeout := probe_timeout_ms;
             cfg_params := None; cfg_data := None |}
          (axios_result probe_timeout_ms a)
          (axios_elapsed probe_timeout_ms a).

Definition is_falling_back (e : Event) : bool :=
  match e with EvLog LogFallingBack => true | _ => false end.

(** What a spawn of the venv fallback must look like. *)
Definition venv_spawn_ok (w : World) (cmd : string) (args : list string)
           (cwd : string) : Prop :=
  cmd = venvPython w /\ args = [serviceScript w] /\
  cwd = w_join w [projectRoot w; "core-rag-service"] /\
  w_existsSync w cmd = true /\ w_existsSync w (serviceScript w) = true.

(** What a spawn of the bundled executable must look like. *)
Definition bundled_spawn_ok (w : World) (cmd : string) (args : list string)
           (cwd : string) : Prop :=
  locate w = Some cmd /\ args = [] /\ cwd = w_pathDirname w cmd /\
  w_existsSync w cmd = true.

Definition start_outcome (s : Sim) (b : bool) (a : App) (d : list Event) : Prop :=
  mainWindow a = mainWindow (app s) /\
  killed d = [] /\
  if b then exists h, spawned d = [h] /\ pythonProcess a = Some h
  else spawned d = [] /\ pythonProcess a = pythonProcess (app s).

(** What a launcher may add to the trace after its entry line: console
    lines and the spawn itself. *)
Definition launch_event (e : Event) : bool :=
  match e with
  | EvLog LogAutoStarting | EvLog LogStartingBundled | EvLog LogConnecting => false
  | EvLog _ | EvSpawn _ _ _ _ _ | EvSpawnThrew _ => true
  | _ => false
  end.

Definition is_exited (e : Event) : bool :=
  match e with EvExited _ => true | _ => false end.

(** The three ways a startup cycle can go. *)
Inductive CycleShape (w : World) (s : Sim) (a : App) (d : list Event) : Prop :=
| Detected ev :
    a = app s ->
    d = [EvLog LogAutoStarting; ev; EvLog LogAlreadyRunning;
         EvSend "service-ready" serviceUrl] ->
    inert ev = true ->
    CycleShape w s a d
| Launched d0 d1 mid h :
    d = EvLog LogAutoStarting :: d0 ++ EvLog LogStartingBundled :: d1 ++
        EvLog LogConnecting :: mid ++ [EvSend "service-ready" serviceUrl] ->
    forallb inert d0 = true ->
    forallb launch_event d1 = true ->
    forallb inert mid = true ->
    spawned d1 = [h] ->
    pythonProcess a = Some h ->
    mainWindow a = mainWindow (app s) ->
    CycleShape w s a d
| Prompted before r after :
    d = before ++ EvMessageBox r :: after ->
    count is_ready_send before = 0 ->
    count is_message_box before = 0 ->
    count is_message_box after = 0 ->
    count is_ready_send after <= 1 ->
    CycleShape w s a d.

(** Events that end no child. *)
Definition endless (e : Event) : bool := negb (is_kill e) && negb (is_exited e).

(** The ['select-file'] handler, given what [dialog.showOpenDialog]
    resolved with: [result.canceled ? null : result.filePaths[0]]. *)
Definition select_file (canceled : bool) (filePaths : list string) : option string :=
  if canceled then None else hd_error filePaths.

(** preload.js: the convenience methods of [electronAPI.api]; each one is
    [ipcRenderer.invoke('api-call', ...)], that is, a call of the handler. *)
Module Preload.
Definition listDocuments (w : World) (folderId : Js.Value) : M Envelope :=
  api_call w "GET" "/api/documents"
           (if Js.truthy folderId then Js.Obj [("folder_id", folderId)]
            else Js.Null).
Definition query (w : World) (queryData : Js.Value) : M Envelope :=
  api_call w "POST" "/api/query" queryData.
Definition getHealth (w : World) : M Envelope :=
  api_call w "GET" "/health" Js.Undefined.
Definition getPersonas (w : World) : M Envelope :=
  api_call w "GET" "/api/personas" Js.Undefined.
Definition getModes (w : World) : M Envelope :=
  api_call w "GET" "/api/modes" Js.Undefined.
Definition getAnalytics (w : World) : M Envelope :=
  api_call w "GET" "/api/analytics" Js.Undefined.
Definition uploadFile (w : World) (filePath folderId : option string) : M Envelope :=
  upload_file w filePath folderId.
End Preload.

(** A server that answers every request with 404. *)
Definition not_found : World :=
  linux false [] (fun _ => answers 404 10) 1.

(** Bookkeeping of the process field: handles are fresh, only spawned
    children are killed, none twice, and the field holds the child spawned
    last, not yet killed. *)
Definition tidy (s : Sim) : Prop :=
  (forall h, In h (spawned (trace s)) -> h < count is_spawn_attempt (trace s)) /\
  (forall h, In h (killed (trace s)) -> In h (spawned (trace s))) /\
  NoDup (killed (trace s)) /\
  (forall h, pythonProcess (app s) = Some h ->
             last (spawned (trace s)) (S h) = h /\ In h (spawned (trace s)) /\
             ~ In h (killed (trace s))).

(** Nothing listens until the third request. *)
Definition third_answer : World :=
  linux false [] (fun n => match n with 2 => answers 200 10 | _ => refused end) 2.

(* ===================================================================== *)
(** ** The startup test script *)
(* ===================================================================== *)

(** [test-startup.js]: a Node script of its own, with no application
    object; its state is the trace alone.  It shares the host ([World]) with
    the main process and takes [process.cwd()] as a parameter, and with it
    [fails], which says for each spawn whether the child fails to start for
    a reason other than a missing working directory. *)
Module TestStartup.

(** How a stretch of the script ends.  It returns, it throws, or the whole
    process exits: an ['error'] event emitted on an object that has no
    ['error'] listener is thrown by Node as an uncaught exception, outside
    every [try] of the script and outside the promise of [runTests]. *)
Inductive Outcome (A : Type) :=
| Ret (a : A)
| Throw (e : JsError)
| Died.
Arguments Throw {A} e.
Arguments Died {A}.

Inductive Color := Green | Red | Yellow | Blue | Cyan.

(** One constructor per message passed to [log(color, message)]. *)
Inductive Msg :=
| MTesting (url : string)                 (* testServiceConnection, entry *)
| MConnected
| MConnectionFailed
| MFound (description path : string)      (* checkFileExists *)
| MMissing (description path : string)
| MStarting (useVenv : bool)              (* startPythonService, entry *)
| MStartFailed
| MTitle | MTitleRule                     (* runTests *)
| MPhase (n : nat) | MPhaseRule (n : nat)
| MSkipBundled | MSkipVenv
| MSummary | MSummaryRule
| MEnvResult (ok : bool)
| MBundledResult (ok : bool)
| MVenvResult (ok : bool)
| MWorking | MHowToRun
| MNeedsAttention | MRunSetup | MBundledMissing
| MTips | MTip (n : nat).

Inductive TEvent :=
| TLog (c : Color) (m : Msg)
| TBlank                                  (* console.log() *)
| TDot                                    (* process.stdout.write('.') *)
| TAxios (cfg : AxiosConfig) (r : AxiosResult) (elapsed : N)
| TSleep (ms : N)
| TSpawn (h : Handle) (useVenv : bool)
         (cmd : string) (args : list string) (cwd : string)
| TSpawnThrew (cmd : string)
| TSpawnFailed (useVenv : bool)            (* 'error' on the child: no  *)
               (cmd : string) (args : list string) (cwd : string)
                                           (* process was started       *)
| TKill (h : Handle).

Definition T (A : Type) : Type := list TEvent -> Outcome A * list TEvent.

Definition tret {A} (a : A) : T A := fun tr => (Ret a, tr).
Definition tbind {A B} (m : T A) (k : A -> T B) : T B :=
  fun tr => match m tr with
            | (Ret a, tr') => k a tr'
            | (Throw e, tr') => (Throw e, tr')
            | (Died, tr') => (Died, tr')
            end.
Definition ttry {A} (body : T A) (handler : JsError -> T A) : T A :=
  fun tr => match body tr with
            | (Ret a, tr') => (Ret a, tr')
            | (Throw e, tr') => handler e tr'
            | (Died, tr') => (Died, tr')
            end.

Declare Scope test_scope.
Delimit Scope test_scope with test.
Notation "x <- m ;; k" := (tbind m (fun x => k))
  (at level 61, m at next level, right associativity) : test_scope.
Notation "m ;; k" := (tbind m (fun _ => k))
  (at level 61, right associativity) : test_scope.
Open Scope test_scope.

Definition say (e : TEvent) : T unit := fun tr => (Ret tt, tr ++ [e]).
Definition tlog (c : Color) (m : Msg) : T unit := say (TLog c m).
Definition tsleep (ms : N) : T unit := say (TSleep ms).

Definition t_is_request (e : TEvent) : bool :=
  match e with TAxios _ _ _ => true | _ => false end.
Definition t_is_spawn_attempt (e : TEvent) : bool :=
  match e with
  | TSpawn _ _ _ _ _ | TSpawnThrew _ | TSpawnFailed _ _ _ _ => true
  | _ => false
  end.
Definition tcount (p : TEvent -> bool) (tr : list TEvent) : nat :=
  List.length (filter p tr).

(** [await axios.get(url, { timeout })] *)
Definition taxios_get (w : World) (url : string) (timeout : N) : T (Z * Js.Value) :=
  fun tr =>
    let a := w_server w (tcount t_is_request tr) in
    let r := axios_result timeout a in
    let cfg := {| cfg_method := "get"; cfg_url := url; cfg_timeout := timeout;
                  cfg_params := None; cfg_data := None |} in
    let tr' := tr ++ [TAxios cfg r (axios_elapsed timeout a)] in
    match r with
    | Resolved c b => (Ret (c, b), tr')
    | Rejected e => (Throw (ErrAxios e), tr')
    end.

(** Whether the [n]-th child fails to start although [spawn] returned it.
    Node reports ENOENT, EACCES, EAGAIN, EMFILE and ENFILE not by throwing
    but as an ['error'] event on the child, on the next tick.  A working
    directory that does not exist gives ENOENT; [fails] stands for the other
    reasons. *)
Definition start_fails (w : World) (fails : nat -> bool) (n : nat) (cwd : string)
  : bool :=
  negb (w_existsSync w cwd) || fails n.

(** [spawn(cmd, args, { cwd, stdio })] in this script, where nothing listens
    for ['error'] on the child.  The event of a failed start is emitted at
    the first [await] after the call, which is the [sleep(3000)] that follows
    it; the script does nothing observable in between, so the process is
    taken to die here. *)
Definition tspawn (w : World) (fails : nat -> bool) (useVenv : bool)
           (cmd : string) (args : list string) (cwd : string) : T Handle :=
  fun tr =>
    let n := tcount t_is_spawn_attempt tr in
    if w_spawnThrows w n then (Throw ErrSpawn, tr ++ [TSpawnThrew cmd])
    else if start_fails w fails n cwd
         then (Died, tr ++ [TSpawnFailed useVenv cmd args cwd])
         else (Ret n, tr ++ [TSpawn n useVenv cmd args cwd]).

Definition default_url : string := "http://127.0.0.1:8080".

(** One turn of the loop of [testServiceConnection]; [i] is the loop
    counter. *)
Definition test_attempt (w : World) (url : string) (maxAttempts i : nat) : T bool :=
  ttry
    (response <- taxios_get w (url ++ "/health") 2000 ;;
     if (fst response =? 200)%Z then
       tlog Green MConnected ;;
       tret true
     else
       tret false)
    (fun _ =>
       if (i <? maxAttempts - 1)%nat then
         say TDot ;;
         tsleep 1000 ;;
         tret false
       else
         tret false).

Fixpoint test_loop (w : World) (url : string) (maxAttempts i remaining : nat)
  : T bool :=
  match remaining with
  | O => tret false
  | S remaining' =>
      done <- test_attempt w url maxAttempts i ;;
      if done then tret true
      else test_loop w url maxAttempts (S i) remaining'
  end.

Definition testServiceConnection (w : World) (url : string) (maxAttempts : nat)
  : T bool :=
  tlog Blue (MTesting url) ;;
  connected <- test_loop w url maxAttempts 0 maxAttempts ;;
  if connected then tret true
  else
    tlog Red MConnectionFailed ;;
    tret false.

Definition checkFileExists (w : World) (filePath description : string) : T bool :=
  let exists_ := w_existsSync w filePath in
  (if exists_ then tlog Green (MFound description filePath)
   else tlog Yellow (MMissing description filePath)) ;;
  tret exists_.

(** Returns the child ([Some]) or [null]; it does not return when the child
    it was given by [spawn] fails to start. *)
Definition startPythonService (w : World) (fails : nat -> bool)
           (cwd : string) (useVenv : bool) : T (option Handle) :=
  tlog Blue (MStarting useVenv) ;;
  let projectRoot := cwd in
  let pythonPath :=
    if useVenv then w_join w [projectRoot; "venv"; venvBinDir w; venvPythonExe w]
    else w_join w [projectRoot; "python-dist"; executableName w] in
  let args :=
    if useVenv then [w_join w [projectRoot; "core-rag-service"; "service_main.py"]]
    else [] in
  found <- checkFileExists w pythonPath
             (if useVenv then "Venv Python" else "Bundled executable") ;;
  if negb found then tret None
  else
    ttry
      (pythonProcess <- tspawn w fails useVenv pythonPath args
                          (if useVenv then w_join w [projectRoot; "core-rag-service"]
                           else w_pathDirname w pythonPath) ;;
       tsleep 3000 ;;
       tret (Some pythonProcess))
      (fun _ =>
         tlog Red MStartFailed ;;
         tret None).

(** The [checks] array of [runTests]. *)
Definition checks : list (string * string) :=
  [("package.json", "Package configuration");
   ("electron-app/src/main.js", "Electron main process");
   ("core-rag-service/service_main.py", "Python service");
   ("core-rag-service/config.yaml", "Service configuration");
   ("covenantrix-service.spec", "PyInstaller spec");
   ("venv", "Python virtual environment")].

(** [array.every(callback)]: stops at the first element the callback
    rejects. *)
Fixpoint every {A} (f : A -> T bool) (xs : list A) : T bool :=
  match xs with
  | [] => tret true
  | x :: xs' =>
      ok <- f x ;;
      if ok then every f xs' else tret false
  end.

(** One of the two test phases: start the service, probe it, kill it. *)
Definition phase (w : World) (fails : nat -> bool) (cwd : string)
           (useVenv : bool) (gate description : string) (skipped : Msg)
  : T bool :=
  present <- checkFileExists w gate description ;;
  started <- (if present then
                process <- startPythonService w fails cwd useVenv ;;
                working <- match process with
                           | Some _ => testServiceConnection w default_url 10
                           | None => tret false
                           end ;;
                tret (process, working)
              else
                tlog Yellow skipped ;;
                tret (None, false)) ;;
  match fst started with
  | Some process => say (TKill process) ;; tsleep 2000
  | None => tret tt
  end ;;
  tret (snd started).

Definition runTests (w : World) (fails : nat -> bool) (cwd : string) : T unit :=
  tlog Cyan MTitle ;;
  tlog Cyan MTitleRule ;;
  say TBlank ;;
  tlog Blue (MPhase 1) ;;
  tlog Blue (MPhaseRule 1) ;;
  envOk <- every (fun check => checkFileExists w (fst check) (snd check)) checks ;;
  say TBlank ;;
  tlog Blue (MPhase 2) ;;
  tlog Blue (MPhaseRule 2) ;;
  bundledWorking <- phase w fails cwd false "python-dist"
                          "Python dist directory" MSkipBundled ;;
  say TBlank ;;
  tlog Blue (MPhase 3) ;;
  tlog Blue (MPhaseRule 3) ;;
  venvWorking <- phase w fails cwd true "venv" "Virtual environment"
                       MSkipVenv ;;
  say TBlank ;;
  tlog Cyan MSummary ;;
  tlog Cyan MSummaryRule ;;
  tlog (if envOk then Green else Red) (MEnvResult envOk) ;;
  tlog (if bundledWorking then Green else Yellow) (MBundledResult bundledWorking) ;;
  tlog (if venvWorking then Green else Red) (MVenvResult venvWorking) ;;
  say TBlank ;;
  (if bundledWorking || venvWorking then
     tlog Green MWorking ;;
     tlog Green MHowToRun
   else
     tlog Red MNeedsAttention ;;
     (if negb venvWorking then tlog Red MRunSetup else tret tt) ;;
     (if negb bundledWorking && w_existsSync w "venv"
      then tlog Yellow MBundledMissing else tret tt)) ;;
  say TBlank ;;
  tlog Blue MTips ;;
  tlog Blue (MTip 1) ;;
  tlog Blue (MTip 2) ;;
  tlog Blue (MTip 3).

(** What the trace shows. *)
Definition t_is_sleep (e : TEvent) : bool :=
  match e with TSleep _ => true | _ => false end.
Definition t_is_dot (e : TEvent) : bool :=
  match e with TDot => true | _ => false end.
Definition t_is_spawn (e : TEvent) : bool :=
  match e with TSpawn _ _ _ _ _ => true | _ => false end.
Definition t_is_kill (e : TEvent) : bool :=
  match e with TKill _ => true | _ => false end.
Definition t_is_report (e : TEvent) : bool :=
  match e with
  | TLog _ (MFound _ _) | TLog _ (MMissing _ _) => true
  | _ => false
  end.

Definition t_ms (e : TEvent) : N :=
  match e with
  | TAxios _ _ elapsed => elapsed
  | TSleep ms => ms
  | _ => 0%N
  end.
Definition t_duration (tr : list TEvent) : N :=
  fold_right (fun e acc => (t_ms e + acc)%N) 0%N tr.

(** Children spawned and not yet killed, oldest first. *)
Fixpoint t_live (tr : list TEvent) (acc : list Handle) : list Handle :=
  match tr with
  | [] => acc
  | TSpawn h _ _ _ _ :: tr' => t_live tr' (acc ++ [h])
  | TKill h :: tr' => t_live tr' (filter (fun h' => negb (Nat.eqb h h')) acc)
  | _ :: tr' => t_live tr' acc
  end.

Definition t_spawned (tr : list TEvent) : list Handle :=
  flat_map (fun e => match e with TSpawn h _ _ _ _ => [h] | _ => [] end) tr.
Definition t_killed (tr : list TEvent) : list Handle :=
  flat_map (fun e => match e with TKill h => [h] | _ => [] end) tr.

(** The events [m] adds to [tr]. *)
Definition added {A} (m : T A) (tr : list TEvent) : list TEvent :=
  skipn (List.length tr) (snd (m tr)).

(** The command line of the child of [startPythonService]. *)
Definition test_python_path (w : World) (cwd : string) (useVenv : bool) : string :=
  if useVenv then w_join w [cwd; "venv"; venvBinDir w; venvPythonExe w]
  else w_join w [cwd; "python-dist"; executableName w].
Definition test_python_args (w : World) (cwd : string) (useVenv : bool)
  : list string :=
  if useVenv then [w_join w [cwd; "core-rag-service"; "service_main.py"]]
  else [].
Definition test_python_cwd (w : World) (cwd : string) (useVenv : bool) : string :=
  if useVenv then w_join w [cwd; "core-rag-service"]
  else w_pathDirname w (test_python_path w cwd useVenv).
Definition test_description (useVenv : bool) : string :=
  if useVenv then "Venv Python" else "Bundled executable".

(** Events that neither start nor stop a child. *)
Definition t_plain (e : TEvent) : bool := negb (t_is_spawn e || t_is_kill e).
(** Events that, besides, take no time and make no request. *)
Definition t_is_quiet (e : TEvent) : bool :=
  match e with
  | TLog _ _ | TBlank | TDot | TSpawnThrew _ | TSpawnFailed _ _ _ _ => true
  | _ => false
  end.

(** Starting with the children [acc], no prefix of [d] has more than one
    child alive. *)
Definition ok_from (acc : list Handle) (d : list TEvent) : Prop :=
  forall p s, d = p ++ s -> List.length (t_live p acc) <= 1.

Definition clean (d : list TEvent) : Prop :=
  t_live d [] = [] /\ ok_from [] d.

(** What a stretch of the script with at most [k] test phases adds. *)
Definition good (k : nat) (d : list TEvent) : Prop :=
  clean d /\
  t_killed d = t_spawned d /\
  List.length (t_spawned d) <= k /\
  tcount t_is_request d <= 10 * List.length (t_spawned d) /\
  (t_duration d <= 34000 * N.of_nat k)%N.

Definition t_is_failed_start (e : TEvent) : bool :=
  match e with TSpawnFailed _ _ _ _ => true | _ => false end.

(** The stretch [m] returns, or, when [mortal], the process dies in it on a
    child that failed to start; what it adds is [good k] either way. *)
Definition ends {A} (mortal : bool) (m : T A) (k : nat) : Prop :=
  forall tr, exists d,
    good k d /\
    ((exists a, m tr = (Ret a, tr ++ d) /\ tcount t_is_failed_start d = 0) \/
     (mortal = true /\ m tr = (Died, tr ++ d) /\
      t_is_failed_start (last d TBlank) = true)).

(** The process dies in the stretch [m], on a child that failed to start. *)
Definition dies {A} (m : T A) : Prop :=
  forall tr, exists d,
    m tr = (Died, tr ++ d) /\ t_is_failed_start (last d TBlank) = true.

(** Does the call [startPythonService(useVenv)] made after [tr] kill the
    process? *)
Definition test_start_dies (w : World) (fails : nat -> bool) (cwd : string)
           (useVenv : bool) (tr : list TEvent) : bool :=
  let n := tcount t_is_spawn_attempt tr in
  w_existsSync w (test_python_path w cwd useVenv) &&
  negb (w_spawnThrows w n) &&
  start_fails w fails n (test_python_cwd w cwd useVenv).

(** A checkout in which only the first two files of [checks] exist. *)
Definition half_checkout : World :=
  linux false ["package.json"; "electron-app/src/main.js"] (fun _ => refused) 1.

(** A checkout under [/app], the script's working directory, with the
    bundled build and the virtual environment, and a service that is up as
    soon as it is asked. *)
Definition dev_checkout : World :=
  linux false
        ["python-dist"; "/app/python-dist"; "/app/python-dist/covenantrix-service";
         "venv"; "/app/venv/bin/python"; "/app/core-rag-service"]
        (fun _ => answers 200 10) 1.

(** A checkout with the virtual environment only, from which
    [core-rag-service] has been moved away. *)
Definition moved_service : World :=
  linux false ["venv"; "/app/venv/bin/python"] (fun _ => answers 200 10) 1.

End TestStartup.

(* ===================================================================== *)
(** * Properties *)
(* ===================================================================== *)

(** ** Generic facts about the monad *)

Lemma exec_bind {A B} (m : M A) (k : A -> M B) s :
  exec (bind m k) s =
  match m s with
  | (Ret a, s') => exec (k a) s'
  | (Throw _, s') => s'
  end.
Proof. unfold exec, bind. destruct (m s) as [[a|e] s']; reflexivity. Qed.

Lemma exec_try {A} (m : M A) (h : JsError -> M A) s :
  exec (try_catch m h) s =
  match m s with
  | (Ret _, s') => s'
  | (Throw e, s') => exec (h e) s'
  end.
Proof. unfold exec, try_catch. destruct (m s) as [[a|e] s']; reflexivity. Qed.

Section Preserves.
Variable I : Sim -> Prop.

Lemma preserves_ret {A} (a : A) : preserves I (ret a).
Proof. intros s H. exact H. Qed.

Lemma preserves_throw {A} e : preserves I (@throw A e).
Proof. intros s H. exact H. Qed.

Lemma preserves_bind {A B} (m : M A) (k : A -> M B) :
  preserves I m -> (forall a, preserves I (k a)) -> preserves I (bind m k).
Proof.
  intros Hm Hk s H. rewrite exec_bind. specialize (Hm s H). unfold exec in Hm.
  destruct (m s) as [[a|e] s']; simpl in Hm; [apply Hk|]; assumption.
Qed.

Lemma preserves_try {A} (m : M A) (h : JsError -> M A) :
  preserves I m -> (forall e, preserves I (h e)) -> preserves I (try_catch m h).
Proof.
  intros Hm Hh s H. rewrite exec_try. specialize (Hm s H). unfold exec in Hm.
  destruct (m s) as [[a|e] s']; simpl in Hm; [|apply Hh]; assumption.
Qed.

Lemma preserves_get_app : preserves I get_app.
Proof. intros s H. exact H. Qed.
End Preserves.

(* ===================================================================== *)
(** ** ArtifactLocator *)
(* ===================================================================== *)

Lemma getPythonExecutablePath_run w s :
  exists d, getPythonExecutablePath w s =
            (Ret (locate w), {| app := app s; trace := trace s ++ d |})
            /\ Forall (fun e => is_log e = true) d.
Proof.
  unfold getPythonExecutablePath, locate, bind, log, emit, ret.
  destruct (w_isPackaged w); simpl.
  - eexists. rewrite <- app_assoc. split; [reflexivity|]. repeat constructor.
  - destruct (w_existsSync w (devExecutable w)); simpl;
      eexists; rewrite <- !app_assoc; (split; [reflexivity|]); repeat constructor.
Qed.

(** C6, as stated, fails: in an installation whose bundled executable is
    missing, the locator still returns its path. *)
Lemma C6_installed_path_not_checked :
  result (getPythonExecutablePath broken_install) window_shown
  = Ret (Some "/opt/covenantrix/resources/python-service/covenantrix-service")
  /\ w_existsSync broken_install
       "/opt/covenantrix/resources/python-service/covenantrix-service" = false.
Proof. split; reflexivity. Qed.

(** C6, amended: [getPythonExecutablePath] never throws and touches no
    field.  In development mode it returns the build-output path only when
    that path exists, and [null] otherwise; in installed mode it always
    returns the fixed path under the resources directory, unchecked. *)
Theorem C6_locate_result : forall w s,
  result (getPythonExecutablePath w) s = Ret (locate w) /\
  app (exec (getPythonExecutablePath w) s) = app s /\
  match locate w with
  | Some p =>
      if w_isPackaged w then p = packagedExecutable w
      else p = devExecutable w /\ w_existsSync w p = true
  | None =>
      w_isPackaged w = false /\ w_existsSync w (devExecutable w) = false
  end.
Proof.
  intros w s. destruct (getPythonExecutablePath_run w s) as [d [E _]].
  unfold result, exec. rewrite E. simpl. split; [reflexivity|]. split; [reflexivity|].
  unfold locate. destruct (w_isPackaged w); [reflexivity|].
  destruct (w_existsSync w (devExecutable w)) eqn:Ex; auto.
Qed.

(* ===================================================================== *)
(** ** ProcessSupervisor: termination *)
(* ===================================================================== *)

Lemma disconnect_unowned s :
  pythonProcess (app s) = None ->
  exec disconnectFromService s =
  {| app := app s; trace := trace s ++ [EvLog LogLeavingRunning] |}.
Proof.
  intros H. unfold exec, disconnectFromService, bind, get_app. simpl.
  rewrite H. reflexivity.
Qed.

Lemma disconnect_times_unowned n : forall s,
  pythonProcess (app s) = None ->
  disconnect_times n s =
  {| app := app s; trace := trace s ++ repeat (EvLog LogLeavingRunning) n |}.
Proof.
  induction n as [|n IH]; intros s H.
  - simpl. rewrite app_nil_r. destruct s; reflexivity.
  - unfold disconnect_times in *. simpl. rewrite IH by exact H.
    rewrite disconnect_unowned by exact H. simpl.
    rewrite <- app_assoc. f_equal. f_equal.
    change [EvLog LogLeavingRunning] with (repeat (EvLog LogLeavingRunning) 1).
    rewrite <- repeat_app. rewrite Nat.add_comm. reflexivity.
Qed.

(** C7: [disconnectFromService] is idempotent.  The first call kills the
    owned child, if there is one, and clears the field; a call made while
    no child is owned (before any launch, or after that first call) leaves
    every field as it was and does nothing but write one console line. *)
Theorem C7_terminate_idempotent : forall n s,
  let s1 := exec disconnectFromService s in
  match pythonProcess (app s) with
  | Some h =>
      s1 = {| app := {| mainWindow := mainWindow (app s); pythonProcess := None |};
              trace := trace s ++ [EvLog LogStopping; EvKill h] |}
  | None =>
      s1 = {| app := app s; trace := trace s ++ [EvLog LogLeavingRunning] |}
  end /\
  pythonProcess (app s1) = None /\
  disconnect_times n s1 =
    {| app := app s1; trace := trace s1 ++ repeat (EvLog LogLeavingRunning) n |} /\
  observable (trace (disconnect_times n s1)) = observable (trace s1).
Proof.
  intros n s s1.
  assert (H1 : pythonProcess (app s1) = None).
  { subst s1. unfold exec, disconnectFromService, bind, get_app. simpl.
    destruct (pythonProcess (app s)) eqn:E; simpl; [reflexivity | exact E]. }
  split.
  - subst s1. unfold exec, disconnectFromService, bind, get_app. simpl.
    destruct (pythonProcess (app s)) eqn:E; simpl.
    + rewrite <- app_assoc. reflexivity.
    + destruct s as [[mw pp] tr]; simpl in *. subst pp. reflexivity.
  - split; [exact H1|]. rewrite (disconnect_times_unowned n s1 H1). split; [reflexivity|].
    simpl. unfold observable. rewrite filter_app.
    assert (F : filter (fun e => negb (is_log e)) (repeat (EvLog LogLeavingRunning) n) = []).
    { clear. induction n; simpl; auto. }
    rewrite F, app_nil_r. reflexivity.
Qed.

(* ===================================================================== *)
(** ** RequestBridge *)
(* ===================================================================== *)

(** C10, as stated, fails: [0] is not null, yet a POST with it carries
    neither a body nor query parameters. *)
Lemma C10_falsy_data_dropped :
  Js.non_null (Js.Num 0) = true /\
  events_of (api_call already_up "POST" "/api/query" (Js.Num 0)) window_shown =
  [EvAxios {| cfg_method := "POST";
              cfg_url := "http://127.0.0.1:8080/api/query";
              cfg_timeout := 30000;
              cfg_params := None;
              cfg_data := None |}
           (Resolved 200 (Js.Str "ok")) 10].
Proof. split; reflexivity. Qed.

Lemma api_call_events w method endpoint data s :
  exists r el rest,
    events_of (api_call w method endpoint data) s =
    EvAxios (api_config method endpoint data) r el :: rest.
Proof.
  unfold events_of, exec, api_call, try_catch, bind, axios, log, emit, ret.
  destruct (unsendable _); [|destruct (axios_result _ _)]; simpl;
    do 3 eexists; rewrite <- ?app_assoc, skipn_app, skipn_all, Nat.sub_diag;
    reflexivity.
Qed.

(** C10, amended: what ['api-call'] hands to axios.  When [data] is truthy,
    a method that is exactly ['GET'] gets it as [config.params], the URL
    query parameters, with no [config.data]; every other method gets it as
    [config.data], the request body, with no [config.params].  When [data]
    is falsy ([null], [undefined], [0], the empty string, [false], [NaN])
    the config has neither. *)
Theorem C10_api_call_payload : forall w method endpoint data s,
  exists cfg r el rest,
    events_of (api_call w method endpoint data) s = EvAxios cfg r el :: rest /\
    cfg_method cfg = method /\
    cfg_url cfg = (serviceUrl ++ endpoint)%string /\
    if Js.truthy data then
      if method =? "GET"
      then cfg_params cfg = Some data /\ cfg_data cfg = None
      else cfg_params cfg = None /\ cfg_data cfg = Some (PJson data)
    else cfg_params cfg = None /\ cfg_data cfg = None.
Proof.
  intros w method endpoint data s.
  destruct (api_call_events w method endpoint data s) as (r & el & rest & E).
  exists (api_config method endpoint data), r, el, rest.
  split; [exact E|]. unfold api_config.
  destruct (Js.truthy data); [destruct (method =? "GET")|]; simpl; auto.
Qed.

(** C4, as stated, fails: before any probe has succeeded the upload handler
    goes to the network all the same. *)
Lemma C4_upload_before_ready :
  spec_state (trace window_shown) = Idle /\
  events_of (upload_file never_ready (Some "/home/u/lease.pdf") None) window_shown =
  [EvAxios {| cfg_method := "post";
              cfg_url := "http://127.0.0.1:8080/api/documents/upload";
              cfg_timeout := 60000;
              cfg_params := None;
              cfg_data := Some (PForm "/home/u/lease.pdf" "default") |}
           (Rejected NetworkError) 1;
   EvLog (LogUploadFailed (ErrAxios NetworkError))].
Proof. split; reflexivity. Qed.

(** C4, amended: the upload handler has no readiness gate.  In every state
    of the application, an upload of a file path posts the multipart form to
    [/api/documents/upload] with a 60 s timeout; the envelope reports
    success exactly when that request resolved, and no field changes. *)
Theorem C4_upload_always_posts : forall w s file folderId,
  exists r el,
    events_of (upload_file w (Some file) folderId) s =
      EvAxios (upload_config file (folder_or_default folderId)) r el ::
      match r with
      | Resolved _ _ => []
      | Rejected e => [EvLog (LogUploadFailed (ErrAxios e))]
      end /\
    (exists env, result (upload_file w (Some file) folderId) s = Ret env /\
                 env_success env = resolved r) /\
    app (exec (upload_file w (Some file) folderId) s) = app s.
Proof.
  intros w s file folderId.
  exists (axios_result 60000 (w_server w (count is_request (trace s)))),
         (axios_elapsed 60000 (w_server w (count is_request (trace s)))).
  unfold events_of, result, exec, upload_file, try_catch, bind, createReadStream,
    axios, log, emit, ret, upload_config, folder_or_default. simpl.
  destruct (axios_result _ _) eqn:R; simpl.
  - rewrite skipn_app, skipn_all, Nat.sub_diag. simpl.
    split; [reflexivity|]. split; [eexists; split; reflexivity | reflexivity].
  - rewrite <- app_assoc, skipn_app, skipn_all, Nat.sub_diag. simpl.
    split; [reflexivity|]. split; [eexists; split; reflexivity | reflexivity].
Qed.

(* ===================================================================== *)
(** ** Running the methods *)
(* ===================================================================== *)

Lemma push_push s a b : push (push s a) b = push s (a ++ b).
Proof. unfold push. simpl. rewrite app_assoc. reflexivity. Qed.

Lemma push_nil s : push s [] = s.
Proof. unfold push. rewrite app_nil_r. destruct s; reflexivity. Qed.

Lemma events_of_push {A} (m : M A) s d :
  exec m s = push s d -> events_of m s = d.
Proof.
  intros E. unfold events_of. rewrite E. simpl.
  rewrite skipn_app, skipn_all, Nat.sub_diag. reflexivity.
Qed.

Lemma count_app p a b : count p (a ++ b) = count p a + count p b.
Proof. unfold count. rewrite filter_app, length_app. reflexivity. Qed.

Lemma count_inert p d :
  (forall e, inert e = true -> p e = false) ->
  forallb inert d = true -> count p d = 0.
Proof.
  intros Hp. induction d as [|e d IH]; simpl; intros H; [reflexivity|].
  apply andb_prop in H. destruct H as [He Hd]. unfold count in *. simpl.
  rewrite (Hp e He). auto.
Qed.

Lemma bind_ret {A B} (m : M A) (k : A -> M B) s a s' :
  m s = (Ret a, s') -> bind m k s = k a s'.
Proof. intros E. unfold bind. rewrite E. reflexivity. Qed.

Ltac monad :=
  cbv beta iota delta [try_catch bind axios_get axios send get_app log sleep emit
    ret throw push kill spawn set_pythonProcess set_mainWindow showMessageBox
    showServiceError createReadStream];
  simpl.

(** The pre-check, case by case. *)
Lemma precheck_run w s :
  let a := w_server w (count is_request (trace s)) in
  let r := axios_result precheck_timeout_ms a in
  let ev := EvAxios {| cfg_method := "get"; cfg_url := health_url;
                       cfg_timeout := precheck_timeout_ms;
                       cfg_params := None; cfg_data := None |}
                    r (axios_elapsed precheck_timeout_ms a) in
  precheck w s =
  match r with
  | Rejected _ => (Ret false, push s [ev; EvLog LogNotRunningStarting])
  | Resolved c _ =>
      if (c =? 200)%Z then
        match mainWindow (app s) with
        | Some _ => (Ret true, push s [ev; EvLog LogAlreadyRunning;
                                       EvSend "service-ready" serviceUrl])
        | None => (Ret false, push s [ev; EvLog LogAlreadyRunning;
                                      EvLog LogNotRunningStarting])
        end
      else (Ret false, push s [ev])
  end.
Proof.
  unfold precheck. monad. 
  destruct (axios_result _ _) as [c b|e]; simpl.
  - destruct (c =? 200)%Z; simpl; [|reflexivity].
    destruct (mainWindow (app s)); simpl; rewrite <- !app_assoc; reflexivity.
  - rewrite <- !app_assoc; reflexivity.
Qed.

Lemma count_push p s d : count p (trace (push s d)) = count p (trace s) + count p d.
Proof. unfold push. simpl. apply count_app. Qed.

Lemma venv_fallback_missing w s :
  w_existsSync w (venvPython w) = false \/ w_existsSync w (serviceScript w) = false ->
  exists d, startPythonServiceVenvFallback w s = (Ret false, push s d) /\
            forallb inert d = true /\ existsb logs_artifact_not_found d = true.
Proof.
  intros H. unfold startPythonServiceVenvFallback. monad.
  destruct (w_existsSync w (venvPython w)) eqn:E1; simpl.
  - destruct H as [H|H]; [discriminate|]. rewrite H. simpl.
    eexists. rewrite <- !app_assoc. simpl. split; [reflexivity|]. split; reflexivity.
  - eexists. rewrite <- !app_assoc. simpl. split; [reflexivity|]. split; reflexivity.
Qed.

Ltac flat := unfold push; simpl; rewrite <- ?app_assoc; simpl.

Lemma startPythonService_absent w s :
  w_existsSync w (bundled_path w) = false ->
  w_existsSync w (venvPython w) = false \/ w_existsSync w (serviceScript w) = false ->
  exists d, startPythonService w s = (Ret false, push s (EvLog LogStartingBundled :: d)) /\
            forallb inert d = true /\ existsb logs_artifact_not_found d = true.
Proof.
  intros Hb Hv. unfold startPythonService, getPythonExecutablePath, bundled_path in *.
  monad. destruct (w_isPackaged w); simpl.
  - destruct (packagedExecutable w =? "") eqn:Ee; simpl.
    + match goal with |- context [startPythonServiceVenvFallback w ?s0] =>
        destruct (venv_fallback_missing w s0 Hv) as (d & E & I1 & I2); rewrite E end.
      flat. eexists. split; [reflexivity|].
      simpl. rewrite I1. split; [reflexivity|].
      rewrite I2. reflexivity.
    + rewrite Hb. flat. eexists. 
      split; [reflexivity|]. split; reflexivity.
  - rewrite Hb. simpl.
    match goal with |- context [startPythonServiceVenvFallback w ?s0] =>
      destruct (venv_fallback_missing w s0 Hv) as (d & E & I1 & I2); rewrite E end.
    flat. eexists. split; [reflexivity|].
    simpl. rewrite I1. split; [reflexivity|].
    rewrite I2. reflexivity.
Qed.

Lemma duration_app a b : duration (a ++ b) = (duration a + duration b)%N.
Proof. induction a as [|e a IH]; simpl; [reflexivity|]. rewrite IH. lia. Qed.

Lemma axios_elapsed_le t a : (axios_elapsed t a <= t)%N.
Proof. unfold axios_elapsed. lia. Qed.

(** One turn of the loop: one request, at most one pause. *)
Lemma connect_attempt_run w s :
  exists b d, connect_attempt w s = (Ret b, push s d) /\
              forallb probe_event d = true /\
              count is_request d = 1 /\
              (duration d <= probe_timeout_ms + probe_interval_ms)%N.
Proof.
  unfold connect_attempt. monad.
  pose proof (axios_elapsed_le probe_timeout_ms
                (w_server w (count is_request (trace s)))) as Hel.
  apply N.leb_le in Hel.
  destruct (axios_result _ _) as [c body|e]; simpl.
  - destruct (c =? 200)%Z; simpl.
    + destruct (mainWindow (app s)); simpl; flat; do 2 eexists;
        (split; [reflexivity|]); simpl; rewrite Hel; simpl;
        (split; [reflexivity|]); (split; [reflexivity|]);
        apply N.leb_le in Hel; unfold probe_timeout_ms, probe_interval_ms in *; lia.
    + flat. do 2 eexists. split; [reflexivity|]. simpl. rewrite Hel. simpl.
      split; [reflexivity|]. split; [reflexivity|].
      apply N.leb_le in Hel; unfold probe_timeout_ms, probe_interval_ms in *; lia.
  - flat. do 2 eexists. split; [reflexivity|]. simpl. rewrite Hel. simpl.
    split; [reflexivity|]. split; [reflexivity|].
    apply N.leb_le in Hel; unfold probe_timeout_ms, probe_interval_ms in *; lia.
Qed.

Lemma connect_loop_run w n : forall s,
  exists b d, connect_loop w n s = (Ret b, push s d) /\
              forallb probe_event d = true /\
              count is_request d <= n /\
              (duration d <= N.of_nat n * (probe_timeout_ms + probe_interval_ms))%N.
Proof.
  induction n as [|n IH]; intros s.
  - exists false, []. rewrite push_nil. repeat split; simpl; auto; lia.
  - change (connect_loop w (S n) s) with
      (bind (connect_attempt w)
            (fun done => if done then ret true else connect_loop w n) s).
    destruct (connect_attempt_run w s) as (b & d & E & F & C & D).
    rewrite (@bind_ret _ _ _ _ _ _ _ E). destruct b.
    + exists true, d. repeat split; auto; lia.
    + destruct (IH (push s d)) as (b' & d' & E' & F' & C' & D').
      exists b', (d ++ d'). rewrite E', push_push. repeat split.
      * rewrite forallb_app, F, F'. reflexivity.
      * rewrite count_app. lia.
      * rewrite duration_app. lia.
Qed.

Lemma connectToExistingService_run w n s :
  exists b d, connectToExistingService w n s = (Ret b, push s d) /\
              forallb probe_event d = true /\
              count is_request d <= n /\
              (duration d <= N.of_nat n * (probe_timeout_ms + probe_interval_ms))%N.
Proof.
  unfold connectToExistingService.
  destruct (connect_loop_run w n (push s [EvLog LogConnecting]))
    as (b & d & E & F & C & D).
  assert (L : log LogConnecting s = (Ret tt, push s [EvLog LogConnecting]))
    by reflexivity.
  rewrite (@bind_ret _ _ _ _ _ _ _ L), (@bind_ret _ _ _ _ _ _ _ E). destruct b.
  - exists true, (EvLog LogConnecting :: d). unfold ret. rewrite push_push. simpl.
    repeat split; auto.
  - exists false, (EvLog LogConnecting :: d ++ [EvLog LogCouldNotConnect]).
    monad. flat. repeat split.
    + rewrite forallb_app, F. reflexivity.
    + change (count is_request (EvLog LogConnecting :: d ++ [EvLog LogCouldNotConnect]))
        with (count is_request (d ++ [EvLog LogCouldNotConnect])).
      rewrite count_app. simpl. unfold count at 2. simpl. lia.
    + rewrite duration_app. simpl. unfold probe_timeout_ms, probe_interval_ms in D. lia.
Qed.



Lemma result_exec_of_run {A} (m : M A) s (o : Outcome A) s' :
  m s = (o, s') -> result m s = o /\ exec m s = s'.
Proof. intros E. unfold result, exec. rewrite E. auto. Qed.


(** C2, as stated, fails: a [/health] that answers 204 is a 2xx within the
    timeout, axios resolves, and the application spawns the service all the
    same and never reports readiness. *)
Lemma C2_other_2xx_spawns :
  axios_result precheck_timeout_ms (w_server no_content 0)
  = Resolved 204 (Js.Str "ok") /\
  spawned (events_of (autoStartAndConnect no_content) window_shown) = [0] /\
  count is_ready_send (events_of (autoStartAndConnect no_content) window_shown) = 0.
Proof. split; [|split]; vm_compute; reflexivity. Qed.

Lemma count_snoc_false p tr e : p e = false -> count p (tr ++ [e]) = count p tr.
Proof. intros H. rewrite count_app. unfold count at 2. simpl. rewrite H. simpl. lia. Qed.

(** The cycle whose pre-check finds the service. *)
Lemma autoStartAndConnect_detected w s body :
  mainWindow (app s) <> None ->
  axios_result precheck_timeout_ms (w_server w (count is_request (trace s)))
  = Resolved 200 body ->
  autoStartAndConnect w s =
  (Ret tt, push s [EvLog LogAutoStarting;
     EvAxios {| cfg_method := "get"; cfg_url := health_url;
                cfg_timeout := precheck_timeout_ms;
                cfg_params := None; cfg_data := None |}
       (Resolved 200 body)
       (axios_elapsed precheck_timeout_ms
          (w_server w (count is_request (trace s))));
     EvLog LogAlreadyRunning; EvSend "service-ready" serviceUrl]).
Proof.
  intros Hw Hr. unfold autoStartAndConnect.
  assert (L : log LogAutoStarting s = (Ret tt, push s [EvLog LogAutoStarting]))
    by reflexivity.
  rewrite (@bind_ret _ _ _ _ _ _ _ L).
  assert (P := precheck_run w (push s [EvLog LogAutoStarting])).
  cbv zeta in P. rewrite count_push in P.
  change (count is_request [EvLog LogAutoStarting]) with 0 in P.
  rewrite Nat.add_0_r, Hr in P. simpl in P.
  destruct (mainWindow (app s)); [|congruence].
  rewrite (@bind_ret _ _ _ _ _ _ _ P). unfold ret. rewrite push_push. reflexivity.
Qed.

(** C2, amended: in every startup cycle whose pre-check request resolves
    with status exactly 200 while the main window exists, nothing is
    spawned, the cycle consists of the probe followed by the
    ['service-ready'] message to the window, the state goes
    Idle, Probing, Ready, and no field changes. *)
Theorem C2_precheck_200 : forall w s body,
  mainWindow (app s) <> None ->
  axios_result precheck_timeout_ms (w_server w (count is_request (trace s)))
  = Resolved 200 body ->
  let d := events_of (autoStartAndConnect w) s in
  (exists cfg elapsed,
     d = [EvLog LogAutoStarting; EvAxios cfg (Resolved 200 body) elapsed;
          EvLog LogAlreadyRunning; EvSend "service-ready" serviceUrl] /\
     cfg_url cfg = health_url /\ cfg_timeout cfg = precheck_timeout_ms) /\
  count is_spawn_attempt d = 0 /\
  states_visited d = [Idle; Probing; Ready] /\
  app (exec (autoStartAndConnect w) s) = app s.
Proof.
  intros w s body Hw Hr d.
  assert (E := autoStartAndConnect_detected w s Hw Hr).
  destruct (@result_exec_of_run _ _ _ _ _ E) as [_ X].
  assert (D : d = _) by (apply events_of_push; exact X).
  split; [do 2 eexists; split; [exact D|split; reflexivity]|].
  rewrite D, X. repeat split.
Qed.

Lemma C2_precheck_200_witness :
  mainWindow (app window_shown) <> None /\
  axios_result precheck_timeout_ms
    (w_server already_up (count is_request (trace window_shown)))
  = Resolved 200 (Js.Str "ok") /\
  let d := events_of (autoStartAndConnect already_up) window_shown in
  (exists cfg elapsed,
     d = [EvLog LogAutoStarting; EvAxios cfg (Resolved 200 (Js.Str "ok")) elapsed;
          EvLog LogAlreadyRunning; EvSend "service-ready" serviceUrl] /\
     cfg_url cfg = health_url /\ cfg_timeout cfg = precheck_timeout_ms) /\
  count is_spawn_attempt d = 0 /\
  states_visited d = [Idle; Probing; Ready] /\
  app (exec (autoStartAndConnect already_up) window_shown) = app window_shown.
Proof.
  assert (H1 : mainWindow (app window_shown) <> None) by (simpl; discriminate).
  assert (H2 : axios_result precheck_timeout_ms
                 (w_server already_up (count is_request (trace window_shown)))
               = Resolved 200 (Js.Str "ok")) by reflexivity.
  split; [exact H1|]. split; [exact H2|].
  exact (C2_precheck_200 already_up window_shown H1 H2).
Defined.

Lemma state_eqb_refl st : state_eqb st st = true.
Proof. destruct st; reflexivity. Qed.

Lemma spec_step_inert st e : inert e = true -> spec_step st e = st.
Proof. destruct e as [m| | | | | | | | |]; try discriminate; try reflexivity.
       destruct m; try discriminate; reflexivity. Qed.

Lemma visit_inert d : forall st rest,
  forallb inert d = true -> visit st (d ++ rest) = visit st rest.
Proof.
  induction d as [|e d IH]; intros st rest H; [reflexivity|].
  simpl in H. apply andb_prop in H. destruct H as [He Hd]. simpl.
  rewrite (spec_step_inert st e He), state_eqb_refl. apply IH. exact Hd.
Qed.

Lemma inert_no_spawn_attempt e : inert e = true -> is_spawn_attempt e = false.
Proof. destruct e; try discriminate; reflexivity. Qed.
Lemma inert_no_ready_send e : inert e = true -> is_ready_send e = false.
Proof. destruct e; try discriminate; reflexivity. Qed.
Lemma inert_no_message_box e : inert e = true -> is_message_box e = false.
Proof. destruct e; try discriminate; reflexivity. Qed.

Lemma probe_event_no_spawn_attempt d :
  forallb probe_event d = true -> count is_spawn_attempt d = 0.
Proof.
  induction d as [|e d IH]; intros H; [reflexivity|].
  simpl in H. apply andb_prop in H. destruct H as [He Hd].
  unfold count in *. simpl. destruct e; try discriminate; simpl; auto.
Qed.

Lemma count_cons p e d : count p (e :: d) = (if p e then 1 else 0) + count p d.
Proof. unfold count. simpl. destruct (p e); reflexivity. Qed.

(** The failing pre-check adds only inert events. *)
Lemma precheck_failing w s :
  mainWindow (app s) = None \/
  (forall body, axios_result precheck_timeout_ms
                  (w_server w (count is_request (trace s))) <> Resolved 200 body) ->
  exists d, precheck w s = (Ret false, push s d) /\ forallb inert d = true.
Proof.
  intros H. rewrite precheck_run.
  destruct (axios_result _ _) as [c body|e] eqn:R.
  - destruct (c =? 200)%Z eqn:Ec.
    + destruct (mainWindow (app s)) eqn:Ew.
      * destruct H as [H|H]; [discriminate|].
        apply Z.eqb_eq in Ec. subst c. exfalso. exact (H body eq_refl).
      * eexists. split; reflexivity.
    + eexists. split; reflexivity.
  - eexists. split; reflexivity.
Qed.

(** With no artifact to launch, the recovery prompt cannot spawn either. *)
Lemma options_absent w s :
  w_existsSync w (bundled_path w) = false ->
  w_existsSync w (venvPython w) = false \/ w_existsSync w (serviceScript w) = false ->
  exists r after,
    showServiceConnectionOptions w s = (Ret tt, push s (EvMessageBox r :: after)) /\
    count is_spawn_attempt after = 0.
Proof.
  intros Hb Hv. unfold showServiceConnectionOptions.
  set (r := w_choice w (count is_message_box (trace s))).
  assert (B : showMessageBox w s = (Ret r, push s [EvMessageBox r])) by reflexivity.
  rewrite (@bind_ret _ _ _ _ _ _ _ B). exists r.
  destruct r as [|[|[|r]]].
  - destruct (startPythonService_absent w (push s [EvMessageBox 0]) Hb Hv)
      as (d & E & I1 & _).
    rewrite (@bind_ret _ _ _ _ _ _ _ E). unfold ret. rewrite push_push. simpl.
    eexists. split; [reflexivity|]. rewrite count_cons. simpl.
    apply count_inert; [apply inert_no_spawn_attempt | exact I1].
  - unfold showServiceError. destruct (w_isPackaged w); monad; flat;
      eexists; split; reflexivity.
  - destruct (connectToExistingService_run w 10 (push s [EvMessageBox 2]))
      as (b & d & E & F & _).
    rewrite (@bind_ret _ _ _ _ _ _ _ E). unfold ret. rewrite push_push. simpl.
    eexists. split; [reflexivity|]. apply probe_event_no_spawn_attempt. exact F.
  - exists []. split; reflexivity.
Qed.

(** C9: when the pre-check fails, the bundled artifact does not exist and
    the interpreter or the entry point of the fallback is missing too, the
    cycle makes no spawn attempt at all, logs an error naming the missing
    artifact, sends no ['service-ready'], and goes
    Idle, Probing, Launching, Failed: the recovery prompt is shown. *)
Theorem C9_no_artifact_no_spawn : forall w s,
  mainWindow (app s) = None \/
  (forall body, axios_result precheck_timeout_ms
                  (w_server w (count is_request (trace s))) <> Resolved 200 body) ->
  w_existsSync w (bundled_path w) = false ->
  w_existsSync w (venvPython w) = false \/ w_existsSync w (serviceScript w) = false ->
  let d := events_of (autoStartAndConnect w) s in
  count is_spawn_attempt d = 0 /\
  app (exec (autoStartAndConnect w) s) = app s /\
  exists before r after,
    d = before ++ EvMessageBox r :: after /\
    existsb logs_artifact_not_found before = true /\
    count is_ready_send before = 0 /\
    count is_message_box before = 0 /\
    states_visited (before ++ [EvMessageBox r]) = [Idle; Probing; Launching; Failed].
Proof.
  intros w s Hp Hb Hv d.
  assert (L : log LogAutoStarting s = (Ret tt, push s [EvLog LogAutoStarting]))
    by reflexivity.
  destruct (precheck_failing w (push s [EvLog LogAutoStarting])) as (d0 & E0 & I0).
  { simpl. rewrite count_snoc_false by reflexivity. exact Hp. }
  destruct (startPythonService_absent w (push (push s [EvLog LogAutoStarting]) d0) Hb Hv)
    as (d1 & E1 & I1 & N1).
  set (s2 := push (push (push s [EvLog LogAutoStarting]) d0) (EvLog LogStartingBundled :: d1)) in *.
  assert (L2 : log LogFailedToStart s2 = (Ret tt, push s2 [EvLog LogFailedToStart]))
    by reflexivity.
  destruct (options_absent w (push s2 [EvLog LogFailedToStart]) Hb Hv)
    as (r & after & E3 & C3).
  set (before := EvLog LogAutoStarting :: d0 ++ EvLog LogStartingBundled :: d1
                 ++ [EvLog LogFailedToStart]).
  assert (E : autoStartAndConnect w s =
              (Ret tt, push s (before ++ EvMessageBox r :: after))).
  { unfold autoStartAndConnect.
    rewrite (@bind_ret _ _ _ _ _ _ _ L), (@bind_ret _ _ _ _ _ _ _ E0),
      (@bind_ret _ _ _ _ _ _ _ E1). cbn [negb].
    rewrite (@bind_ret _ _ _ _ _ _ _ L2), E3. f_equal.
    subst s2 before. rewrite !push_push. f_equal. simpl.
    rewrite <- !app_assoc. simpl. rewrite <- !app_assoc. reflexivity. }
  destruct (@result_exec_of_run _ _ _ _ _ E) as [_ X].
  assert (D : d = before ++ EvMessageBox r :: after)
    by (apply events_of_push; exact X).
  assert (C0 : forall p, (forall e, inert e = true -> p e = false) ->
                         p (EvLog LogAutoStarting) = false ->
                         p (EvLog LogStartingBundled) = false ->
                         count p before = 0).
  { intros p Hi Ha Hs. subst before. rewrite count_cons, Ha, count_app, count_cons, Hs,
      count_app. rewrite (count_inert p d0 Hi I0),
      (count_inert p d1 Hi I1), count_cons, (Hi (EvLog LogFailedToStart) eq_refl).
    reflexivity. }
  split.
  { rewrite D, count_app, count_cons, C3.
    rewrite (C0 is_spawn_attempt inert_no_spawn_attempt eq_refl eq_refl). reflexivity. }
  split; [rewrite X; reflexivity|].
  exists before, r, after. split; [exact D|]. split.
  { subst before. simpl. rewrite existsb_app. simpl. rewrite existsb_app, N1.
    rewrite !orb_true_r. reflexivity. }
  split; [apply (C0 is_ready_send inert_no_ready_send); reflexivity|].
  split; [apply (C0 is_message_box inert_no_message_box); reflexivity|].
  subst before. unfold states_visited. simpl.
  rewrite <- app_assoc, (visit_inert d0 _ _ I0). simpl.
  rewrite <- !app_assoc, (visit_inert d1 _ _ I1). reflexivity.
Qed.

Lemma C9_no_artifact_no_spawn_witness :
  (forall body, axios_result precheck_timeout_ms
                  (w_server bare_checkout (count is_request (trace window_shown)))
                <> Resolved 200 body) /\
  w_existsSync bare_checkout (bundled_path bare_checkout) = false /\
  w_existsSync bare_checkout (venvPython bare_checkout) = false /\
  let d := events_of (autoStartAndConnect bare_checkout) window_shown in
  count is_spawn_attempt d = 0 /\
  app (exec (autoStartAndConnect bare_checkout) window_shown) = app window_shown /\
  exists before r after,
    d = before ++ EvMessageBox r :: after /\
    existsb logs_artifact_not_found before = true /\
    count is_ready_send before = 0 /\
    count is_message_box before = 0 /\
    states_visited (before ++ [EvMessageBox r]) = [Idle; Probing; Launching; Failed].
Proof.
  assert (H1 : forall body,
             axios_result precheck_timeout_ms
               (w_server bare_checkout (count is_request (trace window_shown)))
             <> Resolved 200 body) by (intros body; vm_compute; discriminate).
  assert (H2 : w_existsSync bare_checkout (bundled_path bare_checkout) = false)
    by reflexivity.
  assert (H3 : w_existsSync bare_checkout (venvPython bare_checkout) = false)
    by reflexivity.
  split; [exact H1|]. split; [exact H2|]. split; [exact H3|].
  exact (C9_no_artifact_no_spawn bare_checkout window_shown
           (or_intror H1) H2 (or_introl H3)).
Defined.

(** ** Invariants of the event loop *)

Section HandlerInvariant.
Variable I : Sim -> Prop.
Hypothesis I_log : forall m, preserves I (log m).
Hypothesis I_error_box : forall t, preserves I (emit (EvErrorBox t)).
Hypothesis I_exited : forall h, preserves I (emit (EvExited h)).
Hypothesis I_axios : forall w cfg, preserves I (axios w cfg).
Hypothesis I_message_box : forall w, preserves I (showMessageBox w).
Hypothesis I_window : forall x, preserves I (set_mainWindow x).
Hypothesis I_launch : forall w m cmd args cwd A (k : M A),
  preserves I k ->
  preserves I (h <- spawn w m cmd args cwd ;; set_pythonProcess (Some h) ;; k).
Hypothesis I_disconnect : preserves I disconnectFromService.
Hypothesis I_precheck : forall w, preserves I (precheck w).
Hypothesis I_attempt : forall w, preserves I (connect_attempt w).

Ltac pres :=
  repeat first
    [ apply preserves_ret | apply preserves_throw | apply preserves_get_app
    | apply I_log | apply I_error_box | apply I_exited
    | apply I_axios | apply I_message_box | apply I_window
    | apply I_launch | apply I_disconnect | apply I_precheck | apply I_attempt
    | apply preserves_bind | apply preserves_try
    | progress cbv zeta
    | match goal with
      | |- forall _, _ => intro
      | |- preserves _ (if ?b then _ else _) => destruct b
      | |- preserves _ (match ?x with _ => _ end) => destruct x
      end ].

Lemma I_getPythonExecutablePath w : preserves I (getPythonExecutablePath w).
Proof. unfold getPythonExecutablePath. pres. Qed.

Lemma I_venv w : preserves I (startPythonServiceVenvFallback w).
Proof. unfold startPythonServiceVenvFallback. pres. Qed.

Lemma I_startPythonService w : preserves I (startPythonService w).
Proof.
  unfold startPythonService. apply preserves_bind; [apply I_log|]. intros _.
  apply preserves_try; [|pres].
  apply preserves_bind; [apply I_getPythonExecutablePath|]. intros p.
  destruct (no_path p); [apply preserves_bind; [apply I_log | intros _; apply I_venv]|].
  pres.
Qed.

Lemma I_connect_loop w n : preserves I (connect_loop w n).
Proof.
  induction n as [|n IH]; simpl; [pres|].
  apply preserves_bind; [apply I_attempt|]. intros [|]; [pres|exact IH].
Qed.

Lemma I_connect w n : preserves I (connectToExistingService w n).
Proof.
  unfold connectToExistingService. apply preserves_bind; [apply I_log|]. intros _.
  apply preserves_bind; [apply I_connect_loop|]. pres.
Qed.

Lemma I_options w : preserves I (showServiceConnectionOptions w).
Proof.
  unfold showServiceConnectionOptions. apply preserves_bind; [apply I_message_box|].
  intros [|[|[|r]]].
  - apply preserves_bind; [apply I_startPythonService|]. pres.
  - unfold showServiceError. pres.
  - apply preserves_bind; [apply I_connect|]. pres.
  - pres.
Qed.

Lemma I_autoStartAndConnect w : preserves I (autoStartAndConnect w).
Proof.
  unfold autoStartAndConnect. apply preserves_bind; [apply I_log|]. intros _.
  apply preserves_bind; [apply I_precheck|]. intros [|]; [pres|].
  apply preserves_bind; [apply I_startPythonService|]. intros [|]; simpl.
  - apply preserves_bind; [apply I_connect|]. intros [|]; simpl; [pres|].
    apply preserves_bind; [apply I_log | intros _; apply I_options].
  - apply preserves_bind; [apply I_log | intros _; apply I_options].
Qed.

Lemma I_child_exit h code signal : preserves I (child_exit h code signal).
Proof.
  intros s H. unfold exec, child_exit.
  destruct (spawn_mode_of h (trace s)); [|exact H].
  destruct (existsb (is_exit_of h) (trace s)); [exact H|].
  apply (preserves_bind (I:=I)); [apply I_exited | intros _; apply I_log | exact H].
Qed.

Lemma I_handler w a : preserves I (handler w a).
Proof.
  destruct a; simpl.
  - apply I_window.
  - unfold on_ready_to_show. apply preserves_bind; [apply preserves_get_app|].
    intros a. destruct (mainWindow a); [apply I_autoStartAndConnect|apply preserves_throw].
  - apply I_window.
  - apply I_disconnect.
  - apply I_disconnect.
  - apply I_child_exit.
  - apply preserves_bind; [|pres]. unfold api_call. pres.
  - apply preserves_bind; [|pres]. unfold upload_file, createReadStream. pres.
Qed.
End HandlerInvariant.

(** ** The application only signals its own children *)

Lemma spawned_app a b : spawned (a ++ b) = spawned a ++ spawned b.
Proof. apply flat_map_app. Qed.
Lemma killed_app a b : killed (a ++ b) = killed a ++ killed b.
Proof. apply flat_map_app. Qed.

Lemma split_before_suffix (a d pre post : list Event) x :
  a ++ d = pre ++ x :: post -> ~ In x d ->
  exists post', a = pre ++ x :: post'.
Proof.
  intros E N. apply app_eq_app in E. destruct E as [l [[E1 E2]|[E1 E2]]].
  - destruct l as [|y l]; simpl in E2.
    + exfalso. apply N. rewrite <- E2. left. reflexivity.
    + inversion E2; subst. eauto.
  - exfalso. apply N. rewrite E2. apply in_or_app. right. left. reflexivity.
Qed.

Lemma no_kill_not_in d h :
  forallb (fun e => negb (is_kill e)) d = true -> ~ In (EvKill h) d.
Proof.
  intros F H. rewrite forallb_forall in F. specialize (F _ H). discriminate.
Qed.

Lemma owns_push s d a' :
  owns_what_it_spawned s ->
  forallb (fun e => negb (is_kill e)) d = true ->
  pythonProcess a' = pythonProcess (app s) ->
  owns_what_it_spawned {| app := a'; trace := trace s ++ d |}.
Proof.
  intros [H1 H2] F E. split; simpl.
  - intros h Hh. rewrite E in Hh. rewrite spawned_app. apply in_or_app. left. auto.
  - intros pre h post Eq.
    destruct (@split_before_suffix _ _ _ _ _ Eq (@no_kill_not_in d h F)) as [post' E'].
    eapply H2. exact E'.
Qed.

Lemma owns_emit e : is_kill e = false -> preserves owns_what_it_spawned (emit e).
Proof.
  intros K s H. apply owns_push; [exact H| simpl; rewrite K; reflexivity |reflexivity].
Qed.

Lemma owns_axios w cfg : preserves owns_what_it_spawned (axios w cfg).
Proof.
  intros s H. unfold exec, axios.
  destruct (unsendable cfg); [|destruct (axios_result _ _)]; simpl;
    (apply owns_push; [exact H|reflexivity|reflexivity]).
Qed.

Lemma owns_message_box w : preserves owns_what_it_spawned (showMessageBox w).
Proof. intros s H. apply owns_push; [exact H|reflexivity|reflexivity]. Qed.

Lemma owns_window x : preserves owns_what_it_spawned (set_mainWindow x).
Proof.
  intros s H. unfold exec, set_mainWindow. simpl.
  rewrite <- (app_nil_r (trace s)). apply owns_push; [exact H|reflexivity|reflexivity].
Qed.

Lemma owns_launch w m cmd args cwd A (k : M A) :
  preserves owns_what_it_spawned k ->
  preserves owns_what_it_spawned
    (h <- spawn w m cmd args cwd ;; set_pythonProcess (Some h) ;; k).
Proof.
  intros Hk s H. unfold exec, bind, spawn, set_pythonProcess.
  destruct (w_spawnThrows w _); simpl.
  - apply owns_push; [exact H|reflexivity|reflexivity].
  - apply Hk. destruct H as [H1 H2]. split; simpl.
    + intros h Hh. inversion Hh; subst. rewrite spawned_app. apply in_or_app.
      right. left. reflexivity.
    + intros pre h post Eq.
      assert (N : ~ In (EvKill h) [EvSpawn (count is_spawn_attempt (trace s)) m cmd args cwd]).
      { intros [X|[]]. discriminate. }
      destruct (@split_before_suffix _ _ _ _ _ Eq N) as [post' E']. eapply H2. exact E'.
Qed.

Lemma owns_disconnect : preserves owns_what_it_spawned disconnectFromService.
Proof.
  intros s H. unfold exec, disconnectFromService, bind, get_app. simpl.
  destruct (pythonProcess (app s)) as [h|] eqn:E; simpl.
  - destruct H as [H1 H2]. split; simpl; [discriminate|].
    intros pre h' post Eq. rewrite <- app_assoc in Eq. simpl in Eq.
    apply app_eq_app in Eq. destruct Eq as [l [[E1 E2]|[E1 E2]]].
    + destruct l as [|y l]; simpl in E2; [discriminate|].
      inversion E2; subst. eapply H2. exact E1.
    + destruct l as [|y [|z l]]; simpl in E2; try discriminate.
      * inversion E2; subst. rewrite spawned_app. apply in_or_app. left. auto.
      * inversion E2. destruct l; discriminate.
  - apply owns_push; [exact H|reflexivity|reflexivity].
Qed.

Lemma owns_precheck w : preserves owns_what_it_spawned (precheck w).
Proof.
  intros s H. unfold exec. rewrite precheck_run.
  destruct (axios_result _ _) as [c b|e];
    [destruct (c =? 200)%Z; [destruct (mainWindow (app s))|]|];
    (apply owns_push; [exact H|reflexivity|reflexivity]).
Qed.

Lemma owns_attempt w : preserves owns_what_it_spawned (connect_attempt w).
Proof.
  intros s H. destruct (connect_attempt_run w s) as (b & d & E & F & _).
  unfold exec. rewrite E. apply owns_push; [exact H| |reflexivity].
  rewrite forallb_forall in *. intros e He. specialize (F e He).
  destruct e; try discriminate; reflexivity.
Qed.

Lemma owns_init : owns_what_it_spawned init.
Proof. split; simpl; [discriminate|]. intros [|? ?] ? ? E; discriminate. Qed.

Lemma owns_handler w a : preserves owns_what_it_spawned (handler w a).
Proof.
  apply I_handler.
  - intros m. apply owns_emit. reflexivity.
  - intros t. apply owns_emit. reflexivity.
  - intros h. apply owns_emit. reflexivity.
  - apply owns_axios.
  - apply owns_message_box.
  - apply owns_window.
  - apply owns_launch.
  - apply owns_disconnect.
  - apply owns_precheck.
  - apply owns_attempt.
Qed.

Lemma reachable_run w acts : forall s, reachable w s -> reachable w (run w acts s).
Proof.
  induction acts as [|a acts IH]; intros s R; [exact R|].
  simpl. apply IH. apply reach_step. exact R.
Qed.

Lemma owns_reachable w s : reachable w s -> owns_what_it_spawned s.
Proof.
  induction 1 as [|s a R IH]; [apply owns_init|]. apply owns_handler. exact IH.
Qed.

(* ===================================================================== *)
(** ** ['service-ready'] always follows a successful probe *)

Lemma ready_justified_app a : forall b d,
  ready_justified b (a ++ d) =
  ready_justified b a && ready_justified (fresh_after b a) d.
Proof.
  induction a as [|e a IH]; intros b d; [reflexivity|].
  destruct e; simpl; rewrite ?IH; try reflexivity.
  rewrite andb_assoc. reflexivity.
Qed.

Lemma ready_justified_mono d : forall b,
  ready_justified false d = true -> ready_justified b d = true.
Proof.
  induction d as [|e d IH]; intros b H; [reflexivity|].
  destruct e; simpl in *; auto.
  apply andb_prop in H. destruct H as [H1 H2]. rewrite H2.
  destruct (channel =? "service-ready"); [discriminate|reflexivity].
Qed.

Lemma justified_push s d a' :
  justified s -> ready_justified false d = true ->
  justified {| app := a'; trace := trace s ++ d |}.
Proof.
  unfold justified. simpl. intros H D.
  rewrite ready_justified_app, H. simpl. apply ready_justified_mono. exact D.
Qed.

Lemma justified_emit e : is_ready_send e = false -> preserves justified (emit e).
Proof.
  intros K s H. apply justified_push; [exact H|].
  destruct e; simpl in *; try reflexivity. rewrite K. reflexivity.
Qed.

Lemma justified_axios w cfg : preserves justified (axios w cfg).
Proof.
  intros s H. unfold exec, axios.
  destruct (unsendable cfg); [|destruct (axios_result _ _)]; simpl;
    (apply justified_push; [exact H|reflexivity]).
Qed.

Lemma justified_window x : preserves justified (set_mainWindow x).
Proof. intros s H. exact H. Qed.

Lemma justified_launch w m cmd args cwd A (k : M A) :
  preserves justified k ->
  preserves justified
    (h <- spawn w m cmd args cwd ;; set_pythonProcess (Some h) ;; k).
Proof.
  intros Hk s H. unfold exec, bind, spawn, set_pythonProcess.
  destruct (w_spawnThrows w _); simpl.
  - apply justified_push; [exact H|reflexivity].
  - apply Hk. apply justified_push; [exact H|reflexivity].
Qed.

Lemma justified_disconnect : preserves justified disconnectFromService.
Proof.
  intros s H. unfold exec, disconnectFromService, bind, get_app. simpl.
  destruct (pythonProcess (app s)); simpl.
  - rewrite <- app_assoc. apply justified_push; [exact H|reflexivity].
  - apply justified_push; [exact H|reflexivity].
Qed.

Lemma justified_precheck w : preserves justified (precheck w).
Proof.
  intros s H. unfold exec. rewrite precheck_run.
  destruct (axios_result _ _) as [c b|e];
    [destruct (c =? 200)%Z eqn:Ec; [destruct (mainWindow (app s))|]|];
    (apply justified_push; [exact H|]); try reflexivity.
  simpl. rewrite Ec. reflexivity.
Qed.

Lemma justified_attempt w : preserves justified (connect_attempt w).
Proof.
  intros s H. unfold exec, connect_attempt. monad.
  destruct (axios_result _ _) as [c b|e]; simpl.
  - destruct (c =? 200)%Z eqn:Ec; simpl.
    + destruct (mainWindow (app s)); simpl; rewrite <- !app_assoc;
        (apply justified_push; [exact H|]); simpl; rewrite ?Ec; reflexivity.
    + apply justified_push; [exact H|reflexivity].
  - rewrite <- !app_assoc. apply justified_push; [exact H|reflexivity].
Qed.

Lemma justified_handler w a : preserves justified (handler w a).
Proof.
  apply I_handler.
  - intros m. apply justified_emit. reflexivity.
  - intros t. apply justified_emit. reflexivity.
  - intros h. apply justified_emit. reflexivity.
  - apply justified_axios.
  - intros w' s H. apply justified_push; [exact H|reflexivity].
  - apply justified_window.
  - apply justified_launch.
  - apply justified_disconnect.
  - apply justified_precheck.
  - apply justified_attempt.
Qed.

Lemma justified_reachable w s : reachable w s -> justified s.
Proof.
  induction 1 as [|s a R IH]; [reflexivity|]. apply justified_handler. exact IH.
Qed.

Lemma spec_state_app a b :
  spec_state (a ++ b) = fold_left spec_step b (spec_state a).
Proof. unfold spec_state. apply fold_left_app. Qed.

(** C1, as stated, fails: after a cold start that reached Ready with an
    owned child, the exit of that child only writes a console line; the
    state stays Ready and no recovery prompt is shown. *)
Lemma C1_exit_leaves_ready :
  reachable cold_start ready_owned /\
  spec_state (trace ready_owned) = Ready /\
  pythonProcess (app ready_owned) = Some 0 /\
  live_handles (trace ready_owned) = [0] /\
  let s' := fire cold_start ready_owned (AChildExit 0 (Some 1%Z) None) in
  events_of (handler cold_start (AChildExit 0 (Some 1%Z) None)) ready_owned
    = [EvExited 0; EvLog (LogExited Bundled (Some 1%Z) None)] /\
  spec_state (trace s') = Ready /\
  count is_message_box (trace s') = 0 /\
  pythonProcess (app s') = Some 0.
Proof.
  split; [unfold ready_owned; apply reachable_run; apply reach_init|].
  repeat split; vm_compute; reflexivity.
Qed.

(** C1, amended: a process-exit notification only writes one console
    line: no field changes, the connection state stays what it was and no
    recovery prompt is shown.  In every reachable state, each
    ['service-ready'] message was sent right after a [/health] request that
    resolved with status 200. *)
Theorem C1_exit_only_logged : forall w s h code signal,
  reachable w s ->
  let s' := fire w s (AChildExit h code signal) in
  app s' = app s /\
  (exists m, trace s' = trace s \/
             trace s' = trace s ++ [EvExited h; EvLog (LogExited m code signal)]) /\
  spec_state (trace s') = spec_state (trace s) /\
  count is_message_box (trace s') = count is_message_box (trace s) /\
  ready_justified false (trace s') = true.
Proof.
  intros w s h code signal R s'.
  assert (J : justified s') by (apply justified_reachable with w; apply reach_step; exact R).
  subst s'. unfold fire, exec, handler, child_exit in *.
  destruct (spawn_mode_of h (trace s)) as [m|].
  - destruct (existsb (is_exit_of h) (trace s)).
    + repeat split; auto. exists m. left. reflexivity.
    + monad. rewrite <- !app_assoc. simpl. split; [reflexivity|].
      split; [exists m; right; reflexivity|]. split; [rewrite spec_state_app; reflexivity|].
      split; [rewrite count_app; unfold count; simpl; lia|].
      unfold justified in J. revert J. monad. rewrite <- !app_assoc. simpl. auto.
  - repeat split; auto. exists Bundled. left. reflexivity.
Qed.

Lemma C1_exit_only_logged_witness :
  reachable cold_start ready_owned /\
  let s' := fire cold_start ready_owned (AChildExit 0 (Some 1%Z) None) in
  app s' = app ready_owned /\
  (exists m, trace s' = trace ready_owned \/
             trace s' = trace ready_owned ++
                        [EvExited 0; EvLog (LogExited m (Some 1%Z) None)]) /\
  spec_state (trace s') = spec_state (trace ready_owned) /\
  count is_message_box (trace s') = count is_message_box (trace ready_owned) /\
  ready_justified false (trace s') = true.
Proof.
  assert (R : reachable cold_start ready_owned)
    by exact (reach_step AReadyToShow (reach_step ACreateWindow (reach_init cold_start))).
  split; [exact R|].
  exact (C1_exit_only_logged 0 (Some 1%Z) None R).
Defined.

(** ** How many children a cycle may spawn *)

Lemma ext_ext s a d a' d' : ext (ext s a d) a' d' = ext s a' (d ++ d').
Proof. unfold ext. simpl. rewrite app_assoc. reflexivity. Qed.

Lemma push_ext s d : push s d = ext s (app s) d.
Proof. reflexivity. Qed.

Ltac counts := unfold count in *; simpl; try lia.

Lemma venv_spawns w s :
  exists b a d, startPythonServiceVenvFallback w s = (Ret b, ext s a d) /\
                count is_spawn d <= 1 /\ count is_kill d = 0.
Proof.
  unfold startPythonServiceVenvFallback. monad.
  destruct (w_existsSync w (venvPython w)); simpl;
    [destruct (w_existsSync w (serviceScript w)); simpl;
     [destruct (w_spawnThrows w _); simpl|]|];
    unfold ext; simpl; rewrite <- ?app_assoc; simpl;
    do 3 eexists; (split; [reflexivity|]); counts.
Qed.

Lemma start_spawns w s :
  exists b a d, startPythonService w s = (Ret b, ext s a d) /\
                count is_spawn d <= 1 /\ count is_kill d = 0.
Proof.
  unfold startPythonService, getPythonExecutablePath. monad.
  destruct (w_isPackaged w); simpl.
  - destruct (packagedExecutable w =? ""); simpl.
    + match goal with |- context [startPythonServiceVenvFallback w ?s0] =>
        destruct (venv_spawns w s0) as (b & a & d & E & S1 & K1); rewrite E end.
      unfold ext; simpl; rewrite <- ?app_assoc; simpl.
      do 3 eexists. split; [reflexivity|]. 
      change (count is_spawn (?x :: ?y :: ?z :: ?u :: d)) with (count is_spawn d).
      change (count is_kill (?x :: ?y :: ?z :: ?u :: d)) with (count is_kill d). auto.
    + destruct (w_existsSync w (packagedExecutable w)); simpl;
        [destruct (w_spawnThrows w _); simpl|];
        unfold ext; simpl; rewrite <- ?app_assoc; simpl;
        do 3 eexists; (split; [reflexivity|]); counts.
  - destruct (w_existsSync w (devExecutable w)) eqn:Ex; simpl.
    + destruct (devExecutable w =? ""); simpl.
      * match goal with |- context [startPythonServiceVenvFallback w ?s0] =>
          destruct (venv_spawns w s0) as (b & a & d & E & S1 & K1); rewrite E end.
        unfold ext; simpl; rewrite <- ?app_assoc; simpl.
        do 3 eexists. split; [reflexivity|].
        change (count is_spawn (?x :: ?y :: ?z :: ?u :: ?v :: d)) with (count is_spawn d).
        change (count is_kill (?x :: ?y :: ?z :: ?u :: ?v :: d)) with (count is_kill d). auto.
      * rewrite Ex. simpl.
        destruct (w_spawnThrows w _); simpl;
        unfold ext; simpl; rewrite <- ?app_assoc; simpl;
        do 3 eexists; (split; [reflexivity|]); counts.
    + match goal with |- context [startPythonServiceVenvFallback w ?s0] =>
        destruct (venv_spawns w s0) as (b & a & d & E & S1 & K1); rewrite E end.
      unfold ext; simpl; rewrite <- ?app_assoc; simpl.
      do 3 eexists. split; [reflexivity|].
      change (count is_spawn (?x :: ?y :: ?z :: ?u :: ?v :: d)) with (count is_spawn d).
      change (count is_kill (?x :: ?y :: ?z :: ?u :: ?v :: d)) with (count is_kill d). auto.
Qed.

Lemma probe_event_no_spawn d :
  forallb probe_event d = true -> count is_spawn d = 0 /\ count is_kill d = 0.
Proof.
  induction d as [|e d IH]; intros H; [split; reflexivity|].
  simpl in H. apply andb_prop in H. destruct H as [He Hd].
  destruct (IH Hd) as [S1 K1].
  rewrite !count_cons, S1, K1. destruct e; try discriminate; split; reflexivity.
Qed.

Lemma connect_spawns w n s :
  exists b d, connectToExistingService w n s = (Ret b, ext s (app s) d) /\
              count is_spawn d = 0 /\ count is_kill d = 0.
Proof.
  destruct (connectToExistingService_run w n s) as (b & d & E & F & _).
  exists b, d. split; [exact E|]. apply probe_event_no_spawn. exact F.
Qed.

Lemma precheck_spawns w s :
  exists b d, precheck w s = (Ret b, ext s (app s) d) /\
              count is_spawn d = 0 /\ count is_kill d = 0.
Proof.
  rewrite precheck_run.
  destruct (axios_result _ _) as [c body|e];
    [destruct (c =? 200)%Z; [destruct (mainWindow (app s))|]|];
    do 2 eexists; (split; [reflexivity|]); split; reflexivity.
Qed.

Lemma options_spawns w s :
  exists r a after,
    showServiceConnectionOptions w s = (Ret tt, ext s a (EvMessageBox r :: after)) /\
    count is_spawn after <= 1 /\ count is_kill after = 0 /\
    (r <> 0 -> count is_spawn after = 0).
Proof.
  unfold showServiceConnectionOptions.
  set (r := w_choice w (count is_message_box (trace s))).
  assert (B : showMessageBox w s = (Ret r, push s [EvMessageBox r])) by reflexivity.
  rewrite (@bind_ret _ _ _ _ _ _ _ B). exists r.
  destruct r as [|[|[|r]]].
  - destruct (start_spawns w (push s [EvMessageBox 0])) as (b & a & d & E & S1 & K1).
    rewrite (@bind_ret _ _ _ _ _ _ _ E). unfold ret. rewrite push_ext, ext_ext. simpl.
    exists a, d. repeat split; auto. congruence.
  - unfold showServiceError. destruct (w_isPackaged w); monad; unfold ext; simpl;
      rewrite <- ?app_assoc; simpl; do 2 eexists; (split; [reflexivity|]);
      repeat split; counts.
  - destruct (connect_spawns w 10 (push s [EvMessageBox 2])) as (b & d & E & S1 & K1).
    rewrite (@bind_ret _ _ _ _ _ _ _ E). unfold ret. rewrite push_ext, ext_ext. simpl.
    exists (app s), d. repeat split; auto. lia.
  - exists (app s), []. repeat split; auto.
Qed.

(** A whole cycle: never a kill, at most two spawns, and at most one unless
    the user answered the prompt with 'Start Service Automatically'. *)
Lemma cycle_spawns w s :
  exists a d,
    autoStartAndConnect w s = (Ret tt, ext s a d) /\
    count is_kill d = 0 /\ count is_spawn d <= 2 /\
    (existsb is_restart_choice d = false -> count is_spawn d <= 1).
Proof.
  unfold autoStartAndConnect.
  assert (L : log LogAutoStarting s = (Ret tt, push s [EvLog LogAutoStarting]))
    by reflexivity.
  rewrite (@bind_ret _ _ _ _ _ _ _ L).
  destruct (precheck_spawns w (push s [EvLog LogAutoStarting])) as (b0 & d0 & E0 & S0 & K0).
  rewrite (@bind_ret _ _ _ _ _ _ _ E0). rewrite push_ext, ext_ext. simpl (app _).
  destruct b0.
  { unfold ret. do 2 eexists. split; [reflexivity|].
    rewrite !count_app, S0, K0. repeat split; counts. }
  cbv beta iota.
  match goal with |- context [bind (startPythonService w) _ ?s0] =>
    destruct (start_spawns w s0) as (b1 & a1 & d1 & E1 & S1 & K1) end.
  rewrite (@bind_ret _ _ _ _ _ _ _ E1). rewrite ext_ext.
  assert (tail : forall m s1 d', 
            count is_spawn d' <= 1 -> count is_kill d' = 0 -> app s1 = a1 ->
            trace s1 = trace s ++ d' ->
            exists a d,
              (log m ;; showServiceConnectionOptions w) s1 = (Ret tt, ext s a d) /\
              count is_kill d = 0 /\ count is_spawn d <= 2 /\
              (existsb is_restart_choice d = false -> count is_spawn d <= 1)).
  { intros m s1 d' S' K' A' T'.
    assert (L' : log m s1 = (Ret tt, push s1 [EvLog m])) by reflexivity.
    rewrite (@bind_ret _ _ _ _ _ _ _ L').
    destruct (options_spawns w (push s1 [EvLog m])) as (r & a & after & E & S2 & K2 & R2).
    rewrite E. exists a, (d' ++ EvLog m :: EvMessageBox r :: after).
    split; [unfold ext, push; simpl; rewrite T', <- !app_assoc; reflexivity|].
    rewrite !count_app, !count_cons. simpl. split; [lia|]. split; [lia|].
    intros X. rewrite existsb_app in X. apply orb_false_elim in X. destruct X as [_ X].
    simpl in X. apply orb_false_elim in X. destruct X as [X _].
    assert (r <> 0) by (destruct r; [discriminate|congruence]).
    rewrite (R2 H). lia. }
  destruct b1; cbn [negb].
  - match goal with |- context [bind (connectToExistingService w 20) _ ?s0] =>
      destruct (connect_spawns w 20 s0) as (b2 & d2 & E2 & S2 & K2) end.
    rewrite (@bind_ret _ _ _ _ _ _ _ E2). rewrite ext_ext. simpl (app _).
    destruct b2; cbn [negb].
    + unfold ret. do 2 eexists. split; [reflexivity|].
      rewrite !count_app, S0, K0, S2, K2. simpl.
      change (count is_kill [EvLog LogAutoStarting]) with 0.
      change (count is_spawn [EvLog LogAutoStarting]) with 0.
      repeat split; lia.
    + apply tail with (d' := (([EvLog LogAutoStarting] ++ d0) ++ d1) ++ d2);
        [| |reflexivity|reflexivity];
        rewrite !count_app, ?S0, ?K0, ?S2, ?K2; counts.
  - apply tail with (d' := ([EvLog LogAutoStarting] ++ d0) ++ d1);
      [| |reflexivity|reflexivity];
      rewrite !count_app, ?S0, ?K0; counts.
Qed.

Lemma live_app a : forall b acc, live (a ++ b) acc = live b (live a acc).
Proof.
  induction a as [|e a IH]; intros b acc; [reflexivity|].
  destruct e; simpl; apply IH.
Qed.

Lemma filter_length_le {A} (f : A -> bool) l :
  List.length (filter f l) <= List.length l.
Proof. induction l as [|x l IH]; simpl; [lia|]. destruct (f x); simpl; lia. Qed.

Lemma live_length d : forall acc,
  List.length (live d acc) <= List.length acc + count is_spawn d.
Proof.
  induction d as [|e d IH]; intros acc; [simpl; counts|].
  rewrite count_cons.
  assert (F : forall h, List.length (live d (filter (fun h' => negb (Nat.eqb h h')) acc))
                        <= List.length acc + count is_spawn d).
  { intros h. eapply Nat.le_trans; [apply IH|]. apply Nat.add_le_mono_r.
    apply filter_length_le. }
  destruct e; simpl; try apply IH; try apply F.
  eapply Nat.le_trans; [apply IH|]. rewrite length_app. simpl. lia.
Qed.

Lemma count_firstn_le p k : forall d, count p (firstn k d) <= count p d.
Proof.
  induction k as [|k IH]; intros d; [simpl; unfold count; simpl; lia|].
  destruct d as [|e d]; [simpl; lia|]. simpl. rewrite !count_cons.
  specialize (IH d). lia.
Qed.

(** C3, as stated, fails: the launched service never becomes ready, the
    user answers the prompt with 'Start Service Automatically', and a
    second child is spawned while the first is still live and was never
    killed. *)
Lemma C3_two_live_children :
  live_handles (trace window_shown) = [] /\
  spawned (events_of (autoStartAndConnect never_ready) window_shown) = [0; 1] /\
  killed (events_of (autoStartAndConnect never_ready) window_shown) = [] /\
  live_handles (trace (exec (autoStartAndConnect never_ready) window_shown)) = [0; 1] /\
  pythonProcess (app (exec (autoStartAndConnect never_ready) window_shown)) = Some 1.
Proof. repeat split; vm_compute; reflexivity. Qed.

(** C3, amended: in a startup cycle that begins with no live child and in
    which the recovery prompt is not answered with 'Start Service
    Automatically', nothing is killed, at most one child is spawned, and at
    most one child is live at every point of the cycle. *)
Theorem C3_one_child_unless_restart : forall w s,
  live_handles (trace s) = [] ->
  let d := events_of (autoStartAndConnect w) s in
  existsb is_restart_choice d = false ->
  count is_kill d = 0 /\
  count is_spawn d <= 1 /\
  forall k, List.length (live_handles (trace s ++ firstn k d)) <= 1.
Proof.
  intros w s L d X.
  destruct (cycle_spawns w s) as (a & d' & E & K & S2 & S1).
  destruct (@result_exec_of_run _ _ _ _ _ E) as [_ Ex].
  assert (D : d = d').
  { unfold d, events_of. rewrite Ex. unfold ext. simpl.
    rewrite skipn_app, skipn_all, Nat.sub_diag. reflexivity. }
  rewrite D in *. split; [exact K|]. split; [exact (S1 X)|].
  intros k. unfold live_handles in *. rewrite live_app, L.
  pose proof (live_length (firstn k d') []) as B.
  pose proof (count_firstn_le is_spawn k d'). specialize (S1 X). simpl in B. lia.
Qed.

Lemma C3_one_child_unless_restart_witness :
  live_handles (trace window_shown) = [] /\
  existsb is_restart_choice
    (events_of (autoStartAndConnect cold_start) window_shown) = false /\
  let d := events_of (autoStartAndConnect cold_start) window_shown in
  count is_kill d = 0 /\
  count is_spawn d <= 1 /\
  forall k, List.length (live_handles (trace window_shown ++ firstn k d)) <= 1.
Proof.
  assert (H1 : live_handles (trace window_shown) = []) by reflexivity.
  assert (H2 : existsb is_restart_choice
                 (events_of (autoStartAndConnect cold_start) window_shown) = false)
    by (vm_compute; reflexivity).
  split; [exact H1|]. split; [exact H2|].
  exact (C3_one_child_unless_restart cold_start window_shown H1 H2).
Defined.

Lemma fire_ready_to_show w s :
  mainWindow (app s) <> None ->
  fire w s AReadyToShow = exec (autoStartAndConnect w) s.
Proof.
  intros H. unfold fire, exec, handler, on_ready_to_show, bind, get_app.
  destruct (mainWindow (app s)) as [[]|]; [reflexivity|congruence].
Qed.

(** C8: a cycle whose pre-check finds the service already listening
    spawns nothing, kills nothing and leaves the process field as it was,
    so a later [disconnectFromService] has nothing of that service to
    kill; and whatever happens later, the field and every kill only ever
    concern handles returned by this application's own [spawn]. *)
Theorem C8_only_own_children : forall w s body later,
  reachable w s ->
  mainWindow (app s) <> None ->
  axios_result precheck_timeout_ms (w_server w (count is_request (trace s)))
  = Resolved 200 body ->
  let s' := exec (autoStartAndConnect w) s in
  app s' = app s /\
  spawned (trace s') = spawned (trace s) /\
  killed (trace s') = killed (trace s) /\
  match pythonProcess (app s) with
  | None => killed (trace (exec disconnectFromService s')) = killed (trace s)
  | Some _ => True
  end /\
  owns_what_it_spawned (run w later s').
Proof.
  intros w s body later R Hw Hr s'.
  assert (E := autoStartAndConnect_detected w s Hw Hr).
  destruct (@result_exec_of_run _ _ _ _ _ E) as [_ X]. fold s' in X.
  assert (R' : reachable w s').
  { unfold s'. rewrite <- fire_ready_to_show by exact Hw. apply reach_step. exact R. }
  rewrite X. simpl. rewrite spawned_app, killed_app. simpl. rewrite !app_nil_r.
  repeat split.
  - destruct (pythonProcess (app s)) eqn:P; [exact I|].
    rewrite disconnect_unowned by exact P. simpl.
    rewrite !killed_app. simpl. rewrite !app_nil_r. reflexivity.
  - rewrite <- X. destruct (owns_reachable (reachable_run later R')) as [H _]. exact H.
  - rewrite <- X. destruct (owns_reachable (reachable_run later R')) as [_ H]. exact H.
Qed.

Lemma C8_only_own_children_witness :
  reachable already_up window_shown /\
  mainWindow (app window_shown) <> None /\
  axios_result precheck_timeout_ms
    (w_server already_up (count is_request (trace window_shown)))
  = Resolved 200 (Js.Str "ok") /\
  let s' := exec (autoStartAndConnect already_up) window_shown in
  app s' = app window_shown /\
  spawned (trace s') = spawned (trace window_shown) /\
  killed (trace s') = killed (trace window_shown) /\
  match pythonProcess (app window_shown) with
  | None => killed (trace (exec disconnectFromService s'))
            = killed (trace window_shown)
  | Some _ => True
  end /\
  owns_what_it_spawned (run already_up [AWindowAllClosed; ABeforeQuit] s').
Proof.
  assert (R : reachable already_up window_shown)
    by exact (reach_step ACreateWindow (reach_init already_up)).
  assert (H1 : mainWindow (app window_shown) <> None) by (simpl; discriminate).
  assert (H2 : axios_result precheck_timeout_ms
                 (w_server already_up (count is_request (trace window_shown)))
               = Resolved 200 (Js.Str "ok")) by reflexivity.
  split; [exact R|]. split; [exact H1|]. split; [exact H2|].
  exact (C8_only_own_children [AWindowAllClosed; ABeforeQuit] R H1 H2).
Defined.

(* ===================================================================== *)
(** * Further properties of the main process *)
(* ===================================================================== *)


(** One turn of the readiness loop, case by case. *)
Lemma connect_attempt_cases w s :
  connect_attempt w s =
  match axios_result probe_timeout_ms (w_server w (count is_request (trace s))) with
  | Rejected _ =>
      (Ret false, push s [probe_request w s; EvSleep probe_interval_ms])
  | Resolved c _ =>
      if (c =? 200)%Z then
        match mainWindow (app s) with
        | Some _ => (Ret true, push s [probe_request w s; EvLog LogConnected;
                                       EvSend "service-ready" serviceUrl])
        | None => (Ret false, push s [probe_request w s; EvLog LogConnected;
                                      EvSleep probe_interval_ms])
        end
      else (Ret false, push s [probe_request w s])
  end.
Proof.
  unfold connect_attempt, probe_request. monad.
  destruct (axios_result _ _) as [c b|e]; simpl.
  - destruct (c =? 200)%Z; simpl; [|reflexivity].
    destruct (mainWindow (app s)); simpl; rewrite <- !app_assoc; reflexivity.
  - rewrite <- !app_assoc; reflexivity.
Qed.

Lemma connect_loop_S w n s :
  connect_loop w (S n) s =
  bind (connect_attempt w) (fun done => if done then ret true else connect_loop w n) s.
Proof. reflexivity. Qed.

(** What the loop leaves behind, by result. *)
Lemma connect_loop_outcome w n : forall s,
  exists b d, connect_loop w n s = (Ret b, push s d) /\
    (if b then
       exists mid, d = mid ++ [EvSend "service-ready" serviceUrl] /\
                   forallb inert mid = true /\
                   1 <= count is_request mid <= n
     else forallb inert d = true /\ count is_request d = n).
Proof.
  induction n as [|n IH]; intros s.
  - exists false, []. rewrite push_nil. repeat split.
  - rewrite connect_loop_S. unfold bind. rewrite connect_attempt_cases.
    destruct (IH (push s [probe_request w s; EvSleep probe_interval_ms]))
      as (b1 & d1 & E1 & P1).
    destruct (IH (push s [probe_request w s; EvLog LogConnected;
                          EvSleep probe_interval_ms])) as (b2 & d2 & E2 & P2).
    destruct (IH (push s [probe_request w s])) as (b3 & d3 & E3 & P3).
    assert (G : forall pre b' d',
               forallb inert pre = true -> count is_request pre = 1 ->
               connect_loop w n (push s pre) = (Ret b', push (push s pre) d') ->
               (if b' then exists mid, d' = mid ++ [EvSend "service-ready" serviceUrl] /\
                           forallb inert mid = true /\ 1 <= count is_request mid <= n
                else forallb inert d' = true /\ count is_request d' = n) ->
               exists b d, connect_loop w n (push s pre) = (Ret b, push s d) /\
                 (if b then exists mid, d = mid ++ [EvSend "service-ready" serviceUrl] /\
                           forallb inert mid = true /\ 1 <= count is_request mid <= S n
                  else forallb inert d = true /\ count is_request d = S n)).
    { intros pre b' d' Hi Hc E P. exists b', (pre ++ d'). rewrite E, push_push.
      split; [reflexivity|]. destruct b'.
      - destruct P as (mid & -> & Hm & Hr). exists (pre ++ mid).
        rewrite app_assoc, forallb_app, Hi, Hm, count_app, Hc. repeat split; lia.
      - destruct P as [Hd Hr]. rewrite forallb_app, Hi, Hd, count_app, Hc, Hr.
        split; reflexivity. }
    destruct (axios_result _ _) as [c body|e] eqn:R.
    + destruct (c =? 200)%Z.
      * destruct (mainWindow (app s)).
        -- exists true. eexists. split; [reflexivity|].
           exists [probe_request w s; EvLog LogConnected]. unfold probe_request.
           repeat split; try reflexivity; unfold count; simpl; lia.
        -- apply (G _ b2 d2); auto.
      * apply (G _ b3 d3); auto.
    + apply (G _ b1 d1); auto.
Qed.

Lemma connect_outcome w n s :
  exists (b : bool) mid,
    connectToExistingService w n s =
      (Ret b, push s (EvLog LogConnecting :: mid ++
                      [if b then EvSend "service-ready" serviceUrl
                       else EvLog LogCouldNotConnect])) /\
    forallb inert mid = true /\
    (if b then 1 <= count is_request mid <= n else count is_request mid = n).
Proof.
  unfold connectToExistingService.
  assert (L : log LogConnecting s = (Ret tt, push s [EvLog LogConnecting]))
    by reflexivity.
  rewrite (@bind_ret _ _ _ _ _ _ _ L).
  destruct (connect_loop_outcome w n (push s [EvLog LogConnecting])) as (b & d & E & P).
  rewrite (@bind_ret _ _ _ _ _ _ _ E). destruct b.
  - destruct P as (mid & -> & Hm & Hr). exists true, mid. unfold ret.
    rewrite push_push. simpl. auto.
  - destruct P as [Hd Hr]. exists false, d. monad. flat. auto.
Qed.

(** X1: [connectToExistingService] never throws and changes no field.  It
    returns [true] exactly when it has sent ['service-ready'], once, as the
    last thing it did, after between 1 and [maxAttempts] requests; it
    returns [false] after exactly [maxAttempts] requests, having sent
    nothing, its last act being the "could not connect" console line. *)
Theorem X_connect_result : forall w maxAttempts s,
  let d := events_of (connectToExistingService w maxAttempts) s in
  app (exec (connectToExistingService w maxAttempts) s) = app s /\
  match result (connectToExistingService w maxAttempts) s with
  | Ret true =>
      count is_ready_send d = 1 /\
      last d (EvLog LogConnecting) = EvSend "service-ready" serviceUrl /\
      1 <= count is_request d <= maxAttempts
  | Ret false =>
      count is_ready_send d = 0 /\
      last d (EvLog LogConnecting) = EvLog LogCouldNotConnect /\
      count is_request d = maxAttempts
  | Throw _ => False
  end.
Proof.
  intros w n s d. destruct (connect_outcome w n s) as (b & mid & E & Hm & Hr).
  destruct (@result_exec_of_run _ _ _ _ _ E) as [R X].
  assert (D : d = EvLog LogConnecting :: mid ++
                  [if b then EvSend "service-ready" serviceUrl
                   else EvLog LogCouldNotConnect])
    by (apply events_of_push; exact X).
  rewrite R, X, D. split; [reflexivity|].
  assert (L : forall e, last (EvLog LogConnecting :: mid ++ [e]) (EvLog LogConnecting) = e).
  { intros e. change (EvLog LogConnecting :: mid ++ [e])
      with ((EvLog LogConnecting :: mid) ++ [e]). apply last_last. }
  rewrite L, !count_cons, !count_app, !count_cons.
  rewrite (count_inert is_ready_send mid inert_no_ready_send Hm).
  destruct b; simpl; repeat split; unfold count in *; simpl; lia.
Qed.

(** With the window open, the loop pauses exactly after the requests that
    were rejected. *)
Lemma connect_loop_pauses w n : forall s,
  mainWindow (app s) <> None ->
  exists b d, connect_loop w n s = (Ret b, push s d) /\
              count is_sleep d = count is_rejected_request d.
Proof.
  induction n as [|n IH]; intros s Hw.
  - exists false, []. rewrite push_nil. split; reflexivity.
  - rewrite connect_loop_S. unfold bind. rewrite connect_attempt_cases.
    assert (G : forall pre,
               count is_sleep pre = count is_rejected_request pre ->
               exists b d, connect_loop w n (push s pre) = (Ret b, push s d) /\
                           count is_sleep d = count is_rejected_request d).
    { intros pre Hp. destruct (IH (push s pre) Hw) as (b & d & E & Hd).
      exists b, (pre ++ d). rewrite E, push_push, !count_app. split; [reflexivity|lia]. }
    unfold probe_request.
    destruct (axios_result _ _) as [c body|e] eqn:R.
    + destruct (c =? 200)%Z.
      * destruct (mainWindow (app s)); [|congruence].
        exists true. eexists. split; reflexivity.
      * apply G. reflexivity.
    + apply G. reflexivity.
Qed.

(** X3: with the window open, [connectToExistingService] pauses exactly
    once per rejected request: a request that resolves with a status other
    than 200 is followed by the next attempt without any pause. *)
Theorem X_connect_pauses : forall w maxAttempts s,
  mainWindow (app s) <> None ->
  let d := events_of (connectToExistingService w maxAttempts) s in
  count is_sleep d = count is_rejected_request d.
Proof.
  intros w n s Hw d.
  assert (E : exists b d', connectToExistingService w n s = (Ret b, push s d') /\
                           count is_sleep d' = count is_rejected_request d').
  { unfold connectToExistingService.
    assert (L : log LogConnecting s = (Ret tt, push s [EvLog LogConnecting]))
      by reflexivity.
    rewrite (@bind_ret _ _ _ _ _ _ _ L).
    destruct (connect_loop_pauses w n (push s [EvLog LogConnecting]) Hw)
      as (b & d' & E & Hd).
    rewrite (@bind_ret _ _ _ _ _ _ _ E). destruct b.
    - exists true, (EvLog LogConnecting :: d'). unfold ret. rewrite push_push.
      split; [reflexivity|]. rewrite !count_cons. simpl. exact Hd.
    - exists false, (EvLog LogConnecting :: d' ++ [EvLog LogCouldNotConnect]).
      monad. flat. split; [reflexivity|].
      rewrite !count_cons, !count_app. simpl. unfold count in *. simpl. lia. }
  destruct E as (b & d' & E & Hd).
  destruct (@result_exec_of_run _ _ _ _ _ E) as [_ X].
  assert (D : d = d') by (apply events_of_push; exact X). rewrite D. exact Hd.
Qed.

(** With the window closed the loop cannot succeed, whatever the server
    answers. *)
Lemma connect_loop_no_window w n : forall s,
  mainWindow (app s) = None ->
  exists d, connect_loop w n s = (Ret false, push s d).
Proof.
  induction n as [|n IH]; intros s Hw.
  - exists []. rewrite push_nil. reflexivity.
  - rewrite connect_loop_S. unfold bind. rewrite connect_attempt_cases, Hw.
    assert (G : forall pre, exists d, connect_loop w n (push s pre) = (Ret false, push s d)).
    { intros pre. destruct (IH (push s pre) Hw) as (d & E).
      exists (pre ++ d). rewrite E, push_push. reflexivity. }
    destruct (axios_result _ _) as [c body|e]; [destruct (c =? 200)%Z|]; apply G.
Qed.

(** X4: while [mainWindow] is [null], [connectToExistingService] cannot
    succeed whatever the server answers: the send throws inside the [try],
    so the method uses up all its attempts, sends nothing and returns
    [false]. *)
Theorem X_connect_window_closed : forall w maxAttempts s,
  mainWindow (app s) = None ->
  let d := events_of (connectToExistingService w maxAttempts) s in
  result (connectToExistingService w maxAttempts) s = Ret false /\
  count is_ready_send d = 0 /\
  count is_request d = maxAttempts.
Proof.
  intros w n s Hw d. destruct (connect_outcome w n s) as (b & mid & E & Hm & Hr).
  destruct (@result_exec_of_run _ _ _ _ _ E) as [R X].
  assert (B : b = false).
  { assert (R' : result (connectToExistingService w n) s = Ret false).
    { unfold result, connectToExistingService.
      assert (L : log LogConnecting s = (Ret tt, push s [EvLog LogConnecting]))
        by reflexivity.
      rewrite (@bind_ret _ _ _ _ _ _ _ L).
      destruct (connect_loop_no_window w n (push s [EvLog LogConnecting]) Hw) as (d' & E').
      rewrite (@bind_ret _ _ _ _ _ _ _ E'). reflexivity. }
    rewrite R in R'. inversion R'. reflexivity. }
  subst b.
  assert (D : d = EvLog LogConnecting :: mid ++ [EvLog LogCouldNotConnect])
    by (apply events_of_push; exact X).
  rewrite R, D, !count_cons, !count_app, !count_cons.
  rewrite (count_inert is_ready_send mid inert_no_ready_send Hm).
  repeat split; unfold count in *; simpl; lia.
Qed.

(** The loop stops at the first attempt that resolves with 200. *)
Lemma connect_loop_first_success w : forall k n s body,
  k < n ->
  mainWindow (app s) <> None ->
  (forall i, i < k -> forall b,
     axios_result probe_timeout_ms (w_server w (count is_request (trace s) + i))
     <> Resolved 200 b) ->
  axios_result probe_timeout_ms (w_server w (count is_request (trace s) + k))
  = Resolved 200 body ->
  exists d, connect_loop w n s = (Ret true, push s d) /\ count is_request d = S k.
Proof.
  induction k as [|k IH]; intros n s body Hk Hw Hbefore Hat.
  - destruct n as [|n]; [lia|]. rewrite connect_loop_S. unfold bind.
    rewrite connect_attempt_cases. rewrite Nat.add_0_r in Hat. rewrite Hat. simpl.
    destruct (mainWindow (app s)); [|congruence].
    eexists. split; reflexivity.
  - destruct n as [|n]; [lia|]. rewrite connect_loop_S. unfold bind.
    rewrite connect_attempt_cases.
    assert (G : forall pre, count is_request pre = 1 ->
               exists d, connect_loop w n (push s pre) = (Ret true, push s d) /\
                         count is_request d = S (S k)).
    { intros pre Hp. destruct (IH n (push s pre) body) as (d & E & Hd).
      - lia.
      - exact Hw.
      - intros i Hi b. rewrite count_push, Hp.
        replace (count is_request (trace s) + 1 + i)
          with (count is_request (trace s) + S i) by lia.
        apply Hbefore. lia.
      - rewrite count_push, Hp.
        replace (count is_request (trace s) + 1 + k)
          with (count is_request (trace s) + S k) by lia. exact Hat.
      - exists (pre ++ d). rewrite E, push_push, count_app, Hp, Hd. split; reflexivity. }
    pose proof (Hbefore 0 ltac:(lia)) as H0. rewrite Nat.add_0_r in H0.
    unfold probe_request.
    destruct (axios_result probe_timeout_ms (w_server w (count is_request (trace s))))
      as [c b|e] eqn:R.
    + destruct (c =? 200)%Z eqn:Ec.
      * apply Z.eqb_eq in Ec. subst c. exfalso. exact (H0 b eq_refl).
      * apply G. reflexivity.
    + apply G. reflexivity.
Qed.

(** X2: with the window open, the loop stops at the first attempt that
    resolves with status 200: if that is attempt number [k] (from 0) and
    [k < maxAttempts], the method returns [true] after exactly [k + 1]
    requests. *)
Theorem X_connect_first_success : forall w maxAttempts s k body,
  k < maxAttempts ->
  mainWindow (app s) <> None ->
  (forall i, i < k -> forall b,
     axios_result probe_timeout_ms (w_server w (count is_request (trace s) + i))
     <> Resolved 200 b) ->
  axios_result probe_timeout_ms (w_server w (count is_request (trace s) + k))
  = Resolved 200 body ->
  result (connectToExistingService w maxAttempts) s = Ret true /\
  count is_request (events_of (connectToExistingService w maxAttempts) s) = S k.
Proof.
  intros w n s k body Hk Hw Hbefore Hat.
  assert (L : log LogConnecting s = (Ret tt, push s [EvLog LogConnecting]))
    by reflexivity.
  destruct (connect_loop_first_success w (k:=k) (n:=n) (push s [EvLog LogConnecting])
              (body:=body)) as (d & E & Hd); auto.
  - intros i Hi b. rewrite count_push. replace (count is_request [EvLog LogConnecting]) with 0 by reflexivity.
    rewrite Nat.add_0_r. apply Hbefore. exact Hi.
  - rewrite count_push. replace (count is_request [EvLog LogConnecting]) with 0 by reflexivity.
    rewrite Nat.add_0_r. exact Hat.
  - assert (C : connectToExistingService w n s =
                (Ret true, push s (EvLog LogConnecting :: d))).
    { unfold connectToExistingService.
      rewrite (@bind_ret _ _ _ _ _ _ _ L), (@bind_ret _ _ _ _ _ _ _ E).
      unfold ret. rewrite push_push. reflexivity. }
    destruct (@result_exec_of_run _ _ _ _ _ C) as [R X]. split; [exact R|].
    rewrite (@events_of_push _ _ _ _ X), count_cons. simpl. exact Hd.
Qed.


Lemma X_connect_first_success_witness :
  2 < 5 /\
  mainWindow (app window_shown) <> None /\
  (forall i, i < 2 -> forall b,
     axios_result probe_timeout_ms
       (w_server third_answer (count is_request (trace window_shown) + i))
     <> Resolved 200 b) /\
  axios_result probe_timeout_ms
    (w_server third_answer (count is_request (trace window_shown) + 2))
  = Resolved 200 (Js.Str "ok") /\
  result (connectToExistingService third_answer 5) window_shown = Ret true /\
  count is_request (events_of (connectToExistingService third_answer 5) window_shown) = 3.
Proof.
  assert (H0 : 2 < 5) by lia.
  assert (H1 : mainWindow (app window_shown) <> None) by (simpl; discriminate).
  assert (H2 : forall i, i < 2 -> forall b,
             axios_result probe_timeout_ms
               (w_server third_answer (count is_request (trace window_shown) + i))
             <> Resolved 200 b).
  { intros i Hi b. destruct i as [|[|i]]; [vm_compute; discriminate..|lia]. }
  assert (H3 : axios_result probe_timeout_ms
                 (w_server third_answer (count is_request (trace window_shown) + 2))
               = Resolved 200 (Js.Str "ok")) by reflexivity.
  split; [exact H0|]. split; [exact H1|]. split; [exact H2|]. split; [exact H3|].
  exact (X_connect_first_success third_answer window_shown H0 H1 H2 H3).
Defined.


Lemma venv_facts w s :
  exists b a d,
    startPythonServiceVenvFallback w s = (Ret b, ext s a d) /\
    start_outcome s b a d /\
    existsb is_falling_back d = true /\
    forall h m cmd args cwd, In (EvSpawn h m cmd args cwd) d ->
      m = Venv /\ venv_spawn_ok w cmd args cwd.
Proof.
  unfold startPythonServiceVenvFallback, start_outcome, venv_spawn_ok. monad.
  destruct (w_existsSync w (venvPython w)) eqn:E1; simpl;
    [destruct (w_existsSync w (serviceScript w)) eqn:E2; simpl;
     [destruct (w_spawnThrows w _); simpl|]|];
    unfold ext; simpl; rewrite <- ?app_assoc; simpl;
    do 3 eexists; (split; [reflexivity|]); simpl;
    (split; [repeat split; eauto|]); (split; [reflexivity|]);
    intros h m cmd args cwd H; simpl in H;
    repeat (destruct H as [H|H]; try discriminate); try contradiction.
  inversion H; subst. repeat split; auto.
Qed.

Lemma in_after_logs (e : Event) (pre d : list Event) :
  forallb is_log pre = true -> is_log e = false -> In e (pre ++ d) -> In e d.
Proof.
  intros Hp He H. apply in_app_or in H. destruct H as [H|H]; [|exact H].
  rewrite forallb_forall in Hp. rewrite (Hp e H) in He. discriminate.
Qed.

Lemma start_facts w s :
  exists b a d,
    startPythonService w s = (Ret b, ext s a d) /\
    start_outcome s b a d /\
    (existsb is_falling_back d = no_path (locate w)) /\
    forall h m cmd args cwd, In (EvSpawn h m cmd args cwd) d ->
      match m with
      | Bundled => bundled_spawn_ok w cmd args cwd
      | Venv => no_path (locate w) = true /\ venv_spawn_ok w cmd args cwd
      end.
Proof.
  unfold startPythonService, getPythonExecutablePath, locate. monad.
  assert (V : forall pre,
    forallb is_log pre = true -> existsb is_falling_back pre = false ->
    forall (np : bool), np = true ->
    exists b a d,
      (let (o, s') := startPythonServiceVenvFallback w (push s pre) in
       match o with Ret a0 => (Ret a0, s') | Throw e =>
         (Ret false, {| app := app s'; trace := trace s' ++ [EvLog (LogFailedBundled e)] |}) end)
      = (Ret b, ext s a d) /\
      start_outcome s b a d /\ existsb is_falling_back d = np /\
      forall h m cmd args cwd, In (EvSpawn h m cmd args cwd) d ->
        match m with
        | Bundled => bundled_spawn_ok w cmd args cwd
        | Venv => np = true /\ venv_spawn_ok w cmd args cwd
        end).
  { intros pre Hp Hf np ->.
    destruct (venv_facts w (push s pre)) as (b & a & d & E & O & F & I).
    rewrite E. exists b, a, (pre ++ d). split; [unfold ext, push; simpl; rewrite app_assoc; reflexivity|].
    split.
    { unfold start_outcome in *. simpl in O. destruct O as (O1 & O2 & O3).
      assert (Sp : spawned pre = []).
      { clear - Hp. induction pre as [|e pre IH]; [reflexivity|]. simpl in Hp.
        apply andb_prop in Hp. destruct Hp as [He Hp]. destruct e; try discriminate.
        simpl. apply IH. exact Hp. }
      assert (Kp : killed pre = []).
      { clear - Hp. induction pre as [|e pre IH]; [reflexivity|]. simpl in Hp.
        apply andb_prop in Hp. destruct Hp as [He Hp]. destruct e; try discriminate.
        simpl. apply IH. exact Hp. }
      rewrite spawned_app, killed_app, Sp, Kp. simpl. auto. }
    split; [rewrite existsb_app, F; apply orb_true_r|].
    intros h m cmd args cwd H. apply in_after_logs in H; [|exact Hp|reflexivity].
    destruct (I _ _ _ _ _ H) as [-> Hv]. auto. }
  destruct (w_isPackaged w) eqn:Ep; simpl.
  - destruct (packagedExecutable w =? "") eqn:Ee; simpl.
    + flat. apply (V [EvLog LogStartingBundled; EvLog (LogAppPackaged true);
                      EvLog (LogTargetPath (packagedExecutable w));
                      EvLog LogUsingVenvFallback]); reflexivity.
    + destruct (w_existsSync w (packagedExecutable w)) eqn:Ex; simpl;
        [destruct (w_spawnThrows w _); simpl|];
        unfold ext, start_outcome, bundled_spawn_ok; simpl; rewrite <- ?app_assoc; simpl;
        do 3 eexists; (split; [reflexivity|]); simpl;
        (split; [repeat split; eauto|]); (split; [reflexivity|]);
        intros h m cmd args cwd H; simpl in H;
        repeat (destruct H as [H|H]; try discriminate); try contradiction.
      inversion H; subst. unfold locate. rewrite Ep. repeat split; auto.
  - destruct (w_existsSync w (devExecutable w)) eqn:Ex; simpl.
    + destruct (devExecutable w =? "") eqn:Ee; simpl.
      * flat. apply (V [EvLog LogStartingBundled; EvLog (LogAppPackaged false);
                        EvLog (LogDevLookingIn (devExecutable w));
                        EvLog (LogTargetPath (devExecutable w));
                        EvLog LogUsingVenvFallback]); reflexivity.
      * rewrite Ex. simpl. destruct (w_spawnThrows w _); simpl;
        unfold ext, start_outcome, bundled_spawn_ok; simpl; rewrite <- ?app_assoc; simpl;
        do 3 eexists; (split; [reflexivity|]); simpl;
        (split; [repeat split; eauto|]); (split; [reflexivity|]);
        intros h m cmd args cwd H; simpl in H;
        repeat (destruct H as [H|H]; try discriminate); try contradiction.
        inversion H; subst. unfold locate. rewrite Ep, Ex. repeat split; auto.
    + flat. apply (V [EvLog LogStartingBundled; EvLog (LogAppPackaged false);
                      EvLog (LogDevLookingIn (devExecutable w));
                      EvLog LogBundledNotFoundInDev;
                      EvLog LogUsingVenvFallback]); reflexivity.
Qed.

Lemma events_of_ext {A} (m : M A) s a d :
  exec m s = ext s a d -> events_of m s = d.
Proof.
  intros E. unfold events_of. rewrite E. simpl.
  rewrite skipn_app, skipn_all, Nat.sub_diag. reflexivity.
Qed.

(** X5: [startPythonService] never throws, never kills and leaves
    [mainWindow] alone.  It returns [true] exactly when it spawned one
    child, and then the process field holds that child; it returns [false]
    exactly when no child was spawned, and then the field is unchanged. *)
Theorem X_start_outcome : forall w s,
  let d := events_of (startPythonService w) s in
  let s' := exec (startPythonService w) s in
  mainWindow (app s') = mainWindow (app s) /\
  killed d = [] /\
  match result (startPythonService w) s with
  | Ret true => exists h, spawned d = [h] /\ pythonProcess (app s') = Some h
  | Ret false => spawned d = [] /\ pythonProcess (app s') = pythonProcess (app s)
  | Throw _ => False
  end.
Proof.
  intros w s d s'. destruct (start_facts w s) as (b & a & d' & E & (O1 & O2 & O3) & _).
  destruct (@result_exec_of_run _ _ _ _ _ E) as [R X].
  assert (D : d = d') by (apply events_of_ext with a; exact X).
  unfold s'. rewrite R, X, D. simpl. split; [exact O1|]. split; [exact O2|].
  destruct b; exact O3.
Qed.

(** X6: whatever [startPythonService] spawns was checked to exist.  A
    bundled spawn runs the located path with no arguments, in that path's
    directory; a venv spawn happens only when the locator returned no path,
    and runs the venv interpreter on the service script, both checked to
    exist, in the [core-rag-service] directory. *)
Theorem X_spawn_only_existing : forall w s h m cmd args cwd,
  In (EvSpawn h m cmd args cwd) (events_of (startPythonService w) s) ->
  w_existsSync w cmd = true /\
  match m with
  | Bundled =>
      locate w = Some cmd /\ args = [] /\ cwd = w_pathDirname w cmd
  | Venv =>
      no_path (locate w) = true /\
      cmd = venvPython w /\ args = [serviceScript w] /\
      w_existsSync w (serviceScript w) = true /\
      cwd = w_join w [projectRoot w; "core-rag-service"]
  end.
Proof.
  intros w s h m cmd args cwd H.
  destruct (start_facts w s) as (b & a & d' & E & _ & _ & I).
  destruct (@result_exec_of_run _ _ _ _ _ E) as [_ X].
  rewrite (@events_of_ext _ _ _ _ _ X) in H. specialize (I _ _ _ _ _ H).
  destruct m.
  - destruct I as (I1 & I2 & I3 & I4). auto.
  - destruct I as (I0 & I1 & I2 & I3 & I4 & I5). auto 6.
Qed.

Lemma X_spawn_only_existing_witness :
  In (EvSpawn 0 Bundled bundled_file [] "/app/python-dist")
     (events_of (startPythonService cold_start) window_shown) /\
  w_existsSync cold_start bundled_file = true /\
  locate cold_start = Some bundled_file /\
  @nil string = [] /\
  "/app/python-dist" = w_pathDirname cold_start bundled_file.
Proof.
  assert (H : In (EvSpawn 0 Bundled bundled_file [] "/app/python-dist")
                 (events_of (startPythonService cold_start) window_shown)).
  { vm_compute. do 5 right. left. reflexivity. }
  split; [exact H|].
  exact (X_spawn_only_existing cold_start window_shown 0 Bundled bundled_file []
           "/app/python-dist" H).
Defined.

(** X7: an installed application never falls back to the venv: when its
    bundled executable is missing, [startPythonService] logs the
    not-found error and returns [false] without any spawn attempt. *)
Theorem X_installed_never_falls_back : forall w s,
  w_isPackaged w = true ->
  packagedExecutable w <> "" ->
  w_existsSync w (packagedExecutable w) = false ->
  startPythonService w s =
  (Ret false,
   push s [EvLog LogStartingBundled; EvLog (LogAppPackaged true);
           EvLog (LogTargetPath (packagedExecutable w));
           EvLog (LogUsingBundled (packagedExecutable w));
           EvLog (LogFailedBundled (ErrExecutableNotFound (packagedExecutable w)))]).
Proof.
  intros w s Hp Hn Hx. unfold startPythonService, getPythonExecutablePath. monad.
  rewrite Hp. simpl. apply String.eqb_neq in Hn. rewrite Hn. simpl. rewrite Hx. simpl.
  flat. reflexivity.
Qed.

Lemma X_installed_never_falls_back_witness :
  w_isPackaged broken_install = true /\
  packagedExecutable broken_install <> "" /\
  w_existsSync broken_install (packagedExecutable broken_install) = false /\
  startPythonService broken_install window_shown =
  (Ret false,
   push window_shown
     [EvLog LogStartingBundled; EvLog (LogAppPackaged true);
      EvLog (LogTargetPath (packagedExecutable broken_install));
      EvLog (LogUsingBundled (packagedExecutable broken_install));
      EvLog (LogFailedBundled
               (ErrExecutableNotFound (packagedExecutable broken_install)))]).
Proof.
  assert (H1 : w_isPackaged broken_install = true) by reflexivity.
  assert (H2 : packagedExecutable broken_install <> "") by (vm_compute; discriminate).
  assert (H3 : w_existsSync broken_install (packagedExecutable broken_install) = false)
    by reflexivity.
  split; [exact H1|]. split; [exact H2|]. split; [exact H3|].
  exact (X_installed_never_falls_back broken_install window_shown H1 H2 H3).
Defined.


Lemma venv_shape w s :
  exists b a d, startPythonServiceVenvFallback w s = (Ret b, ext s a d) /\
                forallb launch_event d = true.
Proof.
  unfold startPythonServiceVenvFallback. monad.
  destruct (w_existsSync w (venvPython w)); simpl;
    [destruct (w_existsSync w (serviceScript w)); simpl;
     [destruct (w_spawnThrows w _); simpl|]|];
    unfold ext; simpl; rewrite <- ?app_assoc; simpl;
    do 3 eexists; (split; reflexivity).
Qed.

Lemma start_shape w s :
  exists b a d, startPythonService w s = (Ret b, ext s a (EvLog LogStartingBundled :: d)) /\
                forallb launch_event d = true.
Proof.
  unfold startPythonService, getPythonExecutablePath. monad.
  assert (V : forall pre, forallb launch_event pre = true ->
    exists b a d,
      (let (o, s') := startPythonServiceVenvFallback w
                        (push s (EvLog LogStartingBundled :: pre)) in
       match o with Ret a0 => (Ret a0, s') | Throw e =>
         (Ret false, {| app := app s'; trace := trace s' ++ [EvLog (LogFailedBundled e)] |}) end)
      = (Ret b, ext s a (EvLog LogStartingBundled :: d)) /\
      forallb launch_event d = true).
  { intros pre Hp.
    destruct (venv_shape w (push s (EvLog LogStartingBundled :: pre)))
      as (b & a & d & E & F).
    rewrite E. exists b, a, (pre ++ d). split.
    - unfold ext, push; simpl; rewrite <- app_assoc; reflexivity.
    - rewrite forallb_app, Hp, F. reflexivity. }
  destruct (w_isPackaged w); simpl.
  - destruct (packagedExecutable w =? ""); simpl.
    + flat. apply (V [EvLog (LogAppPackaged true);
                      EvLog (LogTargetPath (packagedExecutable w));
                      EvLog LogUsingVenvFallback]); reflexivity.
    + destruct (w_existsSync w (packagedExecutable w)); simpl;
        [destruct (w_spawnThrows w _); simpl|];
        unfold ext; simpl; rewrite <- ?app_assoc; simpl;
        do 3 eexists; (split; reflexivity).
  - destruct (w_existsSync w (devExecutable w)) eqn:Ex; simpl.
    + destruct (devExecutable w =? ""); simpl.
      * flat. apply (V [EvLog (LogAppPackaged false);
                        EvLog (LogDevLookingIn (devExecutable w));
                        EvLog (LogTargetPath (devExecutable w));
                        EvLog LogUsingVenvFallback]); reflexivity.
      * rewrite Ex. simpl. destruct (w_spawnThrows w _); simpl;
        unfold ext; simpl; rewrite <- ?app_assoc; simpl;
        do 3 eexists; (split; reflexivity).
    + flat. apply (V [EvLog (LogAppPackaged false);
                      EvLog (LogDevLookingIn (devExecutable w));
                      EvLog LogBundledNotFoundInDev;
                      EvLog LogUsingVenvFallback]); reflexivity.
Qed.

Lemma ext_inj s a d a' d' : ext s a d = ext s a' d' -> a = a' /\ d = d'.
Proof.
  unfold ext. intros H. inversion H. split; [reflexivity|].
  eapply app_inv_head. eassumption.
Qed.

(** Everything the launcher lemmas say, about one and the same run. *)
Lemma start_run w s :
  exists b a d,
    startPythonService w s = (Ret b, ext s a (EvLog LogStartingBundled :: d)) /\
    forallb launch_event d = true /\
    start_outcome s b a d.
Proof.
  destruct (start_shape w s) as (b & a & d & E & F).
  destruct (start_facts w s) as (b' & a' & d' & E' & O & _).
  rewrite E in E'.
  assert (Hb : b = b') by congruence.
  assert (He : ext s a (EvLog LogStartingBundled :: d) = ext s a' d') by congruence.
  subst b'. apply ext_inj in He. destruct He as [<- <-].
  exists b, a, d. split; [exact E|]. split; [exact F|].
  unfold start_outcome in *. simpl in O. exact O.
Qed.

Lemma count_launch_event p d :
  (forall e, launch_event e = true -> p e = false) ->
  forallb launch_event d = true -> count p d = 0.
Proof.
  intros Hp. induction d as [|e d IH]; simpl; intros H; [reflexivity|].
  apply andb_prop in H. destruct H as [He Hd]. rewrite count_cons, (Hp e He). auto.
Qed.

Lemma launch_no_request e : launch_event e = true -> is_request e = false.
Proof. destruct e; try discriminate; reflexivity. Qed.
Lemma launch_no_ready_send e : launch_event e = true -> is_ready_send e = false.
Proof. destruct e; try discriminate; reflexivity. Qed.
Lemma launch_no_message_box e : launch_event e = true -> is_message_box e = false.
Proof. destruct e; try discriminate; reflexivity. Qed.

Lemma spawned_count d : List.length (spawned d) = count is_spawn d.
Proof.
  induction d as [|e d IH]; [reflexivity|]. rewrite count_cons.
  destruct e; simpl; auto.
Qed.

Lemma precheck_shape w s :
  exists (b : bool) d,
    precheck w s = (Ret b, push s d) /\
    if b then exists ev, d = [ev; EvLog LogAlreadyRunning;
                              EvSend "service-ready" serviceUrl] /\
                         inert ev = true /\ is_request ev = true
    else forallb inert d = true.
Proof.
  rewrite precheck_run.
  destruct (axios_result _ _) as [c body|e];
    [destruct (c =? 200)%Z; [destruct (mainWindow (app s))|]|];
    do 2 eexists; (split; [reflexivity|]); simpl; eauto.
Qed.

Lemma options_shape w s :
  let r := w_choice w (count is_message_box (trace s)) in
  exists a rest,
    showServiceConnectionOptions w s = (Ret tt, ext s a (EvMessageBox r :: rest)) /\
    match r with
    | 0 => exists b d, rest = EvLog LogStartingBundled :: d /\
                       forallb launch_event d = true /\
                       start_outcome s b a d
    | 1 => a = app s /\
           rest = [EvErrorBox (if w_isPackaged w then "Service Startup Failed"
                               else "Development Service Error")]
    | 2 => a = app s /\
           exists (b : bool) mid,
             rest = EvLog LogConnecting :: mid ++
                    [if b then EvSend "service-ready" serviceUrl
                     else EvLog LogCouldNotConnect] /\
             forallb inert mid = true /\
             (if b then 1 <= count is_request mid <= 10
              else count is_request mid = 10)
    | _ => a = app s /\ rest = []
    end.
Proof.
  intros r. unfold showServiceConnectionOptions.
  assert (B : showMessageBox w s = (Ret r, push s [EvMessageBox r])) by reflexivity.
  rewrite (@bind_ret _ _ _ _ _ _ _ B).
  destruct r as [|[|[|r]]].
  - destruct (start_run w (push s [EvMessageBox 0])) as (b & a & d & E & F & O).
    rewrite (@bind_ret _ _ _ _ _ _ _ E). unfold ret. rewrite push_ext, ext_ext. simpl.
    exists a, (EvLog LogStartingBundled :: d). split; [reflexivity|].
    exists b, d. auto.
  - unfold showServiceError. destruct (w_isPackaged w); monad; unfold ext; simpl;
      rewrite <- ?app_assoc; simpl; do 2 eexists; (split; [reflexivity|]); auto.
  - destruct (connect_outcome w 10 (push s [EvMessageBox 2])) as (b & mid & E & F & C).
    rewrite (@bind_ret _ _ _ _ _ _ _ E). unfold ret. rewrite push_push. simpl.
    do 2 eexists. split; [reflexivity|]. split; [reflexivity|]. exists b, mid. auto.
  - exists (app s), []. split; [reflexivity|]. auto.
Qed.

(** X8: the recovery prompt.  [showServiceConnectionOptions] never throws
    and shows exactly one message box.  'Start Service Automatically' (0)
    runs the launcher only: at most one spawn, no request, no
    ['service-ready'].  'Manual Instructions' (1) shows one error box whose
    title depends on the packaging.  'Retry Connection' (2) probes at most
    10 times and never spawns.  Any other response does nothing. *)
Theorem X_recovery_options : forall w s,
  let r := w_choice w (count is_message_box (trace s)) in
  let d := events_of (showServiceConnectionOptions w) s in
  let s' := exec (showServiceConnectionOptions w) s in
  result (showServiceConnectionOptions w) s = Ret tt /\
  exists rest,
    d = EvMessageBox r :: rest /\
    count is_message_box rest = 0 /\
    match r with
    | 0 => count is_request rest = 0 /\ count is_ready_send rest = 0 /\
           count is_spawn rest <= 1
    | 1 => rest = [EvErrorBox (if w_isPackaged w then "Service Startup Failed"
                               else "Development Service Error")] /\
           app s' = app s
    | 2 => count is_spawn_attempt rest = 0 /\ count is_request rest <= 10 /\
           count is_ready_send rest <= 1 /\ app s' = app s
    | _ => rest = [] /\ app s' = app s
    end.
Proof.
  intros w s r d s'. destruct (options_shape w s) as (a & rest & E & P). fold r in E, P.
  destruct (@result_exec_of_run _ _ _ _ _ E) as [R X].
  assert (D : d = EvMessageBox r :: rest) by (apply events_of_ext with a; exact X).
  split; [exact R|]. exists rest. split; [exact D|]. unfold s'. rewrite X.
  destruct r as [|[|[|r]]].
  - destruct P as (b & d1 & -> & F & (O1 & O2 & O3)).
    rewrite !count_cons. simpl.
    rewrite (count_launch_event is_message_box d1 launch_no_message_box F),
      (count_launch_event is_request d1 launch_no_request F),
      (count_launch_event is_ready_send d1 launch_no_ready_send F).
    repeat split. rewrite <- spawned_count.
    destruct b; [destruct O3 as (h & -> & _)|destruct O3 as (-> & _)]; simpl; lia.
  - destruct P as (-> & ->). repeat split.
  - destruct P as (-> & b & mid & -> & F & C).
    rewrite !count_cons, !count_app. simpl.
    rewrite (count_inert is_message_box mid inert_no_message_box F),
      (count_inert is_spawn_attempt mid inert_no_spawn_attempt F),
      (count_inert is_ready_send mid inert_no_ready_send F).
    destruct b; repeat split; unfold count in *; simpl; lia.
  - destruct P as (-> & ->). repeat split.
Qed.


Lemma options_after w s :
  exists a rest,
    showServiceConnectionOptions w s =
      (Ret tt, ext s a (EvMessageBox (w_choice w (count is_message_box (trace s))) :: rest)) /\
    count is_message_box rest = 0 /\ count is_ready_send rest <= 1.
Proof.
  destruct (options_shape w s) as (a & rest & E & P). cbv zeta in E, P.
  exists a, rest. split; [exact E|].
  destruct (w_choice w (count is_message_box (trace s))) as [|[|[|r]]].
  - destruct P as (b & d1 & -> & F & _). rewrite !count_cons. simpl.
    rewrite (count_launch_event is_message_box d1 launch_no_message_box F),
      (count_launch_event is_ready_send d1 launch_no_ready_send F). lia.
  - destruct P as (_ & ->). split; unfold count; simpl; lia.
  - destruct P as (_ & b & mid & -> & F & _).
    rewrite !count_cons, !count_app. simpl.
    rewrite (count_inert is_message_box mid inert_no_message_box F),
      (count_inert is_ready_send mid inert_no_ready_send F).
    destruct b; unfold count; simpl; lia.
  - destruct P as (_ & ->). split; unfold count; simpl; lia.
Qed.

Lemma cycle_shape w s :
  exists a d, autoStartAndConnect w s = (Ret tt, ext s a d) /\ CycleShape w s a d.
Proof.
  unfold autoStartAndConnect.
  assert (L : log LogAutoStarting s = (Ret tt, push s [EvLog LogAutoStarting]))
    by reflexivity.
  rewrite (@bind_ret _ _ _ _ _ _ _ L).
  destruct (precheck_shape w (push s [EvLog LogAutoStarting])) as (b0 & d0 & E0 & P0).
  rewrite (@bind_ret _ _ _ _ _ _ _ E0). rewrite push_push. destruct b0.
  { destruct P0 as (ev & -> & Hev & _). exists (app s). eexists.
    split; [reflexivity|].
    apply Detected with (ev := ev); [reflexivity|reflexivity|exact Hev]. }
  cbv beta iota.
  destruct (start_run w (push s ([EvLog LogAutoStarting] ++ d0)))
    as (b1 & a1 & d1 & E1 & F1 & (O1 & O2 & O3)).
  rewrite (@bind_ret _ _ _ _ _ _ _ E1). rewrite push_ext, ext_ext. simpl app in *.
  assert (tail : forall m s1 pre,
            count is_ready_send pre = 0 -> count is_message_box pre = 0 ->
            trace s1 = trace s ++ pre ->
            exists a d,
              (log m ;; showServiceConnectionOptions w) s1 = (Ret tt, ext s a d) /\
              CycleShape w s a d).
  { intros m s1 pre Hr Hb T.
    assert (L' : log m s1 = (Ret tt, push s1 [EvLog m])) by reflexivity.
    rewrite (@bind_ret _ _ _ _ _ _ _ L').
    destruct (options_after w (push s1 [EvLog m])) as (a & rest & E & C1 & C2).
    rewrite E. exists a. eexists. split.
    - unfold ext, push. simpl. rewrite T, <- !app_assoc. reflexivity.
    - eapply Prompted with (before := pre ++ [EvLog m]).
      + rewrite <- app_assoc. reflexivity.
      + rewrite count_app, Hr. reflexivity.
      + rewrite count_app, Hb. reflexivity.
      + exact C1.
      + exact C2. }
  assert (R0 : count is_ready_send d0 = 0)
    by (apply count_inert; [apply inert_no_ready_send|exact P0]).
  assert (B0 : count is_message_box d0 = 0)
    by (apply count_inert; [apply inert_no_message_box|exact P0]).
  assert (R1 : count is_ready_send d1 = 0)
    by (apply count_launch_event; [apply launch_no_ready_send|exact F1]).
  assert (B1 : count is_message_box d1 = 0)
    by (apply count_launch_event; [apply launch_no_message_box|exact F1]).
  destruct b1; cbn [negb].
  - match goal with |- context [bind (connectToExistingService w 20) _ ?s0] =>
      destruct (connect_outcome w 20 s0) as (b2 & mid & E2 & F2 & C2) end.
    rewrite (@bind_ret _ _ _ _ _ _ _ E2). destruct b2; cbn [negb].
    + destruct O3 as (h & Sp & Pp). exists a1. eexists. split.
      * unfold ret, ext, push. simpl. rewrite <- !app_assoc. reflexivity.
      * apply Launched with (d0 := d0) (d1 := d1) (mid := mid) (h := h); auto.
        simpl. rewrite <- !app_assoc. reflexivity.
    + eapply tail; [| |unfold push, ext; simpl; rewrite <- ?app_assoc; reflexivity].
      * repeat (rewrite count_cons || rewrite count_app). rewrite R0, R1.
        rewrite (count_inert is_ready_send mid inert_no_ready_send F2). reflexivity.
      * repeat (rewrite count_cons || rewrite count_app). rewrite B0, B1.
        rewrite (count_inert is_message_box mid inert_no_message_box F2). reflexivity.
  - eapply tail; [| |unfold push, ext; simpl; rewrite <- ?app_assoc; reflexivity].
    + repeat (rewrite count_cons || rewrite count_app). rewrite R0, R1. reflexivity.
    + repeat (rewrite count_cons || rewrite count_app). rewrite B0, B1. reflexivity.
Qed.

(** X9: [autoStartAndConnect] never throws, and a cycle ends in one of
    two ways: with no prompt, exactly one ['service-ready'] sent, as its
    last event; or with exactly one recovery prompt, no ['service-ready']
    before it and at most one after it. *)
Theorem X_cycle_outcome : forall w s,
  let d := events_of (autoStartAndConnect w) s in
  result (autoStartAndConnect w) s = Ret tt /\
  match count is_message_box d with
  | 0 => count is_ready_send d = 1 /\
         last d (EvLog LogAutoStarting) = EvSend "service-ready" serviceUrl
  | 1 => exists before r after,
           d = before ++ EvMessageBox r :: after /\
           count is_ready_send before = 0 /\
           count is_ready_send after <= 1
  | _ => False
  end.
Proof.
  intros w s d. destruct (cycle_shape w s) as (a & d' & E & Sh).
  destruct (@result_exec_of_run _ _ _ _ _ E) as [R X].
  assert (D : d = d') by (apply events_of_ext with a; exact X).
  split; [exact R|]. rewrite D. clear D d E R X.
  destruct Sh as [ev _ -> Hev | d0 d1 mid h -> H0 H1 Hm _ _ _
                 | before r after -> Hr Hb Ha Hs].
  - rewrite !count_cons. rewrite (inert_no_message_box ev Hev),
      (inert_no_ready_send ev Hev). simpl. split; reflexivity.
  - assert (C : forall p, p (EvLog LogAutoStarting) = false ->
                  p (EvLog LogStartingBundled) = false ->
                  p (EvLog LogConnecting) = false ->
                  (forall e, inert e = true -> p e = false) ->
                  (forall e, launch_event e = true -> p e = false) ->
                  count p (EvLog LogAutoStarting :: d0 ++ EvLog LogStartingBundled :: d1 ++
                           EvLog LogConnecting :: mid ++ [EvSend "service-ready" serviceUrl])
                  = if p (EvSend "service-ready" serviceUrl) then 1 else 0).
    { intros p P1 P2 P3 Pi Pl.
      repeat (rewrite count_cons || rewrite count_app). rewrite P1, P2, P3.
      rewrite (count_inert p d0 Pi H0), (count_inert p mid Pi Hm),
        (count_launch_event p d1 Pl H1). unfold count. simpl. lia. }
    rewrite (C is_message_box), (C is_ready_send);
      auto using inert_no_message_box, inert_no_ready_send,
                 launch_no_message_box, launch_no_ready_send.
    cbv beta iota. split; [reflexivity|].
    replace (EvLog LogAutoStarting :: d0 ++ EvLog LogStartingBundled :: d1 ++
             EvLog LogConnecting :: mid ++ [EvSend "service-ready" serviceUrl])
      with ((EvLog LogAutoStarting :: d0 ++ EvLog LogStartingBundled :: d1 ++
             EvLog LogConnecting :: mid) ++ [EvSend "service-ready" serviceUrl]).
    + apply last_last.
    + simpl. rewrite <- !app_assoc. simpl. rewrite <- !app_assoc. reflexivity.
  - rewrite count_app, count_cons, Hb, Ha. simpl.
    exists before, r, after. auto.
Qed.


Lemma live_endless d : forall acc,
  forallb endless d = true -> live d acc = acc ++ spawned d.
Proof.
  induction d as [|e d IH]; intros acc H; [simpl; rewrite app_nil_r; reflexivity|].
  simpl in H. apply andb_prop in H. destruct H as [He Hd].
  destruct e; try discriminate; simpl; rewrite IH by exact Hd; try reflexivity.
  rewrite <- app_assoc. reflexivity.
Qed.

Lemma inert_endless d : forallb inert d = true -> forallb endless d = true.
Proof.
  induction d as [|e d IH]; simpl; intros H; [reflexivity|].
  apply andb_prop in H. destruct H as [He Hd]. rewrite (IH Hd), andb_true_r.
  destruct e; try discriminate; reflexivity.
Qed.

Lemma launch_endless d : forallb launch_event d = true -> forallb endless d = true.
Proof.
  induction d as [|e d IH]; simpl; intros H; [reflexivity|].
  apply andb_prop in H. destruct H as [He Hd]. rewrite (IH Hd), andb_true_r.
  destruct e; try discriminate; reflexivity.
Qed.

Lemma spawned_inert d : forallb inert d = true -> spawned d = [].
Proof.
  induction d as [|e d IH]; simpl; intros H; [reflexivity|].
  apply andb_prop in H. destruct H as [He Hd].
  destruct e; try discriminate; simpl; auto.
Qed.

Lemma spec_step_launch st e : launch_event e = true -> spec_step st e = st.
Proof.
  destruct e as [m| | | | | | | | |]; try discriminate; try reflexivity.
  destruct m; try discriminate; reflexivity.
Qed.

Lemma visit_launch d : forall st rest,
  forallb launch_event d = true -> visit st (d ++ rest) = visit st rest.
Proof.
  induction d as [|e d IH]; intros st rest H; [reflexivity|].
  simpl in H. apply andb_prop in H. destruct H as [He Hd]. simpl.
  rewrite (spec_step_launch st e He), state_eqb_refl. apply IH. exact Hd.
Qed.

Lemma disconnect_owned s h :
  pythonProcess (app s) = Some h ->
  exec disconnectFromService s =
  ext s {| mainWindow := mainWindow (app s); pythonProcess := None |}
      [EvLog LogStopping; EvKill h].
Proof.
  intros H. unfold exec, disconnectFromService, bind, get_app. simpl.
  rewrite H. simpl. unfold ext. rewrite <- app_assoc. reflexivity.
Qed.

(** X10: a cycle that begins with no live child, spawns, and shows no
    prompt goes Idle, Probing, Launching, WaitingForReady, Ready with
    exactly one child, which the process field holds and which is live; a
    following [disconnectFromService] kills exactly that child and leaves
    none live. *)
Theorem X_launch_then_disconnect : forall w s,
  live_handles (trace s) = [] ->
  let d := events_of (autoStartAndConnect w) s in
  let s' := exec (autoStartAndConnect w) s in
  count is_message_box d = 0 ->
  spawned d <> [] ->
  exists h,
    spawned d = [h] /\
    pythonProcess (app s') = Some h /\
    live_handles (trace s') = [h] /\
    states_visited d = [Idle; Probing; Launching; WaitingForReady; Ready] /\
    events_of disconnectFromService s' = [EvLog LogStopping; EvKill h] /\
    live_handles (trace (exec disconnectFromService s')) = [].
Proof.
  intros w s L d s' Hbox Hsp. destruct (cycle_shape w s) as (a & d' & E & Sh).
  destruct (@result_exec_of_run _ _ _ _ _ E) as [_ X].
  assert (D : d = d') by (apply events_of_ext with a; exact X).
  unfold s'. rewrite X. rewrite D in *. clear D E.
  destruct Sh as [ev _ -> Hev | d0 d1 mid h -> H0 H1 Hm Sp Pp _
                 | before r after -> _ _ _ _].
  - exfalso. apply Hsp. destruct ev; try discriminate; reflexivity.
  - exists h.
    assert (S : spawned (EvLog LogAutoStarting :: d0 ++ EvLog LogStartingBundled :: d1 ++
                         EvLog LogConnecting :: mid ++ [EvSend "service-ready" serviceUrl])
                = [h]).
    { simpl. rewrite spawned_app, (spawned_inert d0 H0). simpl.
      rewrite spawned_app, Sp. simpl. rewrite spawned_app, (spawned_inert mid Hm).
      reflexivity. }
    assert (N : forallb endless
                  (EvLog LogAutoStarting :: d0 ++ EvLog LogStartingBundled :: d1 ++
                   EvLog LogConnecting :: mid ++ [EvSend "service-ready" serviceUrl])
                = true).
    { simpl. rewrite forallb_app, (inert_endless d0 H0). simpl.
      rewrite forallb_app, (launch_endless d1 H1). simpl.
      rewrite forallb_app, (inert_endless mid Hm). reflexivity. }
    assert (Lv : live_handles (trace (ext s a
                   (EvLog LogAutoStarting :: d0 ++ EvLog LogStartingBundled :: d1 ++
                    EvLog LogConnecting :: mid ++ [EvSend "service-ready" serviceUrl])))
                 = [h]).
    { unfold live_handles in *. simpl. rewrite live_app, L, (live_endless _ _ N), S.
      reflexivity. }
    split; [exact S|]. split; [exact Pp|]. split; [exact Lv|]. split.
    { unfold states_visited. simpl.
      rewrite (visit_inert d0 _ _ H0). simpl.
      rewrite (visit_launch d1 _ _ H1). simpl.
      rewrite (visit_inert mid _ _ Hm). reflexivity. }
    match type of Lv with live_handles (trace ?sx) = _ =>
      pose proof (@disconnect_owned sx h Pp) as DO end.
    split.
    { unfold events_of. rewrite DO. simpl.
      rewrite skipn_app, skipn_all, Nat.sub_diag. reflexivity. }
    rewrite DO. unfold live_handles in *. unfold ext at 1. simpl trace.
    rewrite live_app. simpl in Lv. rewrite Lv. simpl. rewrite Nat.eqb_refl. reflexivity.
  - exfalso. rewrite count_app, count_cons in Hbox. simpl in Hbox. lia.
Qed.

Lemma X_launch_then_disconnect_witness :
  live_handles (trace window_shown) = [] /\
  count is_message_box (events_of (autoStartAndConnect cold_start) window_shown) = 0 /\
  spawned (events_of (autoStartAndConnect cold_start) window_shown) <> [] /\
  let d := events_of (autoStartAndConnect cold_start) window_shown in
  let s' := exec (autoStartAndConnect cold_start) window_shown in
  exists h,
    spawned d = [h] /\
    pythonProcess (app s') = Some h /\
    live_handles (trace s') = [h] /\
    states_visited d = [Idle; Probing; Launching; WaitingForReady; Ready] /\
    events_of disconnectFromService s' = [EvLog LogStopping; EvKill h] /\
    live_handles (trace (exec disconnectFromService s')) = [].
Proof.
  assert (H1 : live_handles (trace window_shown) = []) by reflexivity.
  assert (H2 : count is_message_box
                 (events_of (autoStartAndConnect cold_start) window_shown) = 0)
    by (vm_compute; reflexivity).
  assert (H3 : spawned (events_of (autoStartAndConnect cold_start) window_shown) <> [])
    by (vm_compute; discriminate).
  split; [exact H1|]. split; [exact H2|]. split; [exact H3|].
  exact (X_launch_then_disconnect cold_start window_shown H1 H2 H3).
Defined.

Lemma X_connect_pauses_witness :
  mainWindow (app window_shown) <> None /\
  count is_sleep (events_of (connectToExistingService no_content 4) window_shown)
  = count is_rejected_request
      (events_of (connectToExistingService no_content 4) window_shown).
Proof.
  assert (H : mainWindow (app window_shown) <> None) by (simpl; discriminate).
  split; [exact H|].
  exact (X_connect_pauses no_content 4 window_shown H).
Defined.

Lemma X_connect_window_closed_witness :
  mainWindow (app init) = None /\
  result (connectToExistingService already_up 3) init = Ret false /\
  count is_ready_send (events_of (connectToExistingService already_up 3) init) = 0 /\
  count is_request (events_of (connectToExistingService already_up 3) init) = 3.
Proof.
  assert (H : mainWindow (app init) = None) by reflexivity.
  split; [exact H|].
  exact (X_connect_window_closed already_up 3 init H).
Defined.


Lemma api_call_run w method endpoint data s :
  let a := w_server w (count is_request (trace s)) in
  let cfg := api_config method endpoint data in
  let r := if unsendable cfg then Rejected UnsendableData
           else axios_result 30000 a in
  let el := if unsendable cfg then 0%N else axios_elapsed 30000 a in
  api_call w method endpoint data s =
  match r with
  | Resolved c body =>
      (Ret {| env_success := true; env_data := Some body;
              env_error := None; env_status := None |},
       push s [EvAxios cfg r el])
  | Rejected e =>
      (Ret {| env_success := false; env_data := None;
              env_error := Some (ErrAxios e); env_status := error_status e |},
       push s [EvAxios cfg r el; EvLog (LogApiCallFailed (ErrAxios e))])
  end.
Proof.
  unfold api_call. monad.
  assert (T : cfg_timeout (api_config method endpoint data) = 30000%N).
  { unfold api_config. destruct (Js.truthy data); [destruct (method =? "GET")|]; reflexivity. }
  rewrite T.
  destruct (unsendable _); [|destruct (axios_result _ _)]; simpl; flat; reflexivity.
Qed.

(** X11: ['api-call'] never throws and changes neither a field nor the
    connection state.  It calls axios exactly once, with the config built
    from its arguments, and its envelope follows the outcome of that one
    call: success with the response body when axios resolved; otherwise a
    failure that is logged and carries the error and the status of the
    response, if the rejection has one.  A body axios refuses to send (a
    non-zero number or [true] with a method other than ['GET']) gives a
    failure with no status, whatever the service would have answered. *)
Theorem X_api_call_envelope : forall w method endpoint data s,
  let cfg := api_config method endpoint data in
  let d := events_of (api_call w method endpoint data) s in
  let s' := exec (api_call w method endpoint data) s in
  app s' = app s /\
  spec_state (trace s') = spec_state (trace s) /\
  exists r el,
    (if unsendable cfg then r = Rejected UnsendableData else True) /\
    match r with
    | Resolved _ body =>
        d = [EvAxios cfg r el] /\
        result (api_call w method endpoint data) s =
        Ret {| env_success := true; env_data := Some body;
               env_error := None; env_status := None |}
    | Rejected e =>
        d = [EvAxios cfg r el; EvLog (LogApiCallFailed (ErrAxios e))] /\
        result (api_call w method endpoint data) s =
        Ret {| env_success := false; env_data := None;
               env_error := Some (ErrAxios e); env_status := error_status e |}
    end.
Proof.
  intros w method endpoint data s cfg d s'.
  pose proof (api_call_run w method endpoint data s) as E. cbv zeta in E.
  fold cfg in E.
  assert (F : forall o sx, api_call w method endpoint data s = (o, sx) ->
                result (api_call w method endpoint data) s = o /\ s' = sx).
  { intros o sx H. unfold s', result, exec. rewrite H. auto. }
  set (r := if unsendable cfg then Rejected UnsendableData
            else axios_result 30000 (w_server w (count is_request (trace s)))) in *.
  set (el := if unsendable cfg then 0%N
             else axios_elapsed 30000 (w_server w (count is_request (trace s)))) in *.
  assert (U : if unsendable cfg then r = Rejected UnsendableData else True).
  { subst r. destruct (unsendable cfg); [reflexivity|exact I]. }
  clearbody r el.
  destruct r as [c body|e]; destruct (F _ _ E) as [R X];
    (split; [rewrite X; reflexivity|]);
    (split; [rewrite X; simpl; rewrite ?spec_state_app; reflexivity|]);
    eexists _, el; (split; [exact U|]);
    unfold d; rewrite (@events_of_push _ _ _ _ X), R; split; reflexivity.
Qed.

(** X12: uploading what ['select-file'] returned.  After a cancelled
    dialog, or one that resolved with no path, ['upload-file'] issues no
    request and returns a failure envelope; otherwise it posts the first
    selected path.  An upload envelope never carries a status, and no field
    changes. *)
Theorem X_upload_of_selection : forall w s canceled filePaths folderId,
  let chosen := select_file canceled filePaths in
  let d := events_of (upload_file w chosen folderId) s in
  app (exec (upload_file w chosen folderId) s) = app s /\
  exists env,
    result (upload_file w chosen folderId) s = Ret env /\
    env_status env = None /\
    match filePaths with
    | file :: _ =>
        if canceled
        then d = [EvLog (LogUploadFailed ErrInvalidPath)] /\ env_success env = false
        else exists r el,
               hd_error d = Some (EvAxios (upload_config file (folder_or_default folderId))
                                          r el) /\
               env_success env = resolved r
    | [] => d = [EvLog (LogUploadFailed ErrInvalidPath)] /\ env_success env = false
    end.
Proof.
  intros w s canceled filePaths folderId chosen d.
  assert (N : upload_file w None folderId s =
              (Ret {| env_success := false; env_data := None;
                      env_error := Some ErrInvalidPath; env_status := None |},
               push s [EvLog (LogUploadFailed ErrInvalidPath)])) by reflexivity.
  assert (Nn : chosen = None ->
               app (exec (upload_file w chosen folderId) s) = app s /\
               exists env,
                 result (upload_file w chosen folderId) s = Ret env /\
                 env_status env = None /\
                 d = [EvLog (LogUploadFailed ErrInvalidPath)] /\ env_success env = false).
  { intros C. unfold d. rewrite C.
    destruct (@result_exec_of_run _ _ _ _ _ N) as [R X].
    rewrite R, X, (@events_of_push _ _ _ _ X). split; [reflexivity|].
    eexists. repeat split. }
  destruct filePaths as [|file rest].
  - destruct Nn as (A & env & R & St & D & Su); [destruct canceled; reflexivity|].
    split; [exact A|]. exists env. auto.
  - destruct canceled.
    + destruct Nn as (A & env & R & St & D & Su); [reflexivity|].
      split; [exact A|]. exists env. auto.
    + subst chosen d. simpl select_file.
      unfold events_of, result, exec, upload_file, try_catch, bind, createReadStream,
        axios, log, emit, ret, upload_config, folder_or_default. simpl.
      destruct (axios_result _ _) eqn:R; simpl.
      * split; [reflexivity|]. eexists. split; [reflexivity|]. split; [reflexivity|].
        rewrite skipn_app, skipn_all, Nat.sub_diag. simpl. do 2 eexists.
        split; reflexivity.
      * split; [reflexivity|]. eexists. split; [reflexivity|]. split; [reflexivity|].
        rewrite <- app_assoc, skipn_app, skipn_all, Nat.sub_diag. simpl. do 2 eexists.
        split; reflexivity.
Qed.

(** X13: [listDocuments(folderId)] of preload.js issues a GET to
    [/api/documents] with no body; it sends [folder_id] as the only query
    parameter when [folderId] is truthy, and no query parameter at all when
    it is falsy (undefined, null or the empty string). *)
Theorem X_list_documents : forall w folderId s,
  exists r el rest,
    events_of (Preload.listDocuments w folderId) s =
    EvAxios {| cfg_method := "GET";
               cfg_url := (serviceUrl ++ "/api/documents")%string;
               cfg_timeout := 30000;
               cfg_params := if Js.truthy folderId
                             then Some (Js.Obj [("folder_id", folderId)])
                             else None;
               cfg_data := None |} r el :: rest.
Proof.
  intros w folderId s. unfold Preload.listDocuments.
  match goal with |- context [api_call w ?m ?e ?x] =>
    destruct (api_call_events w m e x s) as (r & el & rest & E) end.
  exists r, el, rest. rewrite E. unfold api_config.
  destruct (Js.truthy folderId); reflexivity.
Qed.


Lemma tidy_push s d a' :
  tidy s -> spawned d = [] -> killed d = [] ->
  pythonProcess a' = pythonProcess (app s) ->
  tidy {| app := a'; trace := trace s ++ d |}.
Proof.
  intros (T1 & T2 & T3 & T4) Sd Kd P. unfold tidy. simpl.
  rewrite spawned_app, killed_app, Sd, Kd, !app_nil_r, count_app, P.
  split; [|split; [|split]]; auto. intros h H. specialize (T1 h H). lia.
Qed.

Lemma tidy_emit e : is_spawn e = false -> is_kill e = false -> preserves tidy (emit e).
Proof.
  intros S K s H. apply tidy_push; [exact H| | |reflexivity];
    destruct e; try discriminate; reflexivity.
Qed.

Lemma tidy_axios w cfg : preserves tidy (axios w cfg).
Proof.
  intros s H. unfold exec, axios.
  destruct (unsendable cfg); [|destruct (axios_result _ _)]; simpl;
    (apply tidy_push; [exact H|reflexivity|reflexivity|reflexivity]).
Qed.

Lemma tidy_window x : preserves tidy (set_mainWindow x).
Proof.
  intros s H. unfold exec, set_mainWindow. simpl.
  rewrite <- (app_nil_r (trace s)).
  apply tidy_push; [exact H|reflexivity|reflexivity|reflexivity].
Qed.

Lemma tidy_launch w m cmd args cwd A (k : M A) :
  preserves tidy k ->
  preserves tidy (h <- spawn w m cmd args cwd ;; set_pythonProcess (Some h) ;; k).
Proof.
  intros Hk s H. unfold exec, bind, spawn, set_pythonProcess.
  destruct (w_spawnThrows w _); simpl.
  - apply tidy_push; [exact H|reflexivity|reflexivity|reflexivity].
  - apply Hk. destruct H as (T1 & T2 & T3 & T4). unfold tidy. simpl.
    rewrite spawned_app, killed_app, count_app. simpl. rewrite app_nil_r.
    change (count is_spawn_attempt [EvSpawn (count is_spawn_attempt (trace s)) m cmd args cwd])
      with 1.
    split; [|split; [|split]].
    + intros h Hh. apply in_app_or in Hh. destruct Hh as [Hh|[<-|[]]];
        [specialize (T1 h Hh)|]; lia.
    + intros h Hh. apply in_or_app. left. auto.
    + exact T3.
    + intros h Hh. inversion Hh; subst. split; [apply last_last|].
      split; [apply in_or_app; right; left; reflexivity|].
      intros Hk'. specialize (T1 _ (T2 _ Hk')). lia.
Qed.

Lemma tidy_disconnect : preserves tidy disconnectFromService.
Proof.
  intros s H. unfold exec, disconnectFromService, bind, get_app. simpl.
  destruct (pythonProcess (app s)) as [h|] eqn:E; simpl.
  - destruct H as (T1 & T2 & T3 & T4). destruct (T4 h E) as (_ & Hs & Hk).
    unfold tidy. simpl. rewrite <- app_assoc, spawned_app, killed_app, count_app.
    simpl. rewrite app_nil_r. split; [|split; [|split]].
    + intros h' Hh. specialize (T1 h' Hh).
      change (count is_spawn_attempt [EvLog LogStopping; EvKill h]) with 0. lia.
    + intros h' Hh. apply in_app_or in Hh. destruct Hh as [Hh|[<-|[]]]; auto.
    + apply NoDup_app; [exact T3|repeat constructor; intros []|].
      intros x Hx [<-|[]]. contradiction.
    + discriminate.
  - apply tidy_push; [exact H|reflexivity|reflexivity|reflexivity].
Qed.

Lemma tidy_precheck w : preserves tidy (precheck w).
Proof.
  intros s H. unfold exec. rewrite precheck_run.
  destruct (axios_result _ _) as [c b|e];
    [destruct (c =? 200)%Z; [destruct (mainWindow (app s))|]|];
    (apply tidy_push; [exact H|reflexivity|reflexivity|reflexivity]).
Qed.

Lemma tidy_attempt w : preserves tidy (connect_attempt w).
Proof.
  intros s H. unfold exec. rewrite connect_attempt_cases.
  destruct (axios_result _ _) as [c b|e];
    [destruct (c =? 200)%Z; [destruct (mainWindow (app s))|]|];
    (apply tidy_push; [exact H|reflexivity|reflexivity|reflexivity]).
Qed.

Lemma tidy_handler w a : preserves tidy (handler w a).
Proof.
  apply I_handler.
  - intros m. apply tidy_emit; reflexivity.
  - intros t. apply tidy_emit; reflexivity.
  - intros h. apply tidy_emit; reflexivity.
  - apply tidy_axios.
  - intros w' s H. apply tidy_push; [exact H|reflexivity|reflexivity|reflexivity].
  - apply tidy_window.
  - apply tidy_launch.
  - apply tidy_disconnect.
  - apply tidy_precheck.
  - apply tidy_attempt.
Qed.

Lemma tidy_init : tidy init.
Proof.
  unfold tidy. simpl. repeat split; try contradiction; try discriminate. constructor.
Qed.

(** X14: in every state of the event loop, only children the application
    spawned have been killed, none of them twice, and a child held in the
    process field is the one spawned last and has not been killed. *)
Theorem X_never_kills_twice : forall w s,
  reachable w s ->
  NoDup (killed (trace s)) /\
  (forall h, In h (killed (trace s)) -> In h (spawned (trace s))) /\
  match pythonProcess (app s) with
  | Some h => last (spawned (trace s)) (S h) = h /\ ~ In h (killed (trace s))
  | None => True
  end.
Proof.
  intros w s R.
  assert (T : tidy s).
  { induction R as [|s a R IH]; [apply tidy_init|]. apply tidy_handler. exact IH. }
  destruct T as (_ & T2 & T3 & T4). split; [exact T3|]. split; [exact T2|].
  destruct (pythonProcess (app s)) as [h|]; [|exact I].
  destruct (T4 h eq_refl) as (L & _ & K). auto.
Qed.

Lemma X_never_kills_twice_witness :
  reachable cold_start (fire cold_start ready_owned ABeforeQuit) /\
  NoDup (killed (trace (fire cold_start ready_owned ABeforeQuit))) /\
  (forall h, In h (killed (trace (fire cold_start ready_owned ABeforeQuit))) ->
             In h (spawned (trace (fire cold_start ready_owned ABeforeQuit)))) /\
  match pythonProcess (app (fire cold_start ready_owned ABeforeQuit)) with
  | Some h => last (spawned (trace (fire cold_start ready_owned ABeforeQuit))) (S h) = h /\
              ~ In h (killed (trace (fire cold_start ready_owned ABeforeQuit)))
  | None => True
  end.
Proof.
  assert (R : reachable cold_start (fire cold_start ready_owned ABeforeQuit))
    by exact (reach_step ABeforeQuit
                (reach_step AReadyToShow (reach_step ACreateWindow (reach_init cold_start)))).
  split; [exact R|].
  exact (X_never_kills_twice R).
Defined.

(* ===================================================================== *)
(** * Properties of the startup test script *)
(* ===================================================================== *)

Import TestStartup.

Ltac tmonad :=
  cbv beta iota delta [ttry tbind tret say tlog tsleep taxios_get tspawn
    checkFileExists];
  simpl.

Ltac side :=
  first
    [ solve [unfold tcount; simpl; first [reflexivity | lia]]
    | solve [unfold tcount; simpl; destruct (_ =? 0)%nat; lia]
    | solve [unfold tcount in *;
             cbn [t_duration fold_right t_ms filter List.length t_is_sleep]; lia] ].

Lemma tbind_ret {A B} (m : T A) (k : A -> T B) tr a tr' :
  m tr = (Ret a, tr') -> tbind m k tr = k a tr'.
Proof. intros E. unfold tbind. rewrite E. reflexivity. Qed.

Lemma added_app {A} (m : T A) tr o d :
  m tr = (o, tr ++ d) -> added m tr = d.
Proof.
  intros E. unfold added. rewrite E. simpl.
  rewrite skipn_app, skipn_all, Nat.sub_diag. reflexivity.
Qed.

Lemma tcount_app p a b : tcount p (a ++ b) = tcount p a + tcount p b.
Proof. unfold tcount. rewrite filter_app, length_app. reflexivity. Qed.

Lemma tcount_nil p : tcount p [] = 0.
Proof. reflexivity. Qed.

Lemma tcount_cons p e d : tcount p (e :: d) = (if p e then 1 else 0) + tcount p d.
Proof. unfold tcount. simpl. destruct (p e); reflexivity. Qed.

Lemma t_duration_app a b : t_duration (a ++ b) = (t_duration a + t_duration b)%N.
Proof. induction a as [|e a IH]; simpl; [reflexivity|]. rewrite IH. lia. Qed.

(** The request of one attempt of the test script. *)
Lemma test_attempt_cases w url n i tr :
  let a := w_server w (tcount t_is_request tr) in
  let ev := TAxios {| cfg_method := "get"; cfg_url := (url ++ "/health")%string;
                      cfg_timeout := 2000; cfg_params := None; cfg_data := None |}
                   (axios_result 2000 a) (axios_elapsed 2000 a) in
  test_attempt w url n i tr =
  match axios_result 2000 a with
  | Resolved c _ =>
      if (c =? 200)%Z then (Ret true, tr ++ [ev; TLog Green MConnected])
      else (Ret false, tr ++ [ev])
  | Rejected _ =>
      if (i <? n - 1)%nat then (Ret false, tr ++ [ev; TDot; TSleep 1000])
      else (Ret false, tr ++ [ev])
  end.
Proof.
  unfold test_attempt. tmonad.
  destruct (axios_result _ _) as [c b|e]; simpl.
  - destruct (c =? 200)%Z; simpl; rewrite <- ?app_assoc; reflexivity.
  - destruct (i <? n - 1)%nat; simpl; rewrite <- ?app_assoc; reflexivity.
Qed.

Lemma test_loop_S w url n i r tr :
  test_loop w url n i (S r) tr =
  tbind (test_attempt w url n i)
        (fun done => if done then tret true else test_loop w url n (S i) r) tr.
Proof. reflexivity. Qed.

Lemma test_loop_run w url n : forall r i tr,
  i + r = n ->
  exists (b : bool) d,
    test_loop w url n i r tr = (Ret b, tr ++ d) /\
    tcount t_is_spawn_attempt d = 0 /\ tcount t_is_kill d = 0 /\
    tcount t_is_request d <= r /\
    (if b then 1 <= tcount t_is_request d else tcount t_is_request d = r) /\
    tcount t_is_dot d = tcount t_is_sleep d /\
    tcount t_is_sleep d <= r - 1 /\
    (t_duration d <= 2000 * N.of_nat r + 1000 * N.of_nat (r - 1))%N.
Proof.
  induction r as [|r IH]; intros i tr Hi.
  - exists false, []. rewrite app_nil_r.
    repeat split; unfold tcount; simpl; try reflexivity; lia.
  - rewrite test_loop_S. unfold tbind. rewrite test_attempt_cases.
    pose proof (axios_elapsed_le 2000 (w_server w (tcount t_is_request tr))) as Hel.
    set (ev := TAxios _ _ _).
    assert (Hev : (t_ms ev <= 2000)%N) by exact Hel.
    assert (G : forall pre,
      tcount t_is_spawn_attempt pre = 0 -> tcount t_is_kill pre = 0 ->
      tcount t_is_request pre = 1 ->
      tcount t_is_dot pre = tcount t_is_sleep pre ->
      tcount t_is_sleep pre <= (if (r =? 0)%nat then 0 else 1) ->
      (t_duration pre <= 2000 + 1000 * N.of_nat (tcount t_is_sleep pre))%N ->
      exists (b : bool) d,
        test_loop w url n (S i) r (tr ++ pre) = (Ret b, tr ++ d) /\
        tcount t_is_spawn_attempt d = 0 /\ tcount t_is_kill d = 0 /\
        tcount t_is_request d <= S r /\
        (if b then 1 <= tcount t_is_request d else tcount t_is_request d = S r) /\
        tcount t_is_dot d = tcount t_is_sleep d /\
        tcount t_is_sleep d <= S r - 1 /\
        (t_duration d <= 2000 * N.of_nat (S r) + 1000 * N.of_nat (S r - 1))%N).
    { intros pre P1 P2 P3 P4 P5 P6.
      destruct (IH (S i) (tr ++ pre)) as (b & d & E & Q1 & Q2 & Q3 & Q4 & Q5 & Q6 & Q7);
        [lia|].
      exists b, (pre ++ d). rewrite E, <- app_assoc, !tcount_app, t_duration_app.
      split; [reflexivity|].
      destruct (r =? 0)%nat eqn:Er;
        [apply Nat.eqb_eq in Er|apply Nat.eqb_neq in Er];
        repeat split; try lia; destruct b; lia. }
    destruct (axios_result _ _) as [c body|e].
    + destruct (c =? 200)%Z.
      * exists true, [ev; TLog Green MConnected]. split; [reflexivity|].
        subst ev. repeat split; side.
      * subst ev. apply G; side.
    + destruct (i <? n - 1)%nat eqn:Ei.
      * apply Nat.ltb_lt in Ei. subst ev. apply G; try side.
        unfold tcount; simpl. destruct (r =? 0)%nat eqn:Er; [apply Nat.eqb_eq in Er; lia|lia].
      * subst ev. apply G; side.
Qed.

Lemma test_connection_run w url n tr :
  exists (b : bool) d,
    testServiceConnection w url n tr = (Ret b, tr ++ d) /\
    tcount t_is_spawn_attempt d = 0 /\ tcount t_is_kill d = 0 /\
    tcount t_is_request d <= n /\
    (if b then 1 <= tcount t_is_request d else tcount t_is_request d = n) /\
    tcount t_is_dot d = tcount t_is_sleep d /\
    tcount t_is_sleep d <= n - 1 /\
    (t_duration d <= 2000 * N.of_nat n + 1000 * N.of_nat (n - 1))%N.
Proof.
  unfold testServiceConnection.
  assert (L : tlog Blue (MTesting url) tr = (Ret tt, tr ++ [TLog Blue (MTesting url)]))
    by reflexivity.
  rewrite (@tbind_ret _ _ _ _ _ _ _ L).
  destruct (@test_loop_run w url n n 0 (tr ++ [TLog Blue (MTesting url)]))
    as (b & d & E & Q1 & Q2 & Q3 & Q4 & Q5 & Q6 & Q7); [reflexivity|].
  rewrite (@tbind_ret _ _ _ _ _ _ _ E). destruct b.
  - exists true, (TLog Blue (MTesting url) :: d). unfold tret.
    rewrite <- app_assoc. split; [reflexivity|].
    rewrite !tcount_cons. cbn [t_is_spawn_attempt t_is_kill t_is_request t_is_dot t_is_sleep].
    change (t_duration (TLog Blue (MTesting url) :: d)) with (0 + t_duration d)%N.
    repeat split; lia.
  - exists false, (TLog Blue (MTesting url) :: d ++ [TLog Red MConnectionFailed]).
    split; [tmonad; rewrite <- !app_assoc; reflexivity|].
    change (TLog Blue (MTesting url) :: d ++ [TLog Red MConnectionFailed])
      with ([TLog Blue (MTesting url)] ++ d ++ [TLog Red MConnectionFailed]).
    rewrite !tcount_app, !t_duration_app, !tcount_cons.
    change (t_duration [TLog Blue (MTesting url)]) with 0%N.
    change (t_duration [TLog Red MConnectionFailed]) with 0%N.
    cbn [t_is_spawn_attempt t_is_kill t_is_request t_is_dot t_is_sleep].
    rewrite !tcount_nil.
    repeat split; lia.
Qed.

(** X15: [testServiceConnection] never throws.  It makes at most
    [maxAttempts] requests (all of them when it fails), prints one dot per
    pause, and pauses only between attempts, never after the last one: at
    most [maxAttempts - 1] pauses, so at most
    [2000 * maxAttempts + 1000 * (maxAttempts - 1)] ms of suspension. *)
Theorem X_test_connection_bounds : forall w url maxAttempts tr,
  let d := added (testServiceConnection w url maxAttempts) tr in
  exists b,
    fst (testServiceConnection w url maxAttempts tr) = Ret b /\
    tcount t_is_request d <= maxAttempts /\
    (if b then 1 <= tcount t_is_request d
     else tcount t_is_request d = maxAttempts) /\
    tcount t_is_sleep d <= maxAttempts - 1 /\
    tcount t_is_dot d = tcount t_is_sleep d /\
    (t_duration d <= 2000 * N.of_nat maxAttempts
                     + 1000 * N.of_nat (maxAttempts - 1))%N.
Proof.
  intros w url n tr d.
  destruct (test_connection_run w url n tr)
    as (b & d' & E & _ & _ & Q3 & Q4 & Q5 & Q6 & Q7).
  assert (D : d = d') by (apply added_app with (Ret b); exact E).
  exists b. rewrite E, D. simpl. auto 6.
Qed.

Lemma every_existing w xs : forall tr,
  forallb (fun x => w_existsSync w (fst x)) xs = true ->
  every (fun check => checkFileExists w (fst check) (snd check)) xs tr =
  (Ret true, tr ++ map (fun x => TLog Green (MFound (snd x) (fst x))) xs).
Proof.
  induction xs as [|x xs IH]; intros tr H.
  - simpl. rewrite app_nil_r. reflexivity.
  - simpl in H. apply andb_prop in H. destruct H as [Hx Hxs].
    cbn [every]. unfold tbind at 1. unfold checkFileExists at 1. tmonad.
    rewrite Hx. simpl. rewrite IH by exact Hxs. rewrite <- app_assoc. reflexivity.
Qed.

(** X16: the environment check is an [Array.every]: it stops at the first
    missing file.  The files before it are reported as found, the missing
    one as missing, the files after it are not looked at, and the check is
    [false]. *)
Theorem X_every_stops_at_first_missing : forall w before missing after tr,
  forallb (fun x => w_existsSync w (fst x)) before = true ->
  w_existsSync w (fst missing) = false ->
  every (fun check => checkFileExists w (fst check) (snd check))
        (before ++ missing :: after) tr =
  (Ret false,
   tr ++ map (fun x => TLog Green (MFound (snd x) (fst x))) before
      ++ [TLog Yellow (MMissing (snd missing) (fst missing))]).
Proof.
  intros w before missing after. induction before as [|x xs IH]; intros tr H Hm.
  - simpl. unfold tbind, checkFileExists. tmonad. rewrite Hm. reflexivity.
  - simpl in H. apply andb_prop in H. destruct H as [Hx Hxs].
    rewrite <- app_comm_cons. cbn [every]. unfold tbind at 1.
    unfold checkFileExists at 1. tmonad.
    rewrite Hx. simpl. rewrite IH by assumption. rewrite <- !app_assoc. reflexivity.
Qed.

Lemma X_every_stops_at_first_missing_witness :
  every (fun check => checkFileExists half_checkout (fst check) (snd check))
        checks [] =
  (Ret false,
   [TLog Green (MFound "Package configuration" "package.json");
    TLog Green (MFound "Electron main process" "electron-app/src/main.js");
    TLog Yellow (MMissing "Python service" "core-rag-service/service_main.py")]).
Proof.
  exact (@X_every_stops_at_first_missing half_checkout
           [("package.json", "Package configuration");
            ("electron-app/src/main.js", "Electron main process")]
           ("core-rag-service/service_main.py", "Python service")
           [("core-rag-service/config.yaml", "Service configuration");
            ("covenantrix-service.spec", "PyInstaller spec");
            ("venv", "Python virtual environment")]
           [] eq_refl eq_refl).
Defined.

Lemma test_loop_unpaused w url n : forall r i tr,
  (forall k, k < r ->
     exists c body,
       axios_result 2000 (w_server w (tcount t_is_request tr + k)) = Resolved c body /\
       c <> 200%Z) ->
  exists d,
    test_loop w url n i r tr = (Ret false, tr ++ d) /\
    tcount t_is_request d = r /\ tcount t_is_sleep d = 0 /\ tcount t_is_dot d = 0.
Proof.
  induction r as [|r IH]; intros i tr H.
  - exists []. rewrite app_nil_r. repeat split.
  - rewrite test_loop_S. unfold tbind. rewrite test_attempt_cases.
    destruct (H 0) as (c & body & E & Hc); [lia|].
    rewrite Nat.add_0_r in E. rewrite E.
    apply Z.eqb_neq in Hc. rewrite Hc.
    set (ev := TAxios _ _ _).
    destruct (IH (S i) (tr ++ [ev])) as (d & L & Q1 & Q2 & Q3).
    { intros k Hk. rewrite tcount_app.
      change (tcount t_is_request [ev]) with 1.
      replace (tcount t_is_request tr + 1 + k) with (tcount t_is_request tr + S k) by lia.
      apply H. lia. }
    exists (ev :: d). rewrite L, <- app_assoc. split; [reflexivity|].
    rewrite !tcount_cons, Q1, Q2, Q3. repeat split.
Qed.

(** X19: an answer that is not a 200 is not an error for axios unless it is
    outside 2xx, so the [catch] block and its pause are skipped: while the
    service answers with another 2xx status the test script retries at once.
    It makes all [maxAttempts] requests, never pauses, prints no dot, and
    fails. *)
Theorem X_test_connection_unpaused : forall w url maxAttempts tr,
  (forall k, k < maxAttempts ->
     exists c body,
       axios_result 2000 (w_server w (tcount t_is_request tr + k)) = Resolved c body /\
       c <> 200%Z) ->
  let d := added (testServiceConnection w url maxAttempts) tr in
  fst (testServiceConnection w url maxAttempts tr) = Ret false /\
  tcount t_is_request d = maxAttempts /\
  tcount t_is_sleep d = 0 /\ tcount t_is_dot d = 0 /\
  last d TBlank = TLog Red MConnectionFailed.
Proof.
  intros w url n tr H d. subst d.
  destruct (@test_loop_unpaused w url n n 0 (tr ++ [TLog Blue (MTesting url)]))
    as (d & L & Q1 & Q2 & Q3).
  { intros k Hk. rewrite tcount_app.
    change (tcount t_is_request [TLog Blue (MTesting url)]) with 0.
    rewrite Nat.add_0_r. apply H. exact Hk. }
  assert (E : testServiceConnection w url n tr =
              (Ret false, tr ++ (TLog Blue (MTesting url) :: d)
                             ++ [TLog Red MConnectionFailed])).
  { unfold testServiceConnection.
    assert (L0 : tlog Blue (MTesting url) tr = (Ret tt, tr ++ [TLog Blue (MTesting url)]))
      by reflexivity.
    rewrite (@tbind_ret _ _ _ _ _ _ _ L0), (@tbind_ret _ _ _ _ _ _ _ L).
    tmonad. rewrite <- !app_assoc. reflexivity. }
  rewrite (@added_app _ _ _ _ _ E), E.
  rewrite !tcount_app, !tcount_cons, !tcount_nil, Q1, Q2, Q3, last_last.
  cbn [t_is_request t_is_sleep t_is_dot].
  repeat split; lia.
Qed.

Lemma X_test_connection_unpaused_witness :
  let d := added (testServiceConnection no_content default_url 10) [] in
  fst (testServiceConnection no_content default_url 10 []) = Ret false /\
  tcount t_is_request d = 10 /\
  tcount t_is_sleep d = 0 /\ tcount t_is_dot d = 0 /\
  last d TBlank = TLog Red MConnectionFailed.
Proof.
  apply (@X_test_connection_unpaused no_content default_url 10 []).
  intros k Hk. exists 204%Z. eexists. split; [reflexivity|discriminate].
Defined.

Lemma start_test_run w fails cwd uv tr :
  startPythonService w fails cwd uv tr =
  if w_existsSync w (test_python_path w cwd uv) then
    if w_spawnThrows w (tcount t_is_spawn_attempt tr) then
      (Ret None,
       tr ++ [TLog Blue (MStarting uv);
              TLog Green (MFound (test_description uv) (test_python_path w cwd uv));
              TSpawnThrew (test_python_path w cwd uv);
              TLog Red MStartFailed])
    else if start_fails w fails (tcount t_is_spawn_attempt tr)
                        (test_python_cwd w cwd uv) then
      (Died,
       tr ++ [TLog Blue (MStarting uv);
              TLog Green (MFound (test_description uv) (test_python_path w cwd uv));
              TSpawnFailed uv (test_python_path w cwd uv)
                           (test_python_args w cwd uv) (test_python_cwd w cwd uv)])
    else
      (Ret (Some (tcount t_is_spawn_attempt tr)),
       tr ++ [TLog Blue (MStarting uv);
              TLog Green (MFound (test_description uv) (test_python_path w cwd uv));
              TSpawn (tcount t_is_spawn_attempt tr) uv (test_python_path w cwd uv)
                     (test_python_args w cwd uv) (test_python_cwd w cwd uv);
              TSleep 3000])
  else
    (Ret None,
     tr ++ [TLog Blue (MStarting uv);
            TLog Yellow (MMissing (test_description uv) (test_python_path w cwd uv))]).
Proof.
  unfold startPythonService.
  change (if uv then w_join w [cwd; "venv"; venvBinDir w; venvPythonExe w]
          else w_join w [cwd; "python-dist"; executableName w])
    with (test_python_path w cwd uv).
  change (if uv then [w_join w [cwd; "core-rag-service"; "service_main.py"]] else [])
    with (test_python_args w cwd uv).
  change (if uv then w_join w [cwd; "core-rag-service"]
          else w_pathDirname w (test_python_path w cwd uv))
    with (test_python_cwd w cwd uv).
  change (if uv then "Venv Python" else "Bundled executable")
    with (test_description uv).
  generalize (test_python_path w cwd uv) (test_python_args w cwd uv)
             (test_python_cwd w cwd uv) (test_description uv).
  intros path args dir desc.
  cbv beta iota delta [ttry tbind tret say tlog tsleep tspawn checkFileExists].
  destruct (w_existsSync w path); cbn [negb].
  - rewrite !tcount_app. cbn [tcount filter t_is_spawn_attempt List.length].
    rewrite !Nat.add_0_r.
    destruct (w_spawnThrows w _); [rewrite <- !app_assoc; reflexivity|].
    destruct (start_fails w fails _ dir); rewrite <- !app_assoc; reflexivity.
  - rewrite <- !app_assoc. reflexivity.
Qed.

(** X17: the test script's [startPythonService] never throws and kills
    nothing, but it need not return.  It returns a child exactly when it
    has spawned that child, which it does only if the executable and the
    working directory exist, and then it has waited 3000 ms.  It returns
    [null], having started nothing and not waited, when the executable is
    missing or [spawn] threw.  When [spawn] returned a child that failed to
    start (a missing working directory among the reasons), the process dies
    on the unhandled ['error'] event: nothing is logged after it. *)
Theorem X_test_start_outcome : forall w fails cwd useVenv tr,
  let d := added (startPythonService w fails cwd useVenv) tr in
  let path := test_python_path w cwd useVenv in
  let dir := test_python_cwd w cwd useVenv in
  t_killed d = [] /\
  match fst (startPythonService w fails cwd useVenv tr) with
  | Ret (Some child) =>
      test_start_dies w fails cwd useVenv tr = false /\
      w_existsSync w path = true /\ w_existsSync w dir = true /\
      t_spawned d = [child] /\
      last d TBlank = TSleep 3000 /\
      t_duration d = 3000%N
  | Ret None =>
      test_start_dies w fails cwd useVenv tr = false /\
      t_spawned d = [] /\ tcount t_is_failed_start d = 0 /\
      t_duration d = 0%N
  | Died =>
      test_start_dies w fails cwd useVenv tr = true /\
      t_spawned d = [] /\
      last d TBlank =
        TSpawnFailed useVenv path (test_python_args w cwd useVenv) dir /\
      t_duration d = 0%N
  | Throw _ => False
  end.
Proof.
  intros w fails cwd uv tr d path dir. subst d path dir.
  pose proof (start_test_run w fails cwd uv tr) as E.
  unfold test_start_dies.
  destruct (w_existsSync w (test_python_path w cwd uv)).
  - destruct (w_spawnThrows w _).
    + rewrite (@added_app _ _ _ _ _ E), E. repeat split.
    + destruct (start_fails w fails _ _) eqn:F.
      * rewrite (@added_app _ _ _ _ _ E), E. repeat split.
      * rewrite (@added_app _ _ _ _ _ E), E.
        unfold start_fails in F. apply orb_false_elim in F. destruct F as [F _].
        apply negb_false_iff in F. repeat split. exact F.
  - rewrite (@added_app _ _ _ _ _ E), E. repeat split.
Qed.

Lemma t_live_app a : forall b acc, t_live (a ++ b) acc = t_live b (t_live a acc).
Proof.
  induction a as [|e a IH]; intros b acc; [reflexivity|].
  destruct e; simpl; apply IH.
Qed.

Lemma t_spawned_app a b : t_spawned (a ++ b) = t_spawned a ++ t_spawned b.
Proof. apply flat_map_app. Qed.

Lemma t_killed_app a b : t_killed (a ++ b) = t_killed a ++ t_killed b.
Proof. apply flat_map_app. Qed.

Lemma plain_live d : forall acc, forallb t_plain d = true -> t_live d acc = acc.
Proof.
  induction d as [|e d IH]; intros acc H; [reflexivity|].
  simpl in H. apply andb_prop in H. destruct H as [He Hd].
  destruct e; simpl in *; try discriminate; apply IH; exact Hd.
Qed.

Lemma plain_spawned d : forallb t_plain d = true -> t_spawned d = [].
Proof.
  induction d as [|e d IH]; intros H; [reflexivity|].
  simpl in H. apply andb_prop in H. destruct H as [He Hd].
  destruct e; simpl in *; try discriminate; apply IH; exact Hd.
Qed.

Lemma plain_killed d : forallb t_plain d = true -> t_killed d = [].
Proof.
  induction d as [|e d IH]; intros H; [reflexivity|].
  simpl in H. apply andb_prop in H. destruct H as [He Hd].
  destruct e; simpl in *; try discriminate; apply IH; exact Hd.
Qed.

Lemma plain_ok d acc :
  forallb t_plain d = true -> List.length acc <= 1 -> ok_from acc d.
Proof.
  intros H Hacc p s E. subst d. rewrite forallb_app in H.
  apply andb_prop in H. destruct H as [Hp _].
  rewrite plain_live by exact Hp. exact Hacc.
Qed.

Lemma ok_from_cons acc e d :
  List.length acc <= 1 -> ok_from (t_live [e] acc) d -> ok_from acc (e :: d).
Proof.
  intros Hacc H p s E. destruct p as [|e' p].
  - exact Hacc.
  - injection E as <- E.
    change (e :: p) with ([e] ++ p). rewrite t_live_app. exact (H p s E).
Qed.

Lemma ok_from_app acc a b :
  ok_from acc a -> ok_from (t_live a acc) b -> ok_from acc (a ++ b).
Proof.
  intros Ha Hb p s E. symmetry in E. apply app_eq_app in E.
  destruct E as (l & [[E1 E2]|[E1 E2]]).
  - subst p. rewrite t_live_app. exact (Hb l s E2).
  - exact (Ha p l E1).
Qed.

Lemma clean_app a b : clean a -> clean b -> clean (a ++ b).
Proof.
  intros [La Oa] [Lb Ob]. split.
  - rewrite t_live_app, La. exact Lb.
  - apply ok_from_app; [exact Oa|]. rewrite La. exact Ob.
Qed.

Lemma clean_plain d : forallb t_plain d = true -> clean d.
Proof.
  intros H. split; [apply plain_live; exact H|].
  apply plain_ok; [exact H|]. simpl. lia.
Qed.

(** A child that is spawned, left alone and then killed. *)
Lemma clean_child pre h u c a dir mid post :
  forallb t_plain pre = true -> forallb t_plain mid = true ->
  forallb t_plain post = true ->
  clean (pre ++ TSpawn h u c a dir :: mid ++ TKill h :: post).
Proof.
  intros Hpre Hmid Hpost. apply clean_app; [apply clean_plain; exact Hpre|].
  assert (F : filter (fun h' => negb (Nat.eqb h h')) [h] = []).
  { simpl. rewrite Nat.eqb_refl. reflexivity. }
  split.
  - simpl. rewrite t_live_app, (@plain_live mid _ Hmid). simpl.
    rewrite Nat.eqb_refl. simpl. apply plain_live. exact Hpost.
  - apply ok_from_cons; [simpl; lia|]. simpl.
    apply ok_from_app; [apply plain_ok; [exact Hmid|simpl; lia]|].
    rewrite (@plain_live mid _ Hmid).
    apply ok_from_cons; [simpl; lia|]. simpl. rewrite Nat.eqb_refl. simpl.
    apply plain_ok; [exact Hpost|simpl; lia].
Qed.

Lemma tcount_zero p d : tcount p d = 0 -> forallb (fun e => negb (p e)) d = true.
Proof.
  induction d as [|e d IH]; intros H; [reflexivity|].
  rewrite tcount_cons in H. simpl. destruct (p e); [discriminate|].
  simpl. apply IH. exact H.
Qed.

Lemma plain_of_counts d :
  tcount t_is_spawn_attempt d = 0 -> tcount t_is_kill d = 0 ->
  forallb t_plain d = true.
Proof.
  intros H1 H2. apply tcount_zero in H1. apply tcount_zero in H2.
  rewrite forallb_forall in *. intros e He.
  specialize (H1 e He). specialize (H2 e He).
  destruct e; simpl in *; try reflexivity; discriminate.
Qed.

Lemma quiet_plain d : forallb t_is_quiet d = true -> forallb t_plain d = true.
Proof.
  intros H. rewrite forallb_forall in *. intros e He. specialize (H e He).
  destruct e; simpl in *; try reflexivity; discriminate.
Qed.

Lemma quiet_requests d : forallb t_is_quiet d = true -> tcount t_is_request d = 0.
Proof.
  induction d as [|e d IH]; intros H; [reflexivity|].
  simpl in H. apply andb_prop in H. destruct H as [He Hd].
  rewrite tcount_cons, IH by exact Hd. destruct e; simpl in *; try reflexivity; discriminate.
Qed.

Lemma quiet_duration d : forallb t_is_quiet d = true -> t_duration d = 0%N.
Proof.
  induction d as [|e d IH]; intros H; [reflexivity|].
  simpl in H. apply andb_prop in H. destruct H as [He Hd].
  simpl. rewrite IH by exact Hd. destruct e; simpl in *; try reflexivity; discriminate.
Qed.

Lemma good_quiet k d : forallb t_is_quiet d = true -> good k d.
Proof.
  intros H. pose proof (@quiet_plain d H) as P.
  unfold good. rewrite plain_killed, plain_spawned, quiet_requests, quiet_duration
    by assumption.
  repeat split; try apply clean_plain; simpl; try assumption; lia.
Qed.

Lemma good_app j k a b : good j a -> good k b -> good (j + k) (a ++ b).
Proof.
  intros (C1 & K1 & S1 & R1 & D1) (C2 & K2 & S2 & R2 & D2).
  unfold good.
  rewrite t_killed_app, t_spawned_app, tcount_app, t_duration_app, length_app, K1, K2.
  rewrite Nat2N.inj_add.
  split; [apply clean_app; assumption|].
  split; [reflexivity|]. repeat split; lia.
Qed.

Lemma good_mono j k d : j <= k -> good j d -> good k d.
Proof.
  intros H (C & K & S & R & D). unfold good.
  repeat split; try assumption; try apply C; lia.
Qed.

Lemma last_app_nonempty (a b : list TEvent) x :
  b <> [] -> last (a ++ b) x = last b x.
Proof.
  intros H. induction a as [|e a IH]; [reflexivity|].
  simpl. destruct (a ++ b) eqn:E; [|exact IH].
  apply app_eq_nil in E. destruct E as [_ E]. contradiction.
Qed.

Lemma failed_last_nonempty d :
  t_is_failed_start (last d TBlank) = true -> d <> [].
Proof. intros H E. subst d. discriminate. Qed.

Lemma failed_of_attempts d :
  tcount t_is_spawn_attempt d = 0 -> tcount t_is_failed_start d = 0.
Proof.
  induction d as [|e d IH]; intros H; [reflexivity|].
  rewrite tcount_cons in *. destruct e; simpl in *; try discriminate; apply IH; exact H.
Qed.

Lemma ends_ret {A} b (a : A) : ends b (tret a) 0.
Proof.
  intros tr. exists []. split; [apply good_quiet; reflexivity|].
  left. exists a. rewrite app_nil_r. split; reflexivity.
Qed.

Lemma ends_say b e :
  t_is_quiet e = true -> t_is_failed_start e = false -> ends b (say e) 0.
Proof.
  intros H F tr. exists [e]. split.
  - apply good_quiet. simpl. rewrite H. reflexivity.
  - left. exists tt. split; [reflexivity|]. rewrite tcount_cons, F. reflexivity.
Qed.

Lemma ends_bind {A B} b (m : T A) (f : A -> T B) j k :
  ends b m j -> (forall a, ends b (f a) k) -> ends b (tbind m f) (j + k).
Proof.
  intros Hm Hf tr.
  destruct (Hm tr) as (d1 & G1 & [(a & E1 & F1)|(Hb & E1 & L1)]).
  - destruct (Hf a (tr ++ d1)) as (d2 & G2 & [(c & E2 & F2)|(Hb & E2 & L2)]).
    + exists (d1 ++ d2). split; [apply good_app; assumption|].
      left. exists c. rewrite (@tbind_ret _ _ _ _ _ _ _ E1), E2, <- app_assoc.
      split; [reflexivity|]. rewrite tcount_app, F1, F2. reflexivity.
    + exists (d1 ++ d2). split; [apply good_app; assumption|].
      right. rewrite (@tbind_ret _ _ _ _ _ _ _ E1), E2, <- app_assoc.
      repeat split; [exact Hb|].
      rewrite last_app_nonempty; [exact L2|].
      apply failed_last_nonempty. exact L2.
  - exists d1. split; [apply good_mono with j; [lia|exact G1]|].
    right. unfold tbind. rewrite E1. repeat split; assumption.
Qed.

Lemma ends_check b w p desc : ends b (checkFileExists w p desc) 0.
Proof.
  unfold checkFileExists. apply (@ends_bind _ _ b _ _ 0 0).
  - destruct (w_existsSync w p); apply ends_say; reflexivity.
  - intros _. apply ends_ret.
Qed.

Lemma ends_every b w xs :
  ends b (every (fun check => checkFileExists w (fst check) (snd check)) xs) 0.
Proof.
  induction xs as [|x xs IH]; [apply ends_ret|].
  cbn [every]. apply (@ends_bind _ _ b _ _ 0 0); [apply ends_check|].
  intros [|]; [exact IH|apply ends_ret].
Qed.

(** One phase.  It cannot die when no start can fail. *)
Lemma ends_phase b w fails cwd uv gate desc skipped :
  (b = false -> forall tr, test_start_dies w fails cwd uv tr = false) ->
  ends b (phase w fails cwd uv gate desc skipped) 1.
Proof.
  intros Hb tr. unfold phase.
  assert (C : checkFileExists w gate desc tr =
              (Ret (w_existsSync w gate),
               tr ++ [if w_existsSync w gate then TLog Green (MFound desc gate)
                      else TLog Yellow (MMissing desc gate)])).
  { unfold checkFileExists. tmonad. destruct (w_existsSync w gate); reflexivity. }
  rewrite (@tbind_ret _ _ _ _ _ _ _ C).
  destruct (w_existsSync w gate).
  - set (tr1 := tr ++ [TLog Green (MFound desc gate)]).
    pose proof (start_test_run w fails cwd uv tr1) as S.
    assert (Hd := fun H => Hb H tr1). unfold test_start_dies in Hd.
    destruct (w_existsSync w (test_python_path w cwd uv)).
    + destruct (w_spawnThrows w (tcount t_is_spawn_attempt tr1)).
      * eexists. split; [|left; exists false; split].
        2:{ cbv beta iota.
            match goal with
            | |- tbind ?m _ tr1 = _ =>
                match type of S with
                | _ = (_, ?t) => assert (I : m tr1 = (Ret (None, false), t))
                end
            end.
            { rewrite (@tbind_ret _ _ _ _ _ _ _ S). reflexivity. }
            rewrite (@tbind_ret _ _ _ _ _ _ _ I). tmonad. subst tr1.
            rewrite <- !app_assoc. simpl. reflexivity. }
        { apply good_quiet. reflexivity. }
        reflexivity.
      * destruct (start_fails w fails _ _).
        -- eexists. split; [|right; split; [|split]].
           3:{ cbv beta iota.
               match goal with
               | |- tbind ?m _ tr1 = _ =>
                   match type of S with
                   | _ = (_, ?t) => assert (I : m tr1 = (Died, t))
                   end
               end.
               { unfold tbind at 1. rewrite S. reflexivity. }
               unfold tbind at 1. rewrite I. subst tr1.
               rewrite <- !app_assoc. simpl. reflexivity. }
           { apply good_quiet. reflexivity. }
           { destruct b; [reflexivity|]. specialize (Hd eq_refl). discriminate. }
           reflexivity.
        -- set (h := tcount t_is_spawn_attempt tr1) in *.
           match type of S with _ = (_, _ ++ ?l) => set (d1 := l) in * end.
           destruct (test_connection_run w default_url 10 (tr1 ++ d1))
             as (ok & d & E & Q1 & Q2 & Q3 & _ & _ & _ & Q7).
           exists (TLog Green (MFound desc gate) :: d1 ++ d ++ [TKill h; TSleep 2000]).
           pose proof (@plain_of_counts d Q1 Q2) as P.
           split; [|left; exists ok; split].
           2:{ cbv beta iota.
               match goal with
               | |- tbind ?m _ tr1 = _ =>
                   assert (I : m tr1 = (Ret (Some h, ok), (tr1 ++ d1) ++ d))
               end.
               { rewrite (@tbind_ret _ _ _ _ _ _ _ S). cbv beta iota.
                 rewrite (@tbind_ret _ _ _ _ _ _ _ E). reflexivity. }
               rewrite (@tbind_ret _ _ _ _ _ _ _ I). tmonad. subst tr1.
               rewrite <- !app_assoc. simpl. reflexivity. }
           2:{ subst d1.
               change (TLog Green (MFound desc gate) :: _)
                 with ([TLog Green (MFound desc gate);
                        TLog Blue (MStarting uv);
                        TLog Green (MFound (test_description uv)
                                           (test_python_path w cwd uv));
                        TSpawn h uv (test_python_path w cwd uv)
                          (test_python_args w cwd uv) (test_python_cwd w cwd uv);
                        TSleep 3000] ++ d ++ [TKill h; TSleep 2000]).
               rewrite !tcount_app, (@failed_of_attempts d Q1). reflexivity. }
           subst d1.
           set (pre := [TLog Green (MFound desc gate);
                        TLog Blue (MStarting uv);
                        TLog Green (MFound (test_description uv)
                                           (test_python_path w cwd uv))]).
           set (child := TSpawn h uv (test_python_path w cwd uv)
                           (test_python_args w cwd uv) (test_python_cwd w cwd uv)).
           change (good 1 ((pre ++ [child; TSleep 3000]) ++ d ++ [TKill h; TSleep 2000])).
           unfold good. split; [|split; [|split; [|split]]].
           ++ change (clean (pre ++ child :: (TSleep 3000 :: d) ++ TKill h :: [TSleep 2000])).
              apply clean_child; [reflexivity| |reflexivity].
              simpl. exact P.
           ++ rewrite !t_killed_app, !t_spawned_app.
              rewrite (@plain_killed d P), (@plain_spawned d P). reflexivity.
           ++ rewrite !t_spawned_app, (@plain_spawned d P). simpl. lia.
           ++ rewrite !t_spawned_app, (@plain_spawned d P), !tcount_app.
              change (tcount t_is_request pre) with 0.
              change (tcount t_is_request [child; TSleep 3000]) with 0.
              change (tcount t_is_request [TKill h; TSleep 2000]) with 0.
              simpl List.length. lia.
           ++ rewrite !t_duration_app.
              change (t_duration pre) with 0%N.
              change (t_duration [child; TSleep 3000]) with 3000%N.
              change (t_duration [TKill h; TSleep 2000]) with 2000%N.
              lia.
    + eexists. split; [|left; exists false; split].
      2:{ cbv beta iota.
          match goal with
          | |- tbind ?m _ tr1 = _ =>
              match type of S with
              | _ = (_, ?t) => assert (I : m tr1 = (Ret (None, false), t))
              end
          end.
          { rewrite (@tbind_ret _ _ _ _ _ _ _ S). reflexivity. }
          rewrite (@tbind_ret _ _ _ _ _ _ _ I). tmonad. subst tr1.
          rewrite <- !app_assoc. simpl. reflexivity. }
      { apply good_quiet. reflexivity. }
      reflexivity.
  - eexists. split; [|left; exists false; split].
    2:{ tmonad. rewrite <- !app_assoc. simpl. reflexivity. }
    { apply good_quiet. reflexivity. }
    reflexivity.
Qed.

Ltac quiet_step :=
  match goal with
  | |- ends ?b _ ?k =>
      apply (@ends_bind _ _ b _ _ 0 k);
      [apply ends_say; reflexivity|intros _]
  end.

Lemma ends_runTests b w fails cwd :
  (b = false -> forall uv tr, test_start_dies w fails cwd uv tr = false) ->
  ends b (runTests w fails cwd) 2.
Proof.
  intros Hb. unfold runTests, tlog, tsleep.
  do 5 quiet_step.
  apply (@ends_bind _ _ b _ _ 0 2); [apply ends_every|intros envOk].
  do 3 quiet_step.
  apply (@ends_bind _ _ b _ _ 1 1);
    [apply ends_phase; intros H; apply Hb; exact H|intros bundledWorking].
  do 3 quiet_step.
  apply (@ends_bind _ _ b _ _ 1 0);
    [apply ends_phase; intros H; apply Hb; exact H|intros venvWorking].
  do 7 quiet_step.
  apply (@ends_bind _ _ b _ _ 0 0).
  - destruct (bundledWorking || venvWorking).
    + quiet_step. apply ends_say; reflexivity.
    + quiet_step. apply (@ends_bind _ _ b _ _ 0 0).
      * destruct (negb venvWorking); [apply ends_say; reflexivity|apply ends_ret].
      * intros _.
        destruct (negb bundledWorking && w_existsSync w "venv");
          [apply ends_say; reflexivity|apply ends_ret].
  - intros _. do 4 quiet_step. apply ends_say; reflexivity.
Qed.

(** X18: [runTests] never rejects and leaves no child behind, however it
    ends.  It either completes, or the process dies on a child that failed
    to start, and then that failure is the last thing that happened.
    Either way every child it spawned it has killed, in the same order; at
    no moment are two children alive; it spawns at most two, makes at most
    ten requests for each, and is suspended for at most 68 s in all. *)
Theorem X_run_tests_cleans_up : forall w fails cwd tr,
  let d := added (runTests w fails cwd) tr in
  (fst (runTests w fails cwd tr) = Ret tt /\ tcount t_is_failed_start d = 0 \/
   fst (runTests w fails cwd tr) = Died /\
   t_is_failed_start (last d TBlank) = true) /\
  t_killed d = t_spawned d /\
  t_live d [] = [] /\
  (forall p s, d = p ++ s -> List.length (t_live p []) <= 1) /\
  List.length (t_spawned d) <= 2 /\
  tcount t_is_request d <= 10 * List.length (t_spawned d) /\
  (t_duration d <= 68000)%N.
Proof.
  intros w fails cwd tr d.
  assert (H : true = false ->
              forall uv tr, test_start_dies w fails cwd uv tr = false)
    by discriminate.
  destruct (@ends_runTests true w fails cwd H tr)
    as (d' & ((L & O) & K & S & R & D) & [([] & E & F)|(_ & E & F)]);
    (assert (Hd : d = d') by (apply (@added_app _ _ _ _ _ E)));
    rewrite E, Hd; simpl fst; repeat split; auto.
Qed.

Lemma able_never_dies w fails cwd :
  (forall n, fails n = false) ->
  w_existsSync w (test_python_cwd w cwd false) = true ->
  w_existsSync w (test_python_cwd w cwd true) = true ->
  forall uv tr, test_start_dies w fails cwd uv tr = false.
Proof.
  intros Hf H0 H1 uv tr. unfold test_start_dies, start_fails.
  rewrite Hf. destruct uv; [rewrite H1|rewrite H0]; simpl;
    rewrite !andb_false_r; reflexivity.
Qed.

(** X20: when every child that [runTests] asks for can be started (both
    working directories exist and nothing else prevents the start), the
    script runs to its end: it neither throws nor dies. *)
Theorem X_run_tests_completes : forall w fails cwd tr,
  (forall n, fails n = false) ->
  w_existsSync w (test_python_cwd w cwd false) = true ->
  w_existsSync w (test_python_cwd w cwd true) = true ->
  fst (runTests w fails cwd tr) = Ret tt /\
  tcount t_is_failed_start (added (runTests w fails cwd) tr) = 0.
Proof.
  intros w fails cwd tr Hf H0 H1.
  destruct (@ends_runTests false w fails cwd
              (fun _ => @able_never_dies w fails cwd Hf H0 H1) tr)
    as (d' & _ & [([] & E & F)|(Hb & _)]); [|discriminate].
  rewrite (@added_app _ _ _ _ _ E), E. split; [reflexivity|exact F].
Qed.

Lemma X_run_tests_completes_witness :
  fst (runTests dev_checkout (fun _ => false) "/app" []) = Ret tt /\
  tcount t_is_failed_start (added (runTests dev_checkout (fun _ => false) "/app") []) = 0.
Proof.
  apply (@X_run_tests_completes dev_checkout (fun _ => false) "/app" []).
  - intros n. reflexivity.
  - vm_compute. reflexivity.
  - vm_compute. reflexivity.
Defined.

Lemma dies_bind_l {A B} (m : T A) (f : A -> T B) : dies m -> dies (tbind m f).
Proof.
  intros H tr. destruct (H tr) as (d & E & L). exists d.
  unfold tbind. rewrite E. split; [reflexivity|exact L].
Qed.

Lemma dies_bind_r {A B} (m : T A) (f : A -> T B) j :
  ends true m j -> (forall a, dies (f a)) -> dies (tbind m f).
Proof.
  intros Hm Hf tr.
  destruct (Hm tr) as (d1 & _ & [(a & E1 & _)|(_ & E1 & L1)]).
  - destruct (Hf a (tr ++ d1)) as (d2 & E2 & L2). exists (d1 ++ d2).
    rewrite (@tbind_ret _ _ _ _ _ _ _ E1), E2, <- app_assoc.
    split; [reflexivity|].
    rewrite last_app_nonempty; [exact L2|].
    apply failed_last_nonempty. exact L2.
  - exists d1. unfold tbind. rewrite E1. split; [reflexivity|exact L1].
Qed.

Lemma phase_dies w fails cwd uv gate desc skipped :
  w_existsSync w gate = true ->
  w_existsSync w (test_python_path w cwd uv) = true ->
  (forall n, w_spawnThrows w n = false) ->
  w_existsSync w (test_python_cwd w cwd uv) = false ->
  dies (phase w fails cwd uv gate desc skipped).
Proof.
  intros Hg Hp Ht Hc tr. unfold phase.
  assert (C : checkFileExists w gate desc tr =
              (Ret true, tr ++ [TLog Green (MFound desc gate)])).
  { unfold checkFileExists. tmonad. rewrite Hg. reflexivity. }
  rewrite (@tbind_ret _ _ _ _ _ _ _ C). cbv beta iota.
  set (tr1 := tr ++ [TLog Green (MFound desc gate)]).
  pose proof (start_test_run w fails cwd uv tr1) as S.
  unfold start_fails in S. rewrite Hp, Ht, Hc in S. cbn [negb orb] in S.
  eexists. split.
  - unfold tbind at 1. unfold tbind at 1. rewrite S. subst tr1.
    rewrite <- app_assoc. reflexivity.
  - reflexivity.
Qed.

Ltac quiet_prefix :=
  match goal with
  | |- dies _ =>
      apply (@dies_bind_r _ _ _ _ 0); [apply ends_say; reflexivity|intros _]
  end.

(** X21: the script has no ['error'] listener on its children.  When the
    virtual environment and its interpreter are there but
    [core-rag-service], the child's working directory, is not, [runTests]
    does not report a failed venv test: the process dies on the child that
    could not be started, at the latest in phase 3, and that failure is the
    last thing that happened. *)
Theorem X_run_tests_dies : forall w fails cwd tr,
  w_existsSync w "venv" = true ->
  w_existsSync w (test_python_path w cwd true) = true ->
  (forall n, w_spawnThrows w n = false) ->
  w_existsSync w (test_python_cwd w cwd true) = false ->
  fst (runTests w fails cwd tr) = Died /\
  t_is_failed_start (last (added (runTests w fails cwd) tr) TBlank) = true.
Proof.
  intros w fails cwd tr Hv Hp Ht Hc.
  assert (D : dies (runTests w fails cwd)).
  { unfold runTests, tlog.
    do 5 quiet_prefix.
    apply (@dies_bind_r _ _ _ _ 0); [apply ends_every|intros envOk].
    do 3 quiet_prefix.
    apply (@dies_bind_r _ _ _ _ 1);
      [apply ends_phase; discriminate|intros bundledWorking].
    do 3 quiet_prefix.
    apply dies_bind_l. apply phase_dies; assumption. }
  destruct (D tr) as (d & E & L).
  rewrite (@added_app _ _ _ _ _ E), E. split; [reflexivity|exact L].
Qed.

Lemma X_run_tests_dies_witness :
  fst (runTests moved_service (fun _ => false) "/app" []) = Died /\
  t_is_failed_start
    (last (added (runTests moved_service (fun _ => false) "/app") []) TBlank) = true.
Proof.
  apply (@X_run_tests_dies moved_service (fun _ => false) "/app" []).
  - vm_compute. reflexivity.
  - vm_compute. reflexivity.
  - intros n. reflexivity.
  - vm_compute. reflexivity.
Defined.
